(** * Jarvis assistant: fact extraction, memory store and RAG engine

    A shallow embedding of [jarvis_assistant/preprocess.py],
    [jarvis_assistant/memory_store.py] and [jarvis_assistant/rag_engine.py].

    Python values are modelled as the code handles them: a [str] is a list
    of code points, the parsed export is a JSON value, exceptions are an
    explicit result type, and the objects the methods mutate (the SQLite
    table, the Chroma collection, the conversation log and the in-memory
    history) are fields of explicit states. *)

From Stdlib Require Import String Ascii.
From Stdlib Require Import List ZArith NArith Bool Lia Sorted.
From Stdlib Require Import Floats DecimalString.
From Stdlib Require DecimalPos DecimalZ.
Import ListNotations.

Set Warnings "-register-all,-inexact-float".


Local Open Scope Z_scope.

(** ** Python strings *)

(** A [str] is a sequence of Unicode code points; [len] counts them. *)
Definition pystr := list N.

(** An ASCII literal of the source as a [pystr]. *)
Fixpoint lit (s : string) : pystr :=
  match s with
  | EmptyString => []
  | String c s' => N_of_ascii c :: lit s'
  end.

Fixpoint pystr_eqb (a b : pystr) : bool :=
  match a, b with
  | [], [] => true
  | x :: a', y :: b' => N.eqb x y && pystr_eqb a' b'
  | _, _ => false
  end.

Fixpoint startswith (prefix s : pystr) : bool :=
  match prefix, s with
  | [], _ => true
  | p :: prefix', c :: s' => N.eqb p c && startswith prefix' s'
  | _ :: _, [] => false
  end.

(** [contains needle hay] is Python's [needle in hay] on strings. *)
Fixpoint contains (needle hay : pystr) : bool :=
  startswith needle hay ||
  match hay with
  | [] => false
  | _ :: hay' => contains needle hay'
  end.

(** [str.isspace] of one code point: the Unicode white space of CPython. *)
Definition isspace (c : N) : bool :=
  ((9 <=? c) && (c <=? 13) || (28 <=? c) && (c <=? 32) ||
   (c =? 133) || (c =? 160) || (c =? 5760) ||
   (8192 <=? c) && (c <=? 8202) || (c =? 8232) || (c =? 8233) ||
   (c =? 8239) || (c =? 8287) || (c =? 12288))%N.

Fixpoint lstrip (s : pystr) : pystr :=
  match s with
  | [] => []
  | c :: s' => if isspace c then lstrip s' else s
  end.

Definition rstrip (s : pystr) : pystr := rev (lstrip (rev s)).

(** [s.strip()] *)
Definition strip (s : pystr) : pystr := rstrip (lstrip s).

(** [len(s)] *)
Definition len {A} (l : list A) : Z := Z.of_nat (List.length l).

(** Decimal rendering of an [int], as [str(n)] gives it. *)
Definition str_of_int (z : Z) : pystr :=
  lit (NilZero.string_of_int (Z.to_int z)).

(** ** JSON values, as [json.load] builds them *)

Inductive json : Type :=
| JNull
| JBool (b : bool)
| JInt (z : Z)
| JFloat (f : float)
| JStr (s : pystr)
| JList (items : list json)
| JDict (fields : list (pystr * json)).

(** Python truthiness, the test behind [or] and [not]. *)
Definition truthy (v : json) : bool :=
  match v with
  | JNull => false
  | JBool b => b
  | JInt z => negb (z =? 0)
  | JFloat f => negb (PrimFloat.eqb f PrimFloat.zero)
  | JStr s => match s with [] => false | _ => true end
  | JList l => match l with [] => false | _ => true end
  | JDict d => match d with [] => false | _ => true end
  end.

(** [a or b] *)
Definition py_or (a b : json) : json := if truthy a then a else b.

Fixpoint assoc (k : pystr) (d : list (pystr * json)) : option json :=
  match d with
  | [] => None
  | (k', v) :: d' => if pystr_eqb k k' then Some v else assoc k d'
  end.

(** ** Exceptions *)

Inductive exn : Type :=
| ValueError (message : pystr)
| AttributeError
| KeyError (key : pystr)
| TypeError
| IndexError
| EOFError
| OverflowError
| ProgrammingError
| OperationalError
| JSONDecodeError
| UnicodeDecodeError
| BackendError (message : pystr).

Inductive result (A : Type) : Type :=
| Ok (a : A)
| Raise (e : exn).
Arguments Ok {A} a.
Arguments Raise {A} e.

Definition bind {A B} (r : result A) (k : A -> result B) : result B :=
  match r with
  | Ok a => k a
  | Raise e => Raise e
  end.

Notation "x <- r ;; k" := (bind r (fun x => k))
  (at level 61, r at next level, right associativity).

(** [msg.get(key)]: [None] when the key is absent; only a dict has [get]. *)
Definition dict_get (msg : json) (key : pystr) : result json :=
  match msg with
  | JDict d => Ok (match assoc key d with Some v => v | None => JNull end)
  | _ => Raise AttributeError
  end.

(** [obj[key]] for a string key: [KeyError] on a dict without the key,
    [TypeError] on anything that is not a dict. *)
Definition subscript (obj : json) (key : pystr) : result json :=
  match obj with
  | JDict d => match assoc key d with
               | Some v => Ok v
               | None => Raise (KeyError key)
               end
  | _ => Raise TypeError
  end.

(** ** The built-ins whose tables are not part of the repository *)

(** [str.lower] follows the Unicode case mapping, [repr] prints floats and
    containers, and SQLite renders a real number as text on its own; the
    three are taken as given. *)
Class Builtins : Type := {
  lower : pystr -> pystr;
  repr : json -> pystr;
  real_text : float -> pystr
}.

(** The instance that agrees with Python on ASCII text. *)
Definition ascii_lower_char (c : N) : N :=
  if ((65 <=? c) && (c <=? 90))%N then (c + 32)%N else c.

Definition ascii_lower (s : pystr) : pystr := map ascii_lower_char s.

Definition ascii_builtins : Builtins :=
  {| lower := ascii_lower;
     repr := fun _ => lit "<object>";
     real_text := fun _ => lit "<real>" |}.

(** ** preprocess.py: classification *)

Inductive category : Type :=
| business | investment | interest | habit | personal_trait
| preference | relationship | humor | general.

Definition category_name (c : category) : pystr :=
  match c with
  | business => lit "business"
  | investment => lit "investment"
  | interest => lit "interest"
  | habit => lit "habit"
  | personal_trait => lit "personal_trait"
  | preference => lit "preference"
  | relationship => lit "relationship"
  | humor => lit "humor"
  | general => lit "general"
  end.

(** [any(word in text_lower for word in words)] *)
Definition any_in (words : list pystr) (text_lower : pystr) : bool :=
  existsb (fun word => contains word text_lower) words.

Definition business_words : list pystr :=
  [lit "business"; lit "startup"; lit "company"; lit "meeting";
   lit "client"; lit "revenue"; lit "pitch"; lit "investor"].
Definition investment_words : list pystr :=
  [lit "invest"; lit "stock"; lit "crypto"; lit "trading";
   lit "portfolio"; lit "bitcoin"; lit "eth"].
Definition interest_words : list pystr :=
  [lit "love"; lit "enjoy"; lit "favorite"; lit "like";
   lit "interested"; lit "passion"; lit "hobby"].
Definition habit_words : list pystr :=
  [lit "every day"; lit "always"; lit "usually"; lit "routine";
   lit "habit"; lit "morning"; lit "evening"].
Definition personal_trait_words : list pystr :=
  [lit "i am"; lit "i'm"; lit "i feel"; lit "i think";
   lit "i believe"; lit "my opinion"].
Definition preference_words : list pystr :=
  [lit "prefer"; lit "rather"; lit "better than"; lit "dont like";
   lit "don't like"; lit "hate"].
Definition relationship_words : list pystr :=
  [lit "friend"; lit "family"; lit "mom"; lit "dad"; lit "brother";
   lit "sister"; lit "relationship"].
(** The two emoji are U+1F602 and U+1F923. *)
Definition humor_words : list pystr :=
  [lit "haha"; lit "lol"; lit "lmao"; [128514%N]; [129315%N];
   lit "funny"; lit "joke"].

Section Classification.
Context {builtins : Builtins}.

Definition _classify_message (text : pystr) : category :=
  let text_lower := lower text in
  if any_in business_words text_lower then business
  else if any_in investment_words text_lower then investment
  else if any_in interest_words text_lower then interest
  else if any_in habit_words text_lower then habit
  else if any_in personal_trait_words text_lower then personal_trait
  else if any_in preference_words text_lower then preference
  else if any_in relationship_words text_lower then relationship
  else if any_in humor_words text_lower then humor
  else general.

End Classification.

(** The closed set of categories, in priority order. *)
Definition categories : list category :=
  [business; investment; interest; habit; personal_trait; preference;
   relationship; humor; general].

(** The classification policy as the specification words it: an ordered
    table of (category, keyword list) pairs, read top to bottom, the first
    pair with a keyword in the text giving the category, [general]
    otherwise. *)
Definition priority_table : list (category * list pystr) :=
  [(business, business_words); (investment, investment_words);
   (interest, interest_words); (habit, habit_words);
   (personal_trait, personal_trait_words);
   (preference, preference_words);
   (relationship, relationship_words); (humor, humor_words)].

Fixpoint first_match (table : list (category * list pystr))
    (text_lower : pystr) : category :=
  match table with
  | [] => general
  | (c, words) :: table' =>
      if any_in words text_lower then c else first_match table' text_lower
  end.



(** ** Slices and ranges *)

(** A slice bound brought into [0, n] as Python does: a negative bound
    counts from the end. *)
Definition clamp_index (n i : Z) : Z :=
  if i <? 0 then Z.max (i + n) 0 else Z.min i n.

(** [l[lo:hi]] with step 1; [None] is an omitted bound. *)
Definition py_slice {A} (l : list A) (lo hi : option Z) : list A :=
  let n := len l in
  let a := match lo with None => 0 | Some i => clamp_index n i end in
  let b := match hi with None => n | Some j => clamp_index n j end in
  firstn (Z.to_nat (b - a)) (skipn (Z.to_nat a) l).

(** [range(start, stop, step)] *)
Definition py_range (start stop step : Z) : result (list Z) :=
  if step =? 0 then Raise (ValueError (lit "range() arg 3 must not be zero"))
  else
    let n := if 0 <? step then (stop - start + step - 1) / step
             else (start - stop - step - 1) / (- step) in
    Ok (map (fun k => start + Z.of_nat k * step) (seq 0 (Z.to_nat n))).

(** ** preprocess.py: loading and extraction *)

(** [len(v)] of a JSON value. *)
Definition py_len (v : json) : result Z :=
  match v with
  | JStr s => Ok (len s)
  | JList l => Ok (len l)
  | JDict d => Ok (len d)
  | _ => Raise TypeError
  end.

Definition unknown_structure : pystr :=
  lit "Unknown JSON structure. Expected list of messages or dict with 'messages' key".

(** [load_json], from the parsed file content [data] to [self.messages].
    The closing [print] takes [len(self.messages)]. *)
Definition load_json (data : json) : result json :=
  messages <-
    match data with
    | JList _ => Ok data
    | JDict d =>
        match assoc (lit "messages") d with
        | Some v => Ok v
        | None => Raise (ValueError unknown_structure)
        end
    | _ => Raise (ValueError unknown_structure)
    end ;;
  _ <- py_len messages ;;
  Ok messages.

(** [msg.get(key) or rest] *)
Definition get_or (msg : json) (key : pystr) (rest : result json)
  : result json :=
  v <- dict_get msg key ;;
  if truthy v then Ok v else rest.

(** Iterating a JSON value: a list gives its items; the other iterables
    (a dict gives its keys, a string its characters) give strings. *)
Definition py_iter (v : json) : result (list json) :=
  match v with
  | JList l => Ok l
  | JDict d => Ok (map (fun kv => JStr (fst kv)) d)
  | JStr s => Ok (map (fun c => JStr [c]) s)
  | _ => Raise TypeError
  end.

Record Fact : Type := {
  fact_type : pystr;
  content : pystr;
  source_reference : pystr;
  timestamp : json;
  raw_text : pystr
}.

Section Preprocessor.
Context {builtins : Builtins}.

(** The value of [{v}] inside an f-string. *)
Definition format_value (v : json) : pystr :=
  match v with
  | JStr s => s
  | JInt z => str_of_int z
  | JBool true => lit "True"
  | JBool false => lit "False"
  | JNull => lit "None"
  | _ => repr v
  end.

(** [sender.lower()]: only a string has the method. *)
Definition lower_of (v : json) : result pystr :=
  match v with
  | JStr s => Ok (lower s)
  | _ => Raise AttributeError
  end.

Fixpoint filter_user_messages_loop (user_name : pystr) (messages : list json)
  : result (list json) :=
  match messages with
  | [] => Ok []
  | msg :: rest =>
      sender <- get_or msg (lit "from")
                  (get_or msg (lit "sender")
                     (get_or msg (lit "author") (Ok (JStr [])))) ;;
      sender_lower <- lower_of sender ;;
      kept <- filter_user_messages_loop user_name rest ;;
      Ok (if contains (lower user_name) sender_lower then msg :: kept
          else kept)
  end.

Definition filter_user_messages (user_name : pystr) (messages : json)
  : result (list json) :=
  items <- py_iter messages ;;
  filter_user_messages_loop user_name items.

(** One pass of the loop body of [extract_facts] on message [msg] at
    position [i]: [None] for [continue], [Some fact] for an append. *)
Definition extract_one (i : Z) (msg : json) : result (option Fact) :=
  text <- get_or msg (lit "text")
            (get_or msg (lit "message")
               (get_or msg (lit "body") (Ok (JStr [])))) ;;
  timestamp <- get_or msg (lit "timestamp")
                 (get_or msg (lit "datetime")
                    (get_or msg (lit "date")
                       (get_or msg (lit "time") (Ok (JStr []))))) ;;
  msg_id <- get_or msg (lit "id") (Ok (JInt i)) ;;
  if negb (truthy text) then Ok None
  else
    match text with
    | JStr s =>
        if len (strip s) <? 5 then Ok None
        else Ok (Some {| fact_type := category_name (_classify_message s);
                         content := strip s;
                         source_reference := lit "msg_" ++ format_value msg_id;
                         timestamp := timestamp;
                         raw_text := s |})
    | _ => Raise AttributeError
    end.

Fixpoint extract_from (i : Z) (messages : list json) : result (list Fact) :=
  match messages with
  | [] => Ok []
  | msg :: rest =>
      o <- extract_one i msg ;;
      facts <- extract_from (i + 1) rest ;;
      Ok (match o with Some fact => fact :: facts | None => facts end)
  end.

Definition extract_facts (messages : list json) : result (list Fact) :=
  extract_from 0 messages.

End Preprocessor.

(** A message the loop body keeps: its text is a string of at least five
    characters once trimmed. *)
Definition message_text (msg : json) : json :=
  match get_or msg (lit "text")
          (get_or msg (lit "message")
             (get_or msg (lit "body") (Ok (JStr [])))) with
  | Ok v => v
  | Raise _ => JNull
  end.

Definition kept_message (msg : json) : bool :=
  match message_text msg with
  | JStr s => negb (len (strip s) <? 5)
  | _ => false
  end.

(** A message object whose text, when present, is a string. *)
Definition message_object (msg : json) : bool :=
  match msg with
  | JDict _ =>
      match message_text msg with
      | JStr _ => true
      | v => negb (truthy v)
      end
  | _ => false
  end.

(** The three messages of the end-to-end extraction scenario. *)
Definition scenario_messages : list json :=
  [JDict [(lit "from", JStr (lit "Arunav"));
          (lit "text", JStr (lit "I love trading crypto"))];
   JDict [(lit "from", JStr (lit "Arunav"));
          (lit "text", JStr (lit "haha that's funny"))];
   JDict [(lit "from", JStr (lit "Arunav"));
          (lit "text", JStr (lit "ok"))]].

Definition scenario_facts : list Fact :=
  [{| fact_type := lit "investment";
      content := lit "I love trading crypto";
      source_reference := lit "msg_0";
      timestamp := JStr [];
      raw_text := lit "I love trading crypto" |};
   {| fact_type := lit "humor";
      content := lit "haha that's funny";
      source_reference := lit "msg_1";
      timestamp := JStr [];
      raw_text := lit "haha that's funny" |}].

(** ** The facts table (SQLite) *)

Inductive sqlvalue : Type :=
| SqlNull
| SqlInteger (z : Z)
| SqlReal (f : float)
| SqlText (s : pystr).

(** A lone surrogate has no UTF-8 encoding. *)
Definition surrogate (c : N) : bool := ((55296 <=? c) && (c <=? 57343))%N.

(** How the [sqlite3] module binds a Python value to a [?]: [None], [int]
    (a [bool] is one) within 64 bits, [float] and [str] are accepted, a
    list or a dict is not ([ProgrammingError]; [InterfaceError] before
    Python 3.11). SQLite keeps a NaN as NULL. *)
Definition bind_parameter (v : json) : result sqlvalue :=
  match v with
  | JNull => Ok SqlNull
  | JBool b => Ok (SqlInteger (if b then 1 else 0))
  | JInt z =>
      if (- 2 ^ 63 <=? z) && (z <? 2 ^ 63) then Ok (SqlInteger z)
      else Raise OverflowError
  | JFloat f => Ok (if PrimFloat.eqb f f then SqlReal f else SqlNull)
  | JStr s =>
      if existsb surrogate s then Raise (ValueError (lit "surrogates not allowed"))
      else Ok (SqlText s)
  | JList _ | JDict _ => Raise ProgrammingError
  end.

(** One row of [facts]. The column [timestamp] is declared TEXT, so a
    number bound to it is stored as its text; the other data columns
    receive strings. *)
Record Row : Type := {
  row_id : Z;
  row_type : pystr;
  row_content : pystr;
  row_source_reference : pystr;
  row_timestamp : option pystr;
  row_raw_text : pystr;
  created_at : pystr
}.

(** The table with its AUTOINCREMENT counter ([sqlite_sequence]). *)
Record Database : Type := {
  table_exists : bool;
  rows : list Row;
  sequence : Z
}.

Definition empty_database : Database :=
  {| table_exists := false; rows := []; sequence := 0 |}.

Definition next_row_id (db : Database) : Z :=
  Z.max (sequence db) (fold_right Z.max 0 (map row_id (rows db))) + 1.

(** The largest id of a row: ids are signed 64-bit integers, and an
    AUTOINCREMENT table refuses an insert once that id has been used. *)
Definition max_row_id : Z := 2 ^ 63 - 1.

(** Whether the table can take [n] more rows. *)
Definition has_room (db : Database) (n : Z) : bool :=
  (n <=? 0) || (next_row_id db + n - 1 <=? max_row_id).

Section FactStore.
Context {builtins : Builtins}.

(** The clock of the store: [current_timestamp id] is CURRENT_TIMESTAMP
    when the row [id] is inserted. *)
Variable current_timestamp : Z -> pystr.

Definition text_affinity (v : sqlvalue) : option pystr :=
  match v with
  | SqlNull => None
  | SqlInteger z => Some (str_of_int z)
  | SqlReal f => Some (real_text f)
  | SqlText s => Some s
  end.

(** Binding a [str]. *)
Definition bind_text (s : pystr) : result pystr :=
  v <- bind_parameter (JStr s) ;;
  match v with
  | SqlText t => Ok t
  | _ => Raise ProgrammingError
  end.

(** The INSERT statement of [save_to_db] for one fact: the values are
    bound, then the row gets the next id, if there is one left. *)
Definition insert_fact (db : Database) (fact : Fact) : result Database :=
  type <- bind_text (fact_type fact) ;;
  content <- bind_text (content fact) ;;
  source_reference <- bind_text (source_reference fact) ;;
  timestamp <- bind_parameter (timestamp fact) ;;
  raw_text <- bind_text (raw_text fact) ;;
  let id := next_row_id db in
  if id <=? max_row_id then
    Ok {| table_exists := true;
          rows := rows db ++
                  [{| row_id := id;
                      row_type := type;
                      row_content := content;
                      row_source_reference := source_reference;
                      row_timestamp := text_affinity timestamp;
                      row_raw_text := raw_text;
                      created_at := current_timestamp id |}];
          sequence := id |}
  else Raise OperationalError.

Fixpoint insert_facts (db : Database) (facts : list Fact) : result Database :=
  match facts with
  | [] => Ok db
  | fact :: rest => db' <- insert_fact db fact ;; insert_facts db' rest
  end.

(** [save_to_db]: the outcome and the durable table afterwards. CREATE
    TABLE IF NOT EXISTS takes effect at once; the inserts become durable
    at [commit], which an exception in the loop never reaches. *)
Definition save_to_db (db : Database) (facts : list Fact)
  : result unit * Database :=
  let created := {| table_exists := true;
                    rows := rows db;
                    sequence := sequence db |} in
  match insert_facts created facts with
  | Ok db' => (Ok tt, db')
  | Raise e => (Raise e, created)
  end.

End FactStore.

(** A fact every field of which SQLite can store. *)
Definition storable (fact : Fact) : bool :=
  match bind_parameter (JStr (fact_type fact)),
        bind_parameter (JStr (content fact)),
        bind_parameter (JStr (source_reference fact)),
        bind_parameter (timestamp fact),
        bind_parameter (JStr (raw_text fact)) with
  | Ok _, Ok _, Ok _, Ok _, Ok _ => true
  | _, _, _, _, _ => false
  end.

(** The data of a row, without the store-assigned id and time. *)
Definition row_data (r : Row)
  : pystr * pystr * pystr * option pystr * pystr :=
  (row_type r, row_content r, row_source_reference r, row_timestamp r,
   row_raw_text r).

(** What a stored row holds of a fact. *)
Definition fact_data {builtins : Builtins} (fact : Fact)
  : pystr * pystr * pystr * option pystr * pystr :=
  (fact_type fact, content fact, source_reference fact,
   match bind_parameter (timestamp fact) with
   | Ok v => text_affinity v
   | Raise _ => None
   end,
   raw_text fact).

(** ** config.py *)

Record Config : Type := {
  USER_NAME : pystr;
  TOP_K_RESULTS : Z;
  LLM_PROVIDER : pystr;
  LLM_MODEL : pystr
}.

(** ** memory_store.py *)

(** A fact as [load_facts_from_db] reads it. *)
Record LoadedFact : Type := {
  loaded_id : Z;
  loaded_type : pystr;
  loaded_content : pystr;
  loaded_source_reference : pystr;
  loaded_timestamp : option pystr
}.

(** The metadata blob stored with an embedding. *)
Record Metadata : Type := {
  meta_type : pystr;
  meta_source_reference : pystr;
  meta_timestamp : option pystr
}.

(** One entry of the Chroma collection "jarvis_memory". *)
Record Entry : Type := {
  entry_id : pystr;
  entry_document : pystr;
  entry_embedding : list float;
  entry_metadata : Metadata
}.

(** The answer of [collection.query] for one query embedding: parallel
    lists, wrapped in a list with one item per query. A field that the
    answer leaves out holds [None]; [distances] is [None] when the answer
    has no such key at all. *)
Record QueryResult : Type := {
  documents : option (list (list pystr));
  metadatas : option (list (list Metadata));
  distances : option (option (list (list float)))
}.

(** A fact as [search] returns it. *)
Record Hit : Type := {
  hit_content : pystr;
  hit_type : pystr;
  hit_source_reference : pystr;
  hit_timestamp : option pystr;
  hit_distance : option float
}.

(** The collaborators outside the repository: the embedding backend, the
    nearest-neighbour query of Chroma, the two generation backends and
    the [json] codec. Each may raise; [json_loads] raises
    [JSONDecodeError] on a text that is not JSON and may raise another
    error, as [json.loads] does on an integer literal beyond the digit
    limit of [int] (a plain [ValueError]) or on nesting beyond the
    recursion limit. *)
Class Services : Type := {
  embed_function : list pystr -> result (list (list float));
  collection_query : list Entry -> list float -> Z -> result QueryResult;
  anthropic_create :
    pystr -> Z -> pystr -> list (pystr * json) -> result pystr;
  openai_create :
    pystr -> list (pystr * json) -> Z -> float -> result pystr;
  json_loads : pystr -> result json;
  json_dumps : json -> pystr
}.

(** What a [MemoryStore] holds: the facts table and the collection. *)
Record Store : Type := {
  db : Database;
  collection : list Entry
}.

(** Methods that change the store: the outcome and the store afterwards. *)
Definition M (S A : Type) : Type := S -> result A * S.

Definition ret {S A} (a : A) : M S A := fun st => (Ok a, st).

Definition lift {S A} (r : result A) : M S A := fun st => (r, st).

Definition mbind {S A B} (m : M S A) (k : A -> M S B) : M S B :=
  fun st =>
    match m st with
    | (Ok a, st') => k a st'
    | (Raise e, st') => (Raise e, st')
    end.

Notation "x <~ m ;; k" := (mbind m (fun x => k))
  (at level 61, m at next level, right associativity).

(** [for x in items: body x] *)
Fixpoint for_each {S A} (items : list A) (body : A -> M S unit) : M S unit :=
  match items with
  | [] => ret tt
  | x :: rest => _ <~ body x ;; for_each rest body
  end.

(** [l[i]] for an index within [range(len(...))]. *)
Definition item {A} (l : list A) (i : nat) : result A :=
  match nth_error l i with
  | Some a => Ok a
  | None => Raise IndexError
  end.

(** [v[0]] when [v] may be [None]. *)
Definition first_of {A} (v : option (list A)) : result A :=
  match v with
  | None => Raise TypeError
  | Some l => item l 0
  end.

Definition load_facts_from_db (d : Database) : result (list LoadedFact) :=
  if table_exists d then
    Ok (map (fun r => {| loaded_id := row_id r;
                         loaded_type := row_type r;
                         loaded_content := row_content r;
                         loaded_source_reference := row_source_reference r;
                         loaded_timestamp := row_timestamp r |}) (rows d))
  else Raise OperationalError.

Definition metadata_of (fact : LoadedFact) : Metadata :=
  {| meta_type := loaded_type fact;
     meta_source_reference := loaded_source_reference fact;
     meta_timestamp := loaded_timestamp fact |}.

(** Chroma takes a metadata value that is a string, a number or a
    boolean and refuses [None]: of the three values [build_vector_index]
    passes, only the timestamp, read from a column that admits NULL, can
    be [None]. *)
Definition valid_metadata (m : Metadata) : bool :=
  match meta_timestamp m with
  | Some _ => true
  | None => false
  end.

Definition has_timestamp (fact : LoadedFact) : bool :=
  valid_metadata (metadata_of fact).

(** [collection.add] on ids the collection does not hold yet: every
    metadata must be valid and the four parallel lists must agree in
    length, otherwise nothing is added. *)
Definition collection_add (ids documents : list pystr)
    (embeddings : list (list float)) (metas : list Metadata)
  : M Store unit :=
  fun st =>
    if negb (forallb valid_metadata metas) then (Raise TypeError, st)
    else
    if (length ids =? length documents)%nat &&
       (length ids =? length embeddings)%nat &&
       (length ids =? length metas)%nat
    then
      (Ok tt,
       {| db := db st;
          collection :=
            collection st ++
            map (fun x =>
                   {| entry_id := fst (fst (fst x));
                      entry_document := snd (fst (fst x));
                      entry_embedding := snd (fst x);
                      entry_metadata := snd x |})
              (combine (combine (combine ids documents) embeddings) metas) |})
    else (Raise (ValueError (lit "Unequal lengths")), st).

(** [delete_collection] followed by [get_or_create_collection]. *)
Definition recreate_collection : M Store unit :=
  fun st => (Ok tt, {| db := db st; collection := [] |}).

Section MemoryStore.
Context {builtins : Builtins} {services : Services}.
Variable config : Config.

(** The body of the indexing loop for the batch that starts at [i]. *)
Definition index_batch (facts : list LoadedFact) (batch_size i : Z)
  : M Store unit :=
  let batch := py_slice facts (Some i) (Some (i + batch_size)) in
  let ids := map (fun fact => str_of_int (loaded_id fact)) batch in
  let documents := map loaded_content batch in
  let metas := map metadata_of batch in
  embeddings <~ lift (embed_function documents) ;;
  collection_add ids documents embeddings metas.

(** [build_vector_index]; [input] is what the prompt reads from the
    terminal, consulted only when the collection already has items. *)
Definition build_vector_index (input : result pystr) (batch_size : Z)
  : M Store unit :=
  fun st =>
    (facts <~ lift (load_facts_from_db (db st)) ;;
     if len facts =? 0 then ret tt
     else
       let existing_count := len (collection st) in
       let index_all :=
         starts <~ lift (py_range 0 (len facts) batch_size) ;;
         for_each starts (index_batch facts batch_size) in
       if 0 <? existing_count then
         response <~ lift input ;;
         if negb (pystr_eqb (lower response) (lit "yes")) then ret tt
         else _ <~ recreate_collection ;; index_all
       else index_all) st.

(** The loop of [search] that formats the answer of Chroma. *)
Definition format_hit (results : QueryResult) (docs : list pystr) (i : nat)
  : result Hit :=
  doc <- item docs i ;;
  metas <- first_of (metadatas results) ;;
  meta <- item metas i ;;
  distance <-
    match distances results with
    | Some held => dists <- first_of held ;; d <- item dists i ;; Ok (Some d)
    | None => Ok None
    end ;;
  Ok {| hit_content := doc;
        hit_type := meta_type meta;
        hit_source_reference := meta_source_reference meta;
        hit_timestamp := meta_timestamp meta;
        hit_distance := distance |}.

Fixpoint format_hits (results : QueryResult) (docs : list pystr)
    (indices : list nat) : result (list Hit) :=
  match indices with
  | [] => Ok []
  | i :: rest =>
      hit <- format_hit results docs i ;;
      hits <- format_hits results docs rest ;;
      Ok (hit :: hits)
  end.

Definition search (st : Store) (query : pystr) (top_k : option Z)
  : result (list Hit) :=
  let top_k := match top_k with
               | None => TOP_K_RESULTS config
               | Some k => k
               end in
  vectors <- embed_function [query] ;;
  query_embedding <- item vectors 0 ;;
  results <- collection_query (collection st) query_embedding top_k ;;
  match documents results with
  | Some (docs :: _) =>
      if 0 <? len docs then format_hits results docs (seq 0 (length docs))
      else Ok []
  | _ => Ok []
  end.

End MemoryStore.

(** The answer Chroma gives for a ranked selection of entries. *)
Definition answer_of (ranked : list (Entry * float)) : QueryResult :=
  {| documents := Some [map (fun x => entry_document (fst x)) ranked];
     metadatas := Some [map (fun x => entry_metadata (fst x)) ranked];
     distances := Some (Some [map snd ranked]) |}.

Definition hit_of (x : Entry * float) : Hit :=
  {| hit_content := entry_document (fst x);
     hit_type := meta_type (entry_metadata (fst x));
     hit_source_reference := meta_source_reference (entry_metadata (fst x));
     hit_timestamp := meta_timestamp (entry_metadata (fst x));
     hit_distance := Some (snd x) |}.

(** Non-decreasing distances. *)
Fixpoint ascending (ds : list float) : bool :=
  match ds with
  | d1 :: ((d2 :: _) as rest) => PrimFloat.leb d1 d2 && ascending rest
  | _ => true
  end.

(** The documented contract of [collection.query(n_results = k)]: at most
    [k] entries of the collection, nearest first, each with its distance. *)
Definition ranked_selection (entries : list Entry) (k : Z)
    (ranked : list (Entry * float)) : Prop :=
  len ranked <= k /\
  (forall x, In x ranked -> In (fst x) entries) /\
  ascending (map snd ranked) = true.

(** The entry that [build_vector_index] stores for a fact. *)
Definition entry_of (embed : pystr -> list float) (fact : LoadedFact)
  : Entry :=
  {| entry_id := str_of_int (loaded_id fact);
     entry_document := loaded_content fact;
     entry_embedding := embed (loaded_content fact);
     entry_metadata := metadata_of fact |}.

(** The distances that a list of hits carries, in order. *)
Definition hit_distances (hits : list Hit) : list float :=
  flat_map (fun h => match hit_distance h with
                     | Some d => [d]
                     | None => []
                     end) hits.

(** Stand-ins for the collaborators, to run the model on examples: every
    text is embedded as the same vector, the query answers with the first
    entries of the collection at one distance, the generation backends
    answer "ok", and the codec knows the empty object only and takes a
    line that starts with 9 for an integer beyond the digit limit. *)
Definition sample_loads (s : pystr) : result json :=
  if startswith (lit "{") s then Ok (JDict [])
  else if startswith (lit "9") s
  then Raise (ValueError (lit "Exceeds the limit for integer string conversion"))
  else Raise JSONDecodeError.

Definition sample_query (entries : list Entry) (v : list float) (k : Z)
  : result QueryResult :=
  if k <=? 0 then Raise (ValueError (lit "n_results must be positive"))
  else Ok (answer_of (map (fun e => (e, 0.5%float))
                        (firstn (Z.to_nat k) entries))).

Definition sample_services : Services :=
  {| embed_function := fun docs => Ok (map (fun _ => [0.5%float]) docs);
     collection_query := sample_query;
     anthropic_create := fun _ _ _ _ => Ok (lit "ok");
     openai_create := fun _ _ _ _ => Ok (lit "ok");
     json_loads := sample_loads;
     json_dumps := fun _ => lit "{}" |}.

(** The same with an index that cannot be reached. *)
Definition unreachable_services : Services :=
  {| embed_function := fun docs => Ok (map (fun _ => [0.5%float]) docs);
     collection_query :=
       fun _ _ _ => Raise (BackendError (lit "index unreachable"));
     anthropic_create := fun _ _ _ _ => Ok (lit "ok");
     openai_create := fun _ _ _ _ => Ok (lit "ok");
     json_loads := sample_loads;
     json_dumps := fun _ => lit "{}" |}.

Definition sample_config : Config :=
  {| USER_NAME := lit "Arunav";
     TOP_K_RESULTS := 10;
     LLM_PROVIDER := lit "anthropic";
     LLM_MODEL := lit "claude-3-5-sonnet-20241022" |}.

Definition sample_entry (id : Z) (text : pystr) : Entry :=
  {| entry_id := str_of_int id;
     entry_document := text;
     entry_embedding := [0.5%float];
     entry_metadata := {| meta_type := lit "general";
                          meta_source_reference := lit "msg_" ++ str_of_int id;
                          meta_timestamp := Some [] |} |}.

Definition sample_store : Store :=
  {| db := {| table_exists := true;
              rows := [{| row_id := 7; row_type := lit "humor";
                          row_content := lit "haha that's funny";
                          row_source_reference := lit "msg_1";
                          row_timestamp := Some [];
                          row_raw_text := lit "haha that's funny";
                          created_at := lit "2024-01-01 00:00:00" |}];
              sequence := 7 |};
     collection := [sample_entry 1 (lit "an old entry");
                    sample_entry 2 (lit "another old entry")] |}.

(** The same store when the row was written with a NULL timestamp. *)
Definition untimed_store : Store :=
  {| db := {| table_exists := true;
              rows := [{| row_id := 7; row_type := lit "humor";
                          row_content := lit "haha that's funny";
                          row_source_reference := lit "msg_1";
                          row_timestamp := None;
                          row_raw_text := lit "haha that's funny";
                          created_at := lit "2024-01-01 00:00:00" |}];
              sequence := 7 |};
     collection := collection sample_store |}.

(** ** rag_engine.py *)

(** A message handed to a generation backend: its role and its content. *)
Definition message : Type := (pystr * json)%type.

(** What the engine works on: the memory store, the in-memory history
    and the file at CONVERSATION_HISTORY_PATH, [None] while it does not
    exist. The file outlives the process. It is kept as the text that its
    bytes decode to; bytes that are not UTF-8 stand in it as code points
    that are no Unicode scalar values (lone surrogates, as under the
    surrogateescape error handler). *)
Record State : Type := {
  memory : Store;
  conversation_history : list json;
  log_file : option pystr
}.

(** What [query] returns. *)
Record Answer : Type := {
  response : pystr;
  retrieved_facts : list Hit;
  context : pystr;
  facts_retrieved : Z;
  model : pystr;
  answer_timestamp : pystr
}.

Definition no_memories : pystr := lit "No relevant memories found.".

(** [sep.join(parts)] *)
Fixpoint join (sep : pystr) (parts : list pystr) : pystr :=
  match parts with
  | [] => []
  | [part] => part
  | part :: rest => part ++ sep ++ join sep rest
  end.

Definition _build_context (facts : list Hit) : pystr :=
  match facts with
  | [] => no_memories
  | _ =>
      join [10%N]
        (map (fun fact => lit "[" ++ hit_type fact ++ lit "] " ++
                          hit_content fact) facts)
  end.

(** [f.readlines()]: the lines of a text, each with its line end. The
    text is the file as text mode reads it, line ends being '\n'. *)
Fixpoint readlines_from (current : pystr) (text : pystr) : list pystr :=
  match text with
  | [] => match current with [] => [] | _ => [rev current] end
  | c :: text' =>
      if (c =? 10)%N then rev (c :: current) :: readlines_from [] text'
      else readlines_from (c :: current) text'
  end.

Definition readlines (text : pystr) : list pystr := readlines_from [] text.

(** Whether a file image decodes as UTF-8: every code point of it is a
    Unicode scalar value. Reading any other file in text mode raises
    [UnicodeDecodeError]. *)
Definition decodable (text : pystr) : bool :=
  forallb (fun c => (c <? 55296)%N ||
                    ((57343 <? c)%N && (c <=? 1114111)%N)) text.

(** A new process: [__init__] starts from an empty history. *)
Definition restart (st : State) : State :=
  {| memory := memory st;
     conversation_history := [];
     log_file := log_file st |}.

Section RAGEngine.
Context {builtins : Builtins} {services : Services}.
Variable config : Config.

Definition _build_system_prompt : pystr :=
  lit "You are Jarvis, an AI assistant with complete knowledge of "
  ++ USER_NAME config ++
  lit "'s life, personality, and preferences based on 512 days of WhatsApp chat history.

Your role:
- You know " ++ USER_NAME config ++ lit " deeply and personally
- Respond in a tone that mirrors " ++ USER_NAME config ++
  lit "'s communication style
- Reference specific memories and context when relevant
- Be helpful, insightful, and conversational
- Maintain " ++ USER_NAME config ++
  lit "'s personality traits in your responses
- When uncertain, acknowledge it rather than making up information

Key traits to embody:
- Use the same humor and language style as " ++ USER_NAME config ++
  lit "
- Reference past conversations and context naturally
- Be direct and authentic, as a close assistant would be
- Prioritize accuracy over politeness if there's tension

Remember: You are " ++ USER_NAME config ++
  lit "'s personal AI assistant with deep knowledge of their life.".

(** The current query with its context, the last message of a prompt. *)
Definition current_message (query context : pystr) : pystr :=
  lit "Relevant memories from " ++ USER_NAME config ++
  lit "'s WhatsApp history:

" ++ context ++ lit "

---

Query: " ++ query ++ lit "

Based on the memories above and your knowledge of " ++ USER_NAME config ++
  lit ", provide a helpful and personalized response.".

(** The loop over [conversation_history[-5:]] that both generation paths
    run: a user message and an assistant message per turn. *)
Fixpoint turn_messages (turns : list json) : result (list message) :=
  match turns with
  | [] => Ok []
  | turn :: rest =>
      q <- subscript turn (lit "query") ;;
      r <- subscript turn (lit "response") ;;
      messages <- turn_messages rest ;;
      Ok ((lit "user", q) :: (lit "assistant", r) :: messages)
  end.

Definition history_window (conversation_history : list json) : list json :=
  py_slice conversation_history (Some (-5)) None.

(** The [messages] list that [_generate_with_anthropic] builds. *)
Definition anthropic_messages (query context : pystr)
    (conversation_history : list json) : result (list message) :=
  past <- turn_messages (history_window conversation_history) ;;
  Ok (past ++ [(lit "user", JStr (current_message query context))]).

Definition _generate_with_anthropic (query context : pystr)
    (conversation_history : list json) : result pystr :=
  messages <- anthropic_messages query context conversation_history ;;
  anthropic_create (LLM_MODEL config) 2000 _build_system_prompt messages.

(** The [messages] list that [_generate_with_openai] builds. *)
Definition openai_messages (query context : pystr)
    (conversation_history : list json) : result (list message) :=
  past <- turn_messages (history_window conversation_history) ;;
  Ok ([(lit "system", JStr _build_system_prompt)] ++ past ++
      [(lit "user", JStr (current_message query context))]).

Definition _generate_with_openai (query context : pystr)
    (conversation_history : list json) : result pystr :=
  messages <- openai_messages query context conversation_history ;;
  openai_create (LLM_MODEL config) messages 2000 0.7%float.

(** [self.generate_response], bound in [__init__] by the provider. *)
Definition generate_response (query context : pystr)
    (conversation_history : list json) : result pystr :=
  if pystr_eqb (LLM_PROVIDER config) (lit "anthropic") then
    _generate_with_anthropic query context conversation_history
  else if pystr_eqb (LLM_PROVIDER config) (lit "openai") then
    _generate_with_openai query context conversation_history
  else Raise (ValueError (lit "Unknown LLM provider: " ++ LLM_PROVIDER config)).

(** [__init__] on an opened memory store and the log left on disk. *)
Definition RAGEngine_init (store : Store) (log : option pystr)
  : result State :=
  if pystr_eqb (LLM_PROVIDER config) (lit "anthropic") ||
     pystr_eqb (LLM_PROVIDER config) (lit "openai")
  then Ok {| memory := store; conversation_history := []; log_file := log |}
  else Raise (ValueError (lit "Unknown LLM provider: " ++ LLM_PROVIDER config)).

(** Opening the log in mode 'a' creates it when it does not exist. *)
Definition _save_conversation_turn (turn : json) : M State unit :=
  fun st =>
    (Ok tt,
     {| memory := memory st;
        conversation_history := conversation_history st;
        log_file :=
          Some (match log_file st with Some text => text | None => [] end
                ++ json_dumps turn ++ [10%N]) |}).

(** [query]; [now] is [datetime.now().isoformat()]. *)
Definition query (now : pystr) (user_query : pystr) (top_k : option Z)
  : M State Answer :=
  fun st =>
    (facts <~ lift (search config (memory st) user_query top_k) ;;
     let context := _build_context facts in
     response_text <~
       lift (generate_response user_query context
               (conversation_history st)) ;;
     let conversation_turn :=
       JDict [(lit "timestamp", JStr now);
              (lit "query", JStr user_query);
              (lit "response", JStr response_text);
              (lit "retrieved_facts_count", JInt (len facts));
              (lit "context_preview",
               JStr (py_slice context None (Some 500)))] in
     _ <~ (fun st' =>
             (Ok tt,
              {| memory := memory st';
                 conversation_history :=
                   conversation_history st' ++ [conversation_turn];
                 log_file := log_file st' |})) ;;
     _ <~ _save_conversation_turn conversation_turn ;;
     ret {| response := response_text;
            retrieved_facts := facts;
            context := context;
            facts_retrieved := len facts;
            model := LLM_PROVIDER config ++ lit "/" ++ LLM_MODEL config;
            answer_timestamp := now |}) st.

(** The loop of [load_conversation_history] over the selected lines: a
    line that is not JSON is skipped, any other error of [json.loads]
    leaves the loop, with the turns appended so far in the history. *)
Fixpoint load_lines (lines : list pystr) (history : list json)
  : result unit * list json :=
  match lines with
  | [] => (Ok tt, history)
  | line :: rest =>
      match json_loads line with
      | Ok turn => load_lines rest (history ++ [turn])
      | Raise JSONDecodeError => load_lines rest history
      | Raise e => (Raise e, history)
      end
  end.

Definition load_conversation_history (limit : Z) : M State unit :=
  fun st =>
    match log_file st with
    | None => (Ok tt, st)
    | Some text =>
        if decodable text then
          let lines := readlines text in
          let loaded :=
            load_lines (py_slice lines (Some (- limit)) None)
              (conversation_history st) in
          (fst loaded,
           {| memory := memory st;
              conversation_history := snd loaded;
              log_file := log_file st |})
        else (Raise UnicodeDecodeError, st)
    end.

Definition clear_conversation_history : M State unit :=
  fun st =>
    (Ok tt,
     {| memory := memory st;
        conversation_history := [];
        log_file := log_file st |}).

End RAGEngine.

(** The turns that the lines of a log hold, in order. *)
Definition parsed_turns {services : Services} (lines : list pystr)
  : list json :=
  flat_map (fun line => match json_loads line with
                        | Ok turn => [turn]
                        | Raise _ => []
                        end) lines.

(** Whether [json.loads] parses every line or fails on it with
    [JSONDecodeError], the error that the load catches. *)
Definition loadable {services : Services} (lines : list pystr) : bool :=
  forallb (fun line => match json_loads line with
                       | Ok _ | Raise JSONDecodeError => true
                       | Raise _ => false
                       end) lines.

(** The last [n] items of a list. *)
Definition last_items {A} (n : nat) (l : list A) : list A :=
  skipn (length l - n) l.

(** A turn of the history that holds a query and a response. *)
Definition complete_turn (turn : json) : bool :=
  match subscript turn (lit "query"), subscript turn (lit "response") with
  | Ok _, Ok _ => true
  | _, _ => false
  end.

(** The roles of the history part of a prompt alternate, user first. *)
Fixpoint alternating (roles : list pystr) : bool :=
  match roles with
  | [] => true
  | u :: a :: rest =>
      pystr_eqb u (lit "user") && pystr_eqb a (lit "assistant") &&
      alternating rest
  | [_] => false
  end.

(** [turn[key]], [None] standing for a failed look-up. *)
Definition field (turn : json) (key : pystr) : json :=
  match subscript turn key with
  | Ok v => v
  | Raise _ => JNull
  end.

(** The two messages that render one turn. *)
Definition render_turn (turn : json) : list message :=
  [(lit "user", field turn (lit "query"));
   (lit "assistant", field turn (lit "response"))].

(** A log of three well-formed lines. *)
Definition sample_log : pystr :=
  lit "{}" ++ [10%N] ++ lit "{}" ++ [10%N] ++ lit "{}" ++ [10%N].

Definition sample_state (log : option pystr) : State :=
  {| memory := {| db := empty_database; collection := [] |};
     conversation_history := [];
     log_file := log |}.

(** ** preprocess.py: the remaining steps of the pipeline *)

(** The sender that [filter_user_messages] reads off a message. *)
Definition message_sender (msg : json) : json :=
  match get_or msg (lit "from")
          (get_or msg (lit "sender")
             (get_or msg (lit "author") (Ok (JStr [])))) with
  | Ok v => v
  | Raise _ => JNull
  end.

(** The test of [filter_user_messages] on one message. *)
Definition from_user {builtins : Builtins} (user_name : pystr) (msg : json)
  : bool :=
  match message_sender msg with
  | JStr sender => contains (lower user_name) (lower sender)
  | _ => false
  end.

(** A message object whose sender, when present, is a string. *)
Definition sender_object (msg : json) : bool :=
  match msg with
  | JDict _ =>
      match message_sender msg with
      | JStr _ => true
      | v => negb (truthy v)
      end
  | _ => false
  end.

(** A message object without a usable 'id': the position is used. *)
Definition without_id (msg : json) : bool :=
  match msg with
  | JDict d =>
      negb (truthy (match assoc (lit "id") d with
                    | Some v => v
                    | None => JNull
                    end))
  | _ => false
  end.

(** A Python dict with string keys and integer values, in insertion
    order: [d.get(k, default)] and [d[k] = v]. *)
Fixpoint counts_get (k : pystr) (default : Z) (d : list (pystr * Z)) : Z :=
  match d with
  | [] => default
  | (k', v) :: d' => if pystr_eqb k k' then v else counts_get k default d'
  end.

Fixpoint counts_set (k : pystr) (v : Z) (d : list (pystr * Z))
  : list (pystr * Z) :=
  match d with
  | [] => [(k, v)]
  | (k', v') :: d' =>
      if pystr_eqb k k' then (k, v) :: d' else (k', v') :: counts_set k v d'
  end.

(** The loop of [process] that fills [type_counts]. *)
Fixpoint count_types (facts : list Fact) (type_counts : list (pystr * Z))
  : list (pystr * Z) :=
  match facts with
  | [] => type_counts
  | fact :: rest =>
      count_types rest
        (counts_set (fact_type fact)
           (counts_get (fact_type fact) 0 type_counts + 1) type_counts)
  end.

(** What [process] leaves in the preprocessor and prints. *)
Record Processed : Type := {
  processed_messages : json;
  user_messages : list json;
  processed_facts : list Fact;
  type_counts : list (pystr * Z)
}.

Section Pipeline.
Context {builtins : Builtins}.
Variable current_timestamp : Z -> pystr.
Variable user_name : pystr.

(** [process] on the parsed export [data] and the facts table. *)
Definition process (data : json) : M Database Processed :=
  messages <~ lift (load_json data) ;;
  user_messages <~ lift (filter_user_messages user_name messages) ;;
  facts <~ lift (extract_facts user_messages) ;;
  _ <~ (fun d => save_to_db current_timestamp d facts) ;;
  _ <~ lift (py_len messages) ;;
  ret {| processed_messages := messages;
         user_messages := user_messages;
         processed_facts := facts;
         type_counts := count_types facts [] |}.

End Pipeline.

(** The place of a category in the priority order. *)
Definition rank (c : category) : nat :=
  match c with
  | business => 0
  | investment => 1
  | interest => 2
  | habit => 3
  | personal_trait => 4
  | preference => 5
  | relationship => 6
  | humor => 7
  | general => 8
  end.

(** ** memory_store.py: statistics *)

(** What [get_stats] returns; the dict [facts_by_type] is given by its
    look-up, a type without rows being absent. *)
Record Stats : Type := {
  total_facts : Z;
  vector_indexed : Z;
  facts_by_type : pystr -> option Z
}.

Definition get_stats (st : Store) : result Stats :=
  if table_exists (db st) then
    Ok {| total_facts := len (rows (db st));
          vector_indexed := len (collection st);
          facts_by_type :=
            fun type =>
              let n := len (filter (fun r => pystr_eqb (row_type r) type)
                              (rows (db st))) in
              if n =? 0 then None else Some n |}
  else Raise OperationalError.

(** ** assistant.py *)

(** [value[:150]] in the history listing: a string and a list can be
    sliced, the other values cannot (a dict fails with [TypeError], with
    [KeyError] from Python 3.12 on). *)
Definition preview (value : json) : result json :=
  match value with
  | JStr s => Ok (JStr (py_slice s None (Some 150)))
  | JList l => Ok (JList (py_slice l None (Some 150)))
  | _ => Raise TypeError
  end.

(** The listing loop of the command /history. *)
Fixpoint show_turns (turns : list json) : result unit :=
  match turns with
  | [] => Ok tt
  | turn :: rest =>
      _ <- subscript turn (lit "query") ;;
      r <- subscript turn (lit "response") ;;
      _ <- preview r ;;
      show_turns rest
  end.

(** The text of the log, empty while the file does not exist. *)
Definition log_text (st : State) : pystr :=
  match log_file st with
  | Some text => text
  | None => []
  end.

Section Assistant.
Context {builtins : Builtins} {services : Services}.
Variable config : Config.

(** [handle_command]: whether the session goes on. What it prints is
    left out. *)
Definition handle_command (command : pystr) : M State bool :=
  fun st =>
    let command := lower (strip command) in
    if pystr_eqb command (lit "/exit") || pystr_eqb command (lit "/quit")
    then (Ok false, st)
    else if pystr_eqb command (lit "/help") then (Ok true, st)
    else if pystr_eqb command (lit "/stats") then
      (_ <~ lift (get_stats (memory st)) ;; ret true) st
    else if pystr_eqb command (lit "/history") then
      match conversation_history st with
      | [] => (Ok true, st)
      | history =>
          (_ <~ lift (show_turns (py_slice history (Some (-10)) None)) ;;
           ret true) st
      end
    else if pystr_eqb command (lit "/clear") then
      (_ <~ clear_conversation_history ;; ret true) st
    else (Ok true, st).

(** [run_interactive] on the lines typed, each with the time at which a
    query on it would be stamped; the end of the list is the end of the
    input. An error of a query is reported and the loop goes on; an error
    of a command ends the session with it. *)
Fixpoint run_interactive (inputs : list (pystr * pystr)) : M State unit :=
  fun st =>
    match inputs with
    | [] => (Ok tt, st)
    | (line, now) :: rest =>
        let user_input := strip line in
        match user_input with
        | [] => run_interactive rest st
        | _ =>
            if startswith (lit "/") user_input then
              match handle_command user_input st with
              | (Ok true, st') => run_interactive rest st'
              | (Ok false, st') => (Ok tt, st')
              | (Raise e, st') => (Raise e, st')
              end
            else
              match query config now user_input None st with
              | (Ok _, st') => run_interactive rest st'
              | (Raise _, st') => run_interactive rest st'
              end
        end
    end.

End Assistant.

(** The timestamp and the id that [extract_facts] reads off a message at
    position [i]. *)
Definition message_timestamp (msg : json) : json :=
  match get_or msg (lit "timestamp")
          (get_or msg (lit "datetime")
             (get_or msg (lit "date")
                (get_or msg (lit "time") (Ok (JStr []))))) with
  | Ok v => v
  | Raise _ => JNull
  end.

Definition message_id (i : Z) (msg : json) : json :=
  match get_or msg (lit "id") (Ok (JInt i)) with
  | Ok v => v
  | Raise _ => JNull
  end.

(** Stand-in collaborators whose embedding backend is out of reach. *)
Definition failing_embedding_services : Services :=
  {| embed_function :=
       fun _ => Raise (BackendError (lit "embedding backend unreachable"));
     collection_query := sample_query;
     anthropic_create := fun _ _ _ _ => Ok (lit "ok");
     openai_create := fun _ _ _ _ => Ok (lit "ok");
     json_loads := sample_loads;
     json_dumps := fun _ => lit "{}" |}.

(** Whether the prompt of [build_vector_index] is answered with yes. *)
Definition confirmed {builtins : Builtins} (input : result pystr) : bool :=
  match input with
  | Ok response => pystr_eqb (lower response) (lit "yes")
  | Raise _ => false
  end.

(** A text without a line end, and a text that is empty or ends with a
    line end. *)
Definition newline_free (s : pystr) : bool :=
  forallb (fun c => negb (c =? 10)%N) s.

Definition line_ended (text : pystr) : bool :=
  match text with
  | [] => true
  | _ => (last text 0 =? 10)%N
  end.

(** The position in a table of the first pair with a keyword in the
    text, the length of the table when there is none. *)
Fixpoint level (table : list (category * list pystr)) (text_lower : pystr)
  : nat :=
  match table with
  | [] => 0
  | (_, words) :: table' =>
      if any_in words text_lower then 0 else S (level table' text_lower)
  end.

(** The line that [_build_context] writes for a fact. *)
Definition context_line (fact : Hit) : pystr :=
  lit "[" ++ hit_type fact ++ lit "] " ++ hit_content fact.

(* ================================================================== *)
(** * Properties *)

(** ** Classification *)

Lemma startswith_map (f : N -> N) (p s : pystr) :
  startswith p s = true -> startswith (map f p) (map f s) = true.
Proof.
  revert s; induction p as [|c p IH]; intros [|d s]; cbn; try easy.
  intros H; apply andb_true_iff in H as [Hc Hp].
  apply N.eqb_eq in Hc; subst d.
  now rewrite N.eqb_refl, IH.
Qed.

Lemma contains_map (f : N -> N) (p s : pystr) :
  contains p s = true -> contains (map f p) (map f s) = true.
Proof.
  induction s as [|d s IH]; cbn; intros H;
    apply orb_true_iff in H as [H|H]; apply orb_true_iff.
  - left; exact (startswith_map f p [] H).
  - discriminate.
  - left; exact (startswith_map f p (d :: s) H).
  - right; auto.
Qed.

(** A keyword written in lower case that occurs in a text still occurs
    after ASCII lower-casing of the text. *)
Lemma contains_ascii_lower (word text : pystr) :
  ascii_lower word = word ->
  contains word text = true -> contains word (ascii_lower text) = true.
Proof.
  intros Hw H; rewrite <- Hw; now apply contains_map.
Qed.

Section ClassificationFacts.
Context {builtins : Builtins}.

Lemma classify_first_match (text : pystr) :
  _classify_message text = first_match priority_table (lower text).
Proof.
  unfold _classify_message, priority_table; cbn [first_match].
  repeat match goal with
         | |- context [if ?b then _ else _] => destruct b; try reflexivity
         end.
Qed.

Lemma first_match_none (table : list (category * list pystr)) (t : pystr) :
  (forall c words, In (c, words) table -> any_in words t = false) ->
  first_match table t = general.
Proof.
  induction table as [|[c words] table IH]; cbn; intros H; [reflexivity|].
  rewrite (H c words) by now left.
  apply IH; intros c' w' Hin; apply (H c' w'); now right.
Qed.

Lemma any_in_intro (word : pystr) (words : list pystr) (t : pystr) :
  In word words -> contains word t = true -> any_in words t = true.
Proof.
  intros Hin Hc; apply existsb_exists; now exists word.
Qed.

(** C1 (as amended): [_classify_message] returns one of the nine
    categories and is the first-match-wins reading of the fixed priority
    table business, investment, interest, habit, personal_trait,
    preference, relationship, humor; a text matching no keyword list is
    [general]; and a text whose lower-cased form contains
    both "invest" and "love" is never [interest]: it is [business] when a
    business keyword occurs as well and [investment] otherwise. *)
Theorem classify_priority_order (text : pystr) :
  In (_classify_message text) categories /\
  map fst priority_table ++ [general] = categories /\
  _classify_message text = first_match priority_table (lower text) /\
  ((forall c words, In (c, words) priority_table ->
      any_in words (lower text) = false) ->
   _classify_message text = general) /\
  (contains (lit "invest") (lower text) = true ->
   contains (lit "love") (lower text) = true ->
   _classify_message text =
     (if any_in business_words (lower text) then business else investment)
   /\ _classify_message text <> interest).
Proof.
  split; [|split; [reflexivity|]].
  { destruct (_classify_message text); cbn; tauto. }
  split; [apply classify_first_match|split].
  - intros H; rewrite classify_first_match; now apply first_match_none.
  - intros Hinv _.
    assert (Hi : any_in investment_words (lower text) = true)
      by (apply (any_in_intro (lit "invest")); [now left|exact Hinv]).
    unfold _classify_message; cbv zeta; rewrite Hi.
    destruct (any_in business_words (lower text)); split;
      first [reflexivity | discriminate].
Qed.

End ClassificationFacts.

Lemma classify_priority_order_witness :
  @_classify_message ascii_builtins (lit "I love to invest") = investment /\
  @_classify_message ascii_builtins (lit "I love to invest") <> interest.
Proof.
  refine (proj2 (proj2 (proj2 (proj2
            (@classify_priority_order ascii_builtins
               (lit "I love to invest"))))) _ _);
    vm_compute; reflexivity.
Defined.

(** On ASCII text, where [str.lower] is the ASCII lower-casing, the same
    holds of a text that contains the two keywords as they are written. *)
Lemma classify_invest_love_ascii (text : pystr) :
  contains (lit "invest") text = true ->
  contains (lit "love") text = true ->
  @_classify_message ascii_builtins text = business \/
  @_classify_message ascii_builtins text = investment.
Proof.
  intros Hinv Hlove.
  apply contains_ascii_lower in Hinv; [|reflexivity].
  assert (Hi : any_in investment_words (ascii_lower text) = true)
    by (apply (any_in_intro (lit "invest")); [now left|exact Hinv]).
  unfold _classify_message; cbv zeta; cbn [lower ascii_builtins].
  rewrite Hi.
  destruct (any_in business_words (ascii_lower text)); auto.
Qed.

(** C1 as first stated fails: "investor" is a business keyword and
    contains "invest", so a text with "invest" and "love" can be
    [business]. *)
Lemma classify_invest_love_not_always_investment :
  ~ (forall text : pystr,
       contains (lit "invest") text = true ->
       contains (lit "love") text = true ->
       @_classify_message ascii_builtins text = investment).
Proof.
  intros H.
  specialize (H (lit "my investor will love it") eq_refl eq_refl).
  vm_compute in H; discriminate.
Qed.

(** ** Extraction *)

Section ExtractionFacts.
Context {builtins : Builtins}.

Lemma get_or_dict (d : list (pystr * json)) (key : pystr)
    (rest : result json) :
  get_or (JDict d) key rest =
  (let v := match assoc key d with Some v => v | None => JNull end in
   if truthy v then Ok v else rest).
Proof. reflexivity. Qed.

Lemma get_or_dict_ok (d : list (pystr * json)) (key : pystr)
    (rest : result json) :
  (exists v, rest = Ok v) -> exists v, get_or (JDict d) key rest = Ok v.
Proof.
  intros [v ->]; rewrite get_or_dict; cbv zeta.
  destruct (truthy _); eauto.
Qed.

Lemma message_text_dict (d : list (pystr * json)) :
  get_or (JDict d) (lit "text")
    (get_or (JDict d) (lit "message")
       (get_or (JDict d) (lit "body") (Ok (JStr [])))) =
  Ok (message_text (JDict d)).
Proof.
  unfold message_text.
  destruct (get_or_dict_ok d (lit "text")
              (get_or (JDict d) (lit "message")
                 (get_or (JDict d) (lit "body") (Ok (JStr [])))))
    as [v ->]; [|reflexivity].
  apply get_or_dict_ok, get_or_dict_ok; eauto.
Qed.

(** The loop body on a message object, with the look-ups resolved. *)
Lemma extract_one_dict (i : Z) (d : list (pystr * json)) :
  exists ts msg_id,
    get_or (JDict d) (lit "timestamp")
      (get_or (JDict d) (lit "datetime")
         (get_or (JDict d) (lit "date")
            (get_or (JDict d) (lit "time") (Ok (JStr []))))) = Ok ts /\
    extract_one i (JDict d) =
    if negb (truthy (message_text (JDict d))) then Ok None
    else
      match message_text (JDict d) with
      | JStr s =>
          if len (strip s) <? 5 then Ok None
          else Ok (Some {| fact_type := category_name (_classify_message s);
                           content := strip s;
                           source_reference :=
                             lit "msg_" ++ format_value msg_id;
                           timestamp := ts;
                           raw_text := s |})
      | _ => Raise AttributeError
      end.
Proof.
  destruct (get_or_dict_ok d (lit "timestamp")
              (get_or (JDict d) (lit "datetime")
                 (get_or (JDict d) (lit "date")
                    (get_or (JDict d) (lit "time") (Ok (JStr []))))))
    as [ts Hts]; [do 3 apply get_or_dict_ok; eauto|].
  destruct (get_or_dict_ok d (lit "id") (Ok (JInt i))) as [mid Hid];
    [eauto|].
  exists ts, mid; split; [exact Hts|].
  unfold extract_one.
  rewrite message_text_dict, Hts, Hid; reflexivity.
Qed.

Lemma message_text_not_dict (msg : json) (s : pystr) :
  message_text msg = JStr s -> exists d, msg = JDict d.
Proof.
  destruct msg; try discriminate; eauto.
Qed.

Lemma extract_one_short (i : Z) (msg : json) (s : pystr) :
  message_text msg = JStr s -> len (strip s) < 5 ->
  extract_one i msg = Ok None.
Proof.
  intros Ht Hlen.
  destruct (message_text_not_dict msg s Ht) as [d ->].
  destruct (extract_one_dict i d) as (ts & mid & _ & ->).
  rewrite Ht. destruct (negb _); [reflexivity|].
  apply Z.ltb_lt in Hlen; now rewrite Hlen.
Qed.

Lemma extract_one_result (i : Z) (msg : json) (o : option Fact) :
  extract_one i msg = Ok o ->
  match o with
  | None => kept_message msg = false
  | Some f =>
      kept_message msg = true /\ message_text msg = JStr (raw_text f) /\
      content f = strip (raw_text f) /\ 5 <= len (content f)
  end.
Proof.
  destruct msg; try discriminate.
  destruct (extract_one_dict i fields) as (ts & mid & _ & ->).
  unfold kept_message.
  destruct (message_text (JDict fields)) eqn:Ht; cbn [truthy negb];
    try (destruct o; congruence).
  - destruct b; cbn; destruct o; congruence.
  - destruct (negb (z =? 0)); cbn; destruct o; congruence.
  - destruct (negb (PrimFloat.eqb f PrimFloat.zero)); cbn;
      destruct o; congruence.
  - destruct s as [|c s]; cbn [negb].
    + intros [= <-]; reflexivity.
    + destruct (len (strip (c :: s)) <? 5) eqn:Hlen; intros [= <-].
      * reflexivity.
      * cbn [raw_text content negb]. apply Z.ltb_ge in Hlen. auto.
  - destruct items; cbn; destruct o; congruence.
  - destruct fields0; cbn; destruct o; congruence.
Qed.

Lemma extract_from_result (messages : list json) :
  forall (i : Z) (facts : list Fact),
    extract_from i messages = Ok facts ->
    Forall (fun f => content f = strip (raw_text f) /\ 5 <= len (content f))
      facts /\
    length facts = length (filter kept_message messages) /\
    (forall f, In f facts ->
       exists msg, In msg messages /\ kept_message msg = true /\
                   message_text msg = JStr (raw_text f)).
Proof.
  induction messages as [|msg rest IH]; cbn [extract_from]; intros i facts.
  - intros [= <-]; repeat split; [constructor|]. intros f [].
  - destruct (extract_one i msg) as [o|e] eqn:Hone; [|discriminate].
    cbn [bind].
    destruct (extract_from (i + 1) rest) as [fs|e] eqn:Hrest;
      [|discriminate].
    cbn [bind]; intros [= <-].
    destruct (IH _ _ Hrest) as (Hall & Hcount & Hsrc).
    pose proof (extract_one_result i msg o Hone) as Ho.
    destruct o as [f|]; cbn [filter].
    + destruct Ho as (Hk & Ht & Hc & Hl); rewrite Hk.
      repeat split.
      * constructor; auto.
      * cbn; now rewrite Hcount.
      * intros f' [<-|Hin].
        -- exists msg; repeat split; auto; now left.
        -- destruct (Hsrc f' Hin) as (m & Hm & Hrest').
           exists m; split; [now right|exact Hrest'].
    + rewrite Ho; repeat split; auto.
      intros f' Hin; destruct (Hsrc f' Hin) as (m & Hm & Hrest').
      exists m; split; [now right|exact Hrest'].
Qed.

(** C4: a message whose text is shorter than five characters once trimmed
    yields no fact; when [extract_facts] returns, the facts are exactly as
    many as the messages with a trimmed text of five characters or more,
    each fact comes from such a message, and its content is the trimmed
    text, of length at least five and so not empty. *)
Theorem extract_facts_drops_short (messages : list json)
    (facts : list Fact) :
  extract_facts messages = Ok facts ->
  (forall i msg s, message_text msg = JStr s -> len (strip s) < 5 ->
     extract_one i msg = Ok None /\ kept_message msg = false) /\
  length facts = length (filter kept_message messages) /\
  Forall (fun f => content f = strip (raw_text f) /\
                   5 <= len (content f) /\ content f <> []) facts /\
  (forall f, In f facts ->
     exists msg, In msg messages /\ kept_message msg = true /\
                 message_text msg = JStr (raw_text f)).
Proof.
  intros H; destruct (extract_from_result messages 0 facts H) as (Hall & Hc & Hs).
  split; [|split; [exact Hc|split; [|exact Hs]]].
  - intros i msg s Ht Hlen; split; [now apply (extract_one_short i msg s Ht)|].
    unfold kept_message; rewrite Ht.
    apply Z.ltb_lt in Hlen; now rewrite Hlen.
  - eapply Forall_impl; [|exact Hall].
    intros f [Hcf Hlen]; repeat split; auto.
    intros Hnil; rewrite Hnil in Hlen; cbn in Hlen; lia.
Qed.

(** Extraction runs to the end on message objects whose text, when
    present, is a string. *)
Lemma extract_from_total (messages : list json) :
  forallb message_object messages = true ->
  forall i, exists facts, extract_from i messages = Ok facts.
Proof.
  induction messages as [|msg rest IH]; cbn [forallb extract_from];
    intros H i; [eauto|].
  apply andb_true_iff in H as [Hm Hrest].
  destruct (IH Hrest (i + 1)) as [fs ->].
  destruct msg; try discriminate.
  destruct (extract_one_dict i fields) as (ts & mid & _ & ->).
  unfold message_object in Hm.
  destruct (message_text (JDict fields)) eqn:Ht; cbn [truthy] in *;
    try (rewrite Hm; cbn; eauto; fail).
  destruct (negb match s with [] => false | _ => true end); cbn; eauto.
  destruct (len (strip s) <? 5); cbn; eauto.
Qed.

End ExtractionFacts.

(** End-to-end scenario 1: three messages, the third too short; two facts,
    the first [investment], the second [humor]. *)
Example extract_scenario :
  @extract_facts ascii_builtins scenario_messages = Ok scenario_facts.
Proof. vm_compute; reflexivity. Qed.

Lemma extract_facts_drops_short_witness :
  length scenario_facts = length (filter kept_message scenario_messages) /\
  Forall (fun f => content f = strip (raw_text f) /\
                   5 <= len (content f) /\ content f <> []) scenario_facts.
Proof.
  pose proof (@extract_facts_drops_short ascii_builtins scenario_messages
                scenario_facts eq_refl) as H.
  split; [exact (proj1 (proj2 H))|exact (proj1 (proj2 (proj2 H)))].
Defined.

(** C5 (as amended): a message object without text is skipped; a message
    object without a timestamp but with a text of five characters or more
    is kept, with the empty string as its timestamp; extraction runs to
    the end on message objects whose text, when present, is a string;
    and [load_json] fails with a [ValueError] naming the expected shapes
    on every top-level value that is neither a list nor a dict with a
    'messages' key. *)
Theorem malformed_input_semantics {builtins : Builtins} :
  (forall i d, truthy (message_text (JDict d)) = false ->
     extract_one i (JDict d) = Ok None) /\
  (forall i d s,
     message_text (JDict d) = JStr s -> 5 <= len (strip s) ->
     assoc (lit "timestamp") d = None -> assoc (lit "datetime") d = None ->
     assoc (lit "date") d = None -> assoc (lit "time") d = None ->
     exists f, extract_one i (JDict d) = Ok (Some f) /\
               timestamp f = JStr [] /\ raw_text f = s) /\
  (forall messages, forallb message_object messages = true ->
     exists facts, extract_facts messages = Ok facts) /\
  (forall data,
     match data with
     | JList _ => False
     | JDict d => assoc (lit "messages") d = None
     | _ => True
     end ->
     load_json data = Raise (ValueError unknown_structure)).
Proof.
  split; [|split; [|split]].
  - intros i d H.
    destruct (extract_one_dict i d) as (ts & mid & _ & ->).
    now rewrite H.
  - intros i d s Ht Hlen H1 H2 H3 H4.
    destruct (extract_one_dict i d) as (ts & mid & Hts & ->).
    rewrite !get_or_dict, H1, H2, H3, H4 in Hts; cbn in Hts.
    injection Hts as <-. rewrite Ht.
    destruct s as [|c s]; [cbn in Hlen; lia|]. cbn [truthy negb].
    apply Z.ltb_ge in Hlen; rewrite Hlen. eauto.
  - intros messages H; now apply extract_from_total.
  - intros data H; destruct data; try reflexivity; [contradiction|].
    unfold load_json; now rewrite H.
Qed.

Lemma malformed_input_semantics_witness :
  @extract_one ascii_builtins 0 (JDict [(lit "from", JStr (lit "Arunav"))])
    = Ok None /\
  load_json (JDict [(lit "chats", JList [])])
    = Raise (ValueError unknown_structure).
Proof.
  split.
  - exact (proj1 (@malformed_input_semantics ascii_builtins) 0
             [(lit "from", JStr (lit "Arunav"))] eq_refl).
  - exact (proj2 (proj2 (proj2 (@malformed_input_semantics ascii_builtins)))
             (JDict [(lit "chats", JList [])]) eq_refl).
Defined.

(** C5 as first stated fails: a message without a timestamp is not skipped
    but turned into a fact with an empty timestamp. *)
Lemma missing_timestamp_not_skipped :
  let msg := JDict [(lit "from", JStr (lit "Arunav"));
                    (lit "text", JStr (lit "hello world"))] in
  dict_get msg (lit "timestamp") = Ok JNull /\
  dict_get msg (lit "datetime") = Ok JNull /\
  dict_get msg (lit "date") = Ok JNull /\
  dict_get msg (lit "time") = Ok JNull /\
  @extract_facts ascii_builtins [msg] =
    Ok [{| fact_type := lit "general";
           content := lit "hello world";
           source_reference := lit "msg_0";
           timestamp := JStr [];
           raw_text := lit "hello world" |}].
Proof. vm_compute; repeat split; reflexivity. Qed.

(** [load_json] accepts a list whatever its items are; the run then stops
    in the first look-up on an item that is not an object. *)
Example load_json_list_of_numbers :
  load_json (JList [JInt 1; JInt 2]) = Ok (JList [JInt 1; JInt 2]) /\
  @extract_facts ascii_builtins [JInt 1; JInt 2] = Raise AttributeError.
Proof. vm_compute; split; reflexivity. Qed.

(** ** The fact store *)

Section FactStoreFacts.
Context {builtins : Builtins}.

Lemma bind_str_ok (s : pystr) (v : sqlvalue) :
  bind_parameter (JStr s) = Ok v -> v = SqlText s.
Proof.
  cbn; destruct (existsb surrogate s); [discriminate|now intros [= <-]].
Qed.

Lemma fold_max_snoc (l : list Z) (x : Z) :
  fold_right Z.max 0 (l ++ [x]) = Z.max (fold_right Z.max 0 l) (Z.max x 0).
Proof.
  induction l as [|y l IH]; cbn [app fold_right]; [lia|].
  rewrite IH; lia.
Qed.

Lemma fold_max_nonneg (l : list Z) : 0 <= fold_right Z.max 0 l.
Proof. induction l as [|y l IH]; cbn [fold_right]; lia. Qed.

(** After the insert of a row with the next id, the next id is one more. *)
Lemma next_row_id_after (db : Database) (row : Row) (exists_now : bool) :
  row_id row = next_row_id db ->
  next_row_id {| table_exists := exists_now;
                 rows := rows db ++ [row];
                 sequence := next_row_id db |} = next_row_id db + 1.
Proof.
  intros Hid; unfold next_row_id at 1; cbn [rows sequence].
  rewrite map_app; cbn [map]; rewrite fold_max_snoc, Hid.
  unfold next_row_id.
  pose proof (fold_max_nonneg (map row_id (rows db))); lia.
Qed.

Lemma has_room_iff (db : Database) (n : Z) :
  has_room db n = true <-> n <= 0 \/ next_row_id db + n - 1 <= max_row_id.
Proof.
  unfold has_room; rewrite orb_true_iff, Z.leb_le, Z.leb_le; tauto.
Qed.

Lemma insert_fact_storable (clock : Z -> pystr) (db : Database)
    (fact : Fact) :
  storable fact = true -> next_row_id db <= max_row_id ->
  exists row,
    insert_fact clock db fact =
      Ok {| table_exists := true;
            rows := rows db ++ [row];
            sequence := next_row_id db |} /\
    row_id row = next_row_id db /\
    row_data row = fact_data fact.
Proof.
  unfold storable, insert_fact, fact_data; intros H Hroom.
  destruct (bind_parameter (JStr (fact_type fact))) as [t|] eqn:Ht;
    [|discriminate].
  destruct (bind_parameter (JStr (content fact))) as [c|] eqn:Hc;
    [|discriminate].
  destruct (bind_parameter (JStr (source_reference fact))) as [r|] eqn:Hr;
    [|discriminate].
  destruct (bind_parameter (timestamp fact)) as [ts|] eqn:Hts;
    [|discriminate].
  destruct (bind_parameter (JStr (raw_text fact))) as [raw|] eqn:Hraw;
    [|discriminate].
  pose proof Ht as Ht'; pose proof Hc as Hc'; pose proof Hr as Hr';
    pose proof Hraw as Hraw'.
  apply bind_str_ok in Ht, Hc, Hr, Hraw; subst.
  unfold bind_text; rewrite Ht', Hc', Hr', Hraw'.
  cbn [bind]; apply Z.leb_le in Hroom; rewrite Hroom.
  eexists; repeat split.
Qed.

Lemma insert_facts_storable (clock : Z -> pystr) (facts : list Fact) :
  forallb storable facts = true ->
  forall db,
    has_room db (len facts) = true ->
    exists new db',
      insert_facts clock db facts = Ok db' /\
      rows db' = rows db ++ new /\
      map row_data new = map fact_data facts /\
      next_row_id db' = next_row_id db + len facts.
Proof.
  unfold len; induction facts as [|fact rest IH];
    cbn [forallb insert_facts]; intros H db Hroom.
  - exists [], db; rewrite app_nil_r; cbn; repeat split; lia.
  - apply andb_true_iff in H as [Hf Hrest].
    apply has_room_iff in Hroom; cbn [length] in Hroom.
    destruct (insert_fact_storable clock db fact Hf ltac:(lia))
      as (row & -> & Hid & Hrow).
    cbn [bind].
    pose proof (next_row_id_after db row true Hid) as Hnext.
    destruct (IH Hrest {| table_exists := true;
                          rows := rows db ++ [row];
                          sequence := next_row_id db |})
      as (new & db' & -> & Hrows & Hdata & Hafter).
    { apply has_room_iff; rewrite Hnext; lia. }
    exists (row :: new), db'; repeat split.
    + rewrite Hrows; cbn [rows]; now rewrite <- app_assoc.
    + cbn [map]; now rewrite Hrow, Hdata.
    + rewrite Hafter, Hnext; cbn [length]; lia.
Qed.

Lemma save_to_db_storable (clock : Z -> pystr) (db : Database)
    (facts : list Fact) :
  forallb storable facts = true ->
  has_room db (len facts) = true ->
  exists new,
    fst (save_to_db clock db facts) = Ok tt /\
    rows (snd (save_to_db clock db facts)) = rows db ++ new /\
    map row_data new = map fact_data facts /\
    next_row_id (snd (save_to_db clock db facts)) =
      next_row_id db + len facts.
Proof.
  intros H Hroom; unfold save_to_db.
  destruct (insert_facts_storable clock facts H
              {| table_exists := true; rows := rows db;
                 sequence := sequence db |} Hroom)
    as (new & db' & -> & Hrows & Hdata & Hnext).
  exists new; auto.
Qed.

(** C6 (as amended): for facts that SQLite can bind and a table whose id
    counter leaves room for them twice, saving the same facts twice in a
    row, without clearing, succeeds both times and leaves the table with
    its [n] former rows followed by two runs of [|F|] new rows holding the
    same data: [n + 2|F|] rows, nothing detected as a duplicate. *)
Theorem save_to_db_twice_doubles (clock1 clock2 : Z -> pystr)
    (db : Database) (F : list Fact) :
  forallb storable F = true ->
  has_room db (2 * len F) = true ->
  let run1 := save_to_db clock1 db F in
  let run2 := save_to_db clock2 (snd run1) F in
  fst run1 = Ok tt /\ fst run2 = Ok tt /\
  length (rows (snd run1)) = (length (rows db) + length F)%nat /\
  length (rows (snd run2)) = (length (rows db) + 2 * length F)%nat /\
  exists new1 new2,
    rows (snd run2) = rows db ++ new1 ++ new2 /\
    map row_data new1 = map fact_data F /\
    map row_data new2 = map fact_data F.
Proof.
  intros H Hroom run1 run2; subst run1 run2.
  apply has_room_iff in Hroom.
  assert (Hlen : 0 <= len F) by (unfold len; lia).
  destruct (save_to_db_storable clock1 db F H) as (new1 & Hok1 & Hr1 & Hd1 & Hn1);
    [apply has_room_iff; lia|].
  destruct (save_to_db_storable clock2 (snd (save_to_db clock1 db F)) F H)
    as (new2 & Hok2 & Hr2 & Hd2 & _);
    [apply has_room_iff; rewrite Hn1; lia|].
  assert (Hl1 : length new1 = length F)
    by (rewrite <- (length_map row_data), Hd1; apply length_map).
  assert (Hl2 : length new2 = length F)
    by (rewrite <- (length_map row_data), Hd2; apply length_map).
  repeat split; auto.
  - rewrite Hr1, length_app; lia.
  - rewrite Hr2, Hr1, !length_app; lia.
  - exists new1, new2; rewrite Hr2, Hr1, <- app_assoc; auto.
Qed.

End FactStoreFacts.

Lemma save_to_db_twice_doubles_witness :
  let clock := fun _ : Z => lit "2024-01-01 00:00:00" in
  let run1 := @save_to_db ascii_builtins clock empty_database scenario_facts in
  let run2 := @save_to_db ascii_builtins clock (snd run1) scenario_facts in
  length (rows (snd run1)) = 2%nat /\ length (rows (snd run2)) = 4%nat.
Proof.
  intros clock run1 run2.
  pose proof (@save_to_db_twice_doubles ascii_builtins clock clock
                empty_database scenario_facts eq_refl eq_refl) as H.
  split; [exact (proj1 (proj2 (proj2 H)))|
          exact (proj1 (proj2 (proj2 (proj2 H))))].
Defined.

(** C6 as first stated fails: [extract_facts] keeps a timestamp as the
    message has it, here a list, which SQLite cannot bind; both runs of
    [save_to_db] raise before the commit and the table keeps its [n = 0]
    rows instead of [n + 2|F| = 2]. *)
Lemma save_to_db_twice_unbindable_timestamp :
  let msg := JDict [(lit "text", JStr (lit "hello world"));
                    (lit "timestamp", JList [JInt 1])] in
  let F := [{| fact_type := lit "general"; content := lit "hello world";
               source_reference := lit "msg_0";
               timestamp := JList [JInt 1];
               raw_text := lit "hello world" |}] in
  let run1 := @save_to_db ascii_builtins (fun _ => []) empty_database F in
  let run2 := @save_to_db ascii_builtins (fun _ => []) (snd run1) F in
  @extract_facts ascii_builtins [msg] = Ok F /\
  fst run1 = Raise ProgrammingError /\
  fst run2 = Raise ProgrammingError /\
  length (rows (snd run2)) = 0%nat /\
  length (rows (snd run2)) <>
    (length (rows empty_database) + 2 * length F)%nat.
Proof. vm_compute; repeat split; try reflexivity; discriminate. Qed.

(** The insert stops at a fact that SQLite cannot store, here one whose
    timestamp is a list, and nothing of the run is committed. *)
Example save_to_db_unstorable :
  let fact := {| fact_type := lit "general"; content := lit "hello world";
                 source_reference := lit "msg_0";
                 timestamp := JList [JInt 1]; raw_text := lit "hello world" |} in
  @save_to_db ascii_builtins (fun _ => []) empty_database
    (scenario_facts ++ [fact]) =
  (Raise ProgrammingError,
   {| table_exists := true; rows := []; sequence := 0 |}).
Proof. vm_compute; reflexivity. Qed.

(** With the id counter at its end the insert is refused, whatever the
    facts. *)
Example save_to_db_exhausted_counter :
  @save_to_db ascii_builtins (fun _ => [])
    {| table_exists := true; rows := []; sequence := max_row_id |}
    scenario_facts =
  (Raise OperationalError,
   {| table_exists := true; rows := []; sequence := max_row_id |}).
Proof. vm_compute; reflexivity. Qed.

(** ** The vector index *)

Lemma firstn_plus {A} (a b : nat) (l : list A) :
  firstn (a + b) l = firstn a l ++ firstn b (skipn a l).
Proof.
  revert l; induction a as [|a IH]; intros [|x l]; cbn;
    try rewrite firstn_nil; try reflexivity.
  now rewrite IH.
Qed.

Lemma skipn_plus {A} (a b : nat) (l : list A) :
  skipn (a + b) l = skipn b (skipn a l).
Proof.
  revert l; induction a as [|a IH]; intros [|x l]; cbn;
    try rewrite skipn_nil; try reflexivity.
  apply IH.
Qed.

(** A slice with bounds [0 <= i <= j], whatever the length of the list. *)
Lemma py_slice_nonneg {A} (l : list A) (i j : Z) :
  0 <= i <= j ->
  py_slice l (Some i) (Some j) =
  firstn (Z.to_nat (j - i)) (skipn (Z.to_nat i) l).
Proof.
  intros Hij; unfold py_slice, clamp_index, len.
  destruct (i <? 0) eqn:Hi; [apply Z.ltb_lt in Hi; lia|].
  destruct (j <? 0) eqn:Hj; [apply Z.ltb_lt in Hj; lia|].
  set (n := length l).
  destruct (Z_le_gt_dec (Z.of_nat n) i) as [Hn|Hn].
  - rewrite !skipn_all2 by (subst n; lia). now rewrite !firstn_nil.
  - rewrite (Z.min_l i) by lia.
    destruct (Z_le_gt_dec j (Z.of_nat n)) as [Hjn|Hjn].
    + now rewrite (Z.min_l j) by lia.
    + rewrite (Z.min_r j) by lia.
      rewrite !firstn_all2; try reflexivity;
        rewrite length_skipn; subst n; lia.
Qed.

Lemma forallb_skipn {A} (f : A -> bool) (n : nat) (l : list A) :
  forallb f l = true -> forallb f (skipn n l) = true.
Proof.
  revert l; induction n as [|n IH]; intros [|x l]; cbn; auto.
  intros H; apply andb_true_iff in H as [_ H]; auto.
Qed.

Lemma forallb_firstn {A} (f : A -> bool) (n : nat) (l : list A) :
  forallb f l = true -> forallb f (firstn n l) = true.
Proof.
  revert l; induction n as [|n IH]; intros [|x l]; cbn; auto.
  intros H; apply andb_true_iff in H as [Hx H]; rewrite Hx; cbn; auto.
Qed.

Lemma batch_metadata_valid (facts : list LoadedFact) (lo hi : option Z) :
  forallb has_timestamp facts = true ->
  forallb valid_metadata (map metadata_of (py_slice facts lo hi)) = true.
Proof.
  intros H; unfold py_slice.
  set (a := match lo with None => 0 | Some i => clamp_index _ i end).
  set (b := match hi with None => len facts | Some j => clamp_index _ j end).
  apply (forallb_skipn has_timestamp (Z.to_nat a)) in H.
  apply (forallb_firstn has_timestamp (Z.to_nat (b - a))) in H.
  revert H; generalize (firstn (Z.to_nat (b - a)) (skipn (Z.to_nat a) facts)).
  intros l; induction l as [|x l IH]; cbn [forallb map]; [reflexivity|].
  intros H; apply andb_true_iff in H as [Hx H].
  unfold has_timestamp in Hx; rewrite Hx; cbn; auto.
Qed.

Lemma entries_of_batch (embed : pystr -> list float)
    (batch : list LoadedFact) :
  map (fun x =>
         {| entry_id := fst (fst (fst x));
            entry_document := snd (fst (fst x));
            entry_embedding := snd (fst x);
            entry_metadata := snd x |})
    (combine
       (combine
          (combine (map (fun fact => str_of_int (loaded_id fact)) batch)
                   (map loaded_content batch))
          (map embed (map loaded_content batch)))
       (map metadata_of batch)) =
  map (entry_of embed) batch.
Proof.
  induction batch as [|fact batch IH]; cbn [map combine]; [reflexivity|].
  now rewrite IH.
Qed.

Section IndexFacts.
Context {builtins : Builtins} {services : Services}.

Lemma len_zero_nil {A} (l : list A) : (len l =? 0) = false <-> l <> [].
Proof.
  unfold len; destruct l; cbn; split; intros H; congruence.
Qed.

Lemma len_pos_nonnil {A} (l : list A) : (0 <? len l) = true <-> l <> [].
Proof.
  unfold len; destruct l; cbn; split; intros H; congruence.
Qed.

(** The start of [build_vector_index] on a store with facts and a
    non-empty collection: the prompt decides. *)
Lemma build_on_indexed_store (input : result pystr) (batch_size : Z)
    (st : Store) (facts : list LoadedFact) :
  load_facts_from_db (db st) = Ok facts -> facts <> [] ->
  collection st <> [] ->
  build_vector_index input batch_size st =
  match input with
  | Raise e => (Raise e, st)
  | Ok response =>
      if negb (pystr_eqb (lower response) (lit "yes")) then (Ok tt, st)
      else
        (starts <~ lift (py_range 0 (len facts) batch_size) ;;
         for_each starts (index_batch facts batch_size))
          {| db := db st; collection := [] |}
  end.
Proof.
  intros Hload Hfacts Hcoll.
  unfold build_vector_index, mbind at 1, lift at 1; rewrite Hload.
  apply len_zero_nil in Hfacts; rewrite Hfacts.
  apply len_pos_nonnil in Hcoll; rewrite Hcoll.
  unfold mbind at 1, lift at 1.
  destruct input as [response|e]; [|reflexivity].
  destruct (negb _); reflexivity.
Qed.

(** The same method on a store with facts and an empty collection: no
    prompt, the index is filled. *)
Lemma build_on_empty_index (input : result pystr) (batch_size : Z)
    (d : Database) (facts : list LoadedFact) :
  load_facts_from_db d = Ok facts -> facts <> [] ->
  build_vector_index input batch_size {| db := d; collection := [] |} =
  (starts <~ lift (py_range 0 (len facts) batch_size) ;;
   for_each starts (index_batch facts batch_size))
    {| db := d; collection := [] |}.
Proof.
  intros Hload Hfacts.
  unfold build_vector_index, mbind at 1, lift at 1; cbn [db collection].
  rewrite Hload.
  apply len_zero_nil in Hfacts; rewrite Hfacts. reflexivity.
Qed.

Section WithEmbedding.
Variable embed : pystr -> list float.
Hypothesis embed_each : forall docs, embed_function docs = Ok (map embed docs).

Lemma index_batch_ok (facts : list LoadedFact) (batch_size i : Z)
    (st : Store) :
  forallb has_timestamp facts = true ->
  0 <= i -> 0 < batch_size ->
  index_batch facts batch_size i st =
  (Ok tt,
   {| db := db st;
      collection :=
        collection st ++
        map (entry_of embed)
          (firstn (Z.to_nat batch_size) (skipn (Z.to_nat i) facts)) |}).
Proof.
  intros Hts Hi Hb; unfold index_batch, mbind, lift.
  rewrite embed_each; unfold collection_add.
  rewrite (batch_metadata_valid facts _ _ Hts); cbn [negb].
  rewrite !length_map, !Nat.eqb_refl; cbn [andb].
  rewrite entries_of_batch, py_slice_nonneg by lia.
  now replace (i + batch_size - i) with batch_size by lia.
Qed.

Lemma index_loop_ok (facts : list LoadedFact) (batch_size : Z) :
  forallb has_timestamp facts = true ->
  0 < batch_size ->
  forall (m a : nat) (st : Store),
    for_each (map (fun k => 0 + Z.of_nat k * batch_size) (seq a m))
      (index_batch facts batch_size) st =
    (Ok tt,
     {| db := db st;
        collection :=
          collection st ++
          map (entry_of embed)
            (firstn (m * Z.to_nat batch_size)
               (skipn (a * Z.to_nat batch_size) facts)) |}).
Proof.
  intros Hts Hb; induction m as [|m IH]; intros a st.
  - cbn; destruct st; now rewrite app_nil_r.
  - cbn [seq map for_each]; unfold mbind.
    rewrite index_batch_ok by (assumption || lia).
    rewrite IH; cbn [db collection].
    replace (Z.to_nat (0 + Z.of_nat a * batch_size))
      with (a * Z.to_nat batch_size)%nat by nia.
    rewrite <- app_assoc, <- map_app.
    replace (S a * Z.to_nat batch_size)%nat
      with (a * Z.to_nat batch_size + Z.to_nat batch_size)%nat by lia.
    rewrite skipn_plus.
    replace (S m * Z.to_nat batch_size)%nat
      with (Z.to_nat batch_size + m * Z.to_nat batch_size)%nat by lia.
    now rewrite <- firstn_plus.
Qed.

(** Indexing facts that all have a timestamp with a positive batch size
    stores one entry per fact, in the order of the facts. *)
Lemma index_all_ok (facts : list LoadedFact) (batch_size : Z) (st : Store) :
  forallb has_timestamp facts = true ->
  0 < batch_size ->
  (starts <~ lift (py_range 0 (len facts) batch_size) ;;
   for_each starts (index_batch facts batch_size)) st =
  (Ok tt,
   {| db := db st;
      collection := collection st ++ map (entry_of embed) facts |}).
Proof.
  intros Hts Hb; unfold mbind, lift, py_range.
  destruct (batch_size =? 0) eqn:Hz; [apply Z.eqb_eq in Hz; lia|].
  destruct (0 <? batch_size) eqn:Hp; [|apply Z.ltb_ge in Hp; lia].
  rewrite index_loop_ok by assumption.
  cbn [skipn Nat.mul]; rewrite firstn_all2; [reflexivity|].
  unfold len.
  set (n := Z.of_nat (length facts)).
  assert (Hq : n <= ((n - 0 + batch_size - 1) / batch_size) * batch_size).
  { pose proof (Z.div_mod (n - 0 + batch_size - 1) batch_size) as Hdm.
    pose proof (Z.mod_pos_bound (n - 0 + batch_size - 1) batch_size Hb).
    lia. }
  assert (0 <= (n - 0 + batch_size - 1) / batch_size)
    by (apply Z.div_pos; subst n; lia).
  subst n; nia.
Qed.

End WithEmbedding.

(** C9: on a store with facts and a non-empty index, [build_vector_index]
    asks for confirmation. Any answer other than "yes" (in any case)
    returns without error and leaves the store as it was, and so does a
    prompt that gets no answer, with its error. After "yes" the collection
    is emptied first: the outcome is the outcome of building on an empty
    index, and with a positive batch size, a working embedding backend and
    no NULL timestamp in the table (Chroma refuses such a metadata) the
    index holds exactly one entry per fact of the table, none of the old
    ones. *)
Theorem rebuild_requires_confirmation (input : result pystr)
    (batch_size : Z) (st : Store) (facts : list LoadedFact) :
  load_facts_from_db (db st) = Ok facts -> facts <> [] ->
  collection st <> [] ->
  (forall response,
     input = Ok response ->
     pystr_eqb (lower response) (lit "yes") = false ->
     build_vector_index input batch_size st = (Ok tt, st)) /\
  (forall e,
     input = Raise e ->
     build_vector_index input batch_size st = (Raise e, st)) /\
  (forall response,
     input = Ok response ->
     pystr_eqb (lower response) (lit "yes") = true ->
     build_vector_index input batch_size st =
       build_vector_index input batch_size
         {| db := db st; collection := [] |} /\
     (forall embed,
        0 < batch_size ->
        (forall docs, embed_function docs = Ok (map embed docs)) ->
        forallb has_timestamp facts = true ->
        build_vector_index input batch_size st =
          (Ok tt,
           {| db := db st; collection := map (entry_of embed) facts |}))).
Proof.
  intros Hload Hfacts Hcoll.
  pose proof (build_on_indexed_store input batch_size st facts
                Hload Hfacts Hcoll) as Hbuild.
  split; [|split].
  - intros response -> Hno; rewrite Hbuild, Hno; reflexivity.
  - intros e ->; exact Hbuild.
  - intros response -> Hyes; rewrite Hyes in Hbuild; cbn [negb] in Hbuild.
    split.
    + rewrite Hbuild; symmetry.
      now apply build_on_empty_index.
    + intros embed Hb Hembed Hts; rewrite Hbuild.
      now rewrite (index_all_ok embed Hembed) by assumption.
Qed.

End IndexFacts.

Lemma rebuild_requires_confirmation_witness :
  @build_vector_index ascii_builtins sample_services
    (Ok (lit "no")) 100 sample_store = (Ok tt, sample_store) /\
  @build_vector_index ascii_builtins sample_services
    (Ok (lit "YES")) 100 sample_store =
  (Ok tt,
   {| db := db sample_store;
      collection :=
        [{| entry_id := lit "7";
            entry_document := lit "haha that's funny";
            entry_embedding := [0.5%float];
            entry_metadata := {| meta_type := lit "humor";
                                 meta_source_reference := lit "msg_1";
                                 meta_timestamp := Some [] |} |}] |}).
Proof.
  pose proof (@rebuild_requires_confirmation ascii_builtins sample_services)
    as H.
  split.
  - refine (proj1 (H (Ok (lit "no")) 100 sample_store _ eq_refl _ _) _
              eq_refl eq_refl); discriminate.
  - refine (proj2 (proj2 (proj2 (H (Ok (lit "YES")) 100 sample_store _
                                   eq_refl _ _)) _ eq_refl eq_refl)
              (fun _ => [0.5%float]) _ _ eq_refl); try discriminate;
      [reflexivity|intros docs; reflexivity].
Defined.

(** End-to-end scenario 2: with no facts in the table, [build] returns at
    once, embeds nothing and leaves the index empty. *)
Example build_without_facts :
  @build_vector_index ascii_builtins unreachable_services
    (Raise EOFError) 100
    {| db := {| table_exists := true; rows := []; sequence := 0 |};
       collection := [] |} =
  (Ok tt, {| db := {| table_exists := true; rows := []; sequence := 0 |};
             collection := [] |}).
Proof. reflexivity. Qed.

(** A row whose timestamp is NULL: the metadata of its batch is refused,
    so after "yes" the old entries are gone and nothing has been added. *)
Example build_over_null_timestamp :
  @build_vector_index ascii_builtins sample_services (Ok (lit "yes")) 100
    untimed_store =
  (Raise TypeError, {| db := db untimed_store; collection := [] |}).
Proof. vm_compute; reflexivity. Qed.

(** ** Search *)

Lemma skipn_cons_nth {A} (l : list A) (a : nat) (x : A) :
  nth_error l a = Some x -> skipn a l = x :: skipn (S a) l.
Proof.
  revert l; induction a as [|a IH]; intros [|y l]; cbn; try discriminate.
  - now intros [= ->].
  - apply IH.
Qed.

Lemma item_map {A B} (f : A -> B) (l : list A) (a : nat) (x : A) :
  nth_error l a = Some x -> item (map f l) a = Ok (f x).
Proof.
  intros H; unfold item; now rewrite (map_nth_error f a l H).
Qed.

Lemma hit_distances_ranked (ranked : list (Entry * float)) :
  hit_distances (map hit_of ranked) = map snd ranked.
Proof.
  induction ranked as [|x ranked IH]; cbn; [reflexivity|].
  unfold hit_distances in IH; now rewrite IH.
Qed.

Section SearchFacts.
Context {builtins : Builtins} {services : Services}.
Variable config : Config.

Lemma format_hit_ranked (ranked : list (Entry * float)) (a : nat)
    (x : Entry * float) :
  nth_error ranked a = Some x ->
  format_hit (answer_of ranked)
    (map (fun x => entry_document (fst x)) ranked) a = Ok (hit_of x).
Proof.
  intros H; unfold format_hit.
  rewrite (item_map _ ranked a x H); cbn [bind answer_of metadatas distances
                                          first_of item nth_error].
  rewrite (item_map _ ranked a x H), (item_map _ ranked a x H).
  reflexivity.
Qed.

Lemma format_hits_ranked (ranked : list (Entry * float)) :
  forall m a, (a + m = length ranked)%nat ->
    format_hits (answer_of ranked)
      (map (fun x => entry_document (fst x)) ranked) (seq a m) =
    Ok (map hit_of (skipn a ranked)).
Proof.
  induction m as [|m IH]; intros a Ha; cbn [seq format_hits].
  - rewrite skipn_all2 by lia; reflexivity.
  - destruct (nth_error ranked a) as [x|] eqn:Hx.
    + rewrite (format_hit_ranked ranked a x Hx); cbn [bind].
      rewrite IH by lia; cbn [bind].
      now rewrite (skipn_cons_nth ranked a x Hx).
    + apply nth_error_None in Hx; lia.
Qed.

(** What [search] makes of an answer of Chroma. *)
Lemma search_formats_answer (st : Store) (query : pystr) (top_k : option Z)
    (v : list float) (vs : list (list float))
    (ranked : list (Entry * float)) :
  embed_function [query] = Ok (v :: vs) ->
  collection_query (collection st) v
    (match top_k with None => TOP_K_RESULTS config | Some k => k end) =
    Ok (answer_of ranked) ->
  search config st query top_k = Ok (map hit_of ranked).
Proof.
  intros Hembed Hquery; unfold search.
  rewrite Hembed; cbn [bind item nth_error]; rewrite Hquery; cbn [bind].
  cbn [documents answer_of].
  destruct ranked as [|x ranked]; [reflexivity|].
  replace (0 <? len (map (fun x0 => entry_document (fst x0)) (x :: ranked)))
    with true by (unfold len; cbn; reflexivity).
  rewrite length_map.
  now rewrite (format_hits_ranked (x :: ranked) (length (x :: ranked)) 0).
Qed.

Lemma search_propagates (st : Store) (query : pystr) (top_k : option Z) :
  (forall e,
     embed_function [query] = Raise e ->
     search config st query top_k = Raise e) /\
  (forall v vs e,
     embed_function [query] = Ok (v :: vs) ->
     collection_query (collection st) v
       (match top_k with None => TOP_K_RESULTS config | Some k => k end) =
       Raise e ->
     search config st query top_k = Raise e).
Proof.
  split.
  - intros e Hembed; unfold search; now rewrite Hembed.
  - intros v vs e Hembed Hquery; unfold search.
    rewrite Hembed; cbn [bind item nth_error]; now rewrite Hquery.
Qed.

(** C2 (as amended): for [k >= 1], when the embedding backend embeds the
    query and Chroma answers with a ranked selection of at most [k]
    entries of the collection, nearest first, [search] returns one hit
    per selected entry, in that order: at most [k] hits, by
    non-decreasing distance, each with the document, type, source
    reference and timestamp of its entry and with its distance; and on an
    empty index the result is the empty list. An error of the embedding
    backend or of the index query leaves [search] as it is. *)
Theorem search_top_k (st : Store) (query : pystr) (top_k : option Z) :
  let k := match top_k with None => TOP_K_RESULTS config | Some k => k end in
  1 <= k ->
  (forall (v : list float) (vs : list (list float))
          (ranked : list (Entry * float)),
     embed_function [query] = Ok (v :: vs) ->
     collection_query (collection st) v k = Ok (answer_of ranked) ->
     ranked_selection (collection st) k ranked ->
     exists hits,
       search config st query top_k = Ok hits /\
       len hits <= k /\
       ascending (hit_distances hits) = true /\
       hits = map hit_of ranked /\
       (collection st = [] -> hits = [])) /\
  (forall e,
     embed_function [query] = Raise e ->
     search config st query top_k = Raise e) /\
  (forall v vs e,
     embed_function [query] = Ok (v :: vs) ->
     collection_query (collection st) v k = Raise e ->
     search config st query top_k = Raise e).
Proof.
  intros k Hk; split; [|exact (search_propagates st query top_k)].
  intros v vs ranked Hembed Hquery (Hlen & Hin & Hasc).
  exists (map hit_of ranked); repeat split.
  - now apply (search_formats_answer st query top_k v vs).
  - unfold len in *; now rewrite length_map.
  - now rewrite hit_distances_ranked.
  - intros Hempty; destruct ranked as [|x ranked]; [reflexivity|].
    specialize (Hin x (or_introl eq_refl)); rewrite Hempty in Hin.
    destruct Hin.
Qed.

End SearchFacts.

Lemma search_top_k_witness :
  exists hits,
    @search sample_services sample_config sample_store
      (lit "old") (Some 1) = Ok hits /\
    len hits <= 1 /\
    ascending (hit_distances hits) = true /\
    hits = map hit_of [(sample_entry 1 (lit "an old entry"), 0.5%float)] /\
    (collection sample_store = [] -> hits = []).
Proof.
  assert (Hk : 1 <= 1) by lia.
  refine (proj1 (@search_top_k sample_services sample_config sample_store
                   (lit "old") (Some 1) Hk)
            [0.5%float] []
            [(sample_entry 1 (lit "an old entry"), 0.5%float)]
            eq_refl eq_refl _).
  repeat split.
  - unfold len; cbn; lia.
  - intros x [<-|[]]; left; reflexivity.
Defined.

(** C2 as first stated fails: [search] has no handler, so for [k = 0] the
    error with which the index refuses the number of results leaves it,
    and on an empty index an embedding backend that is out of reach makes
    it raise instead of returning the empty list. *)
Lemma search_raises_for_zero_results :
  @search sample_services sample_config sample_store (lit "old") (Some 0) =
    Raise (ValueError (lit "n_results must be positive")) /\
  @search failing_embedding_services sample_config
    {| db := empty_database; collection := [] |} (lit "anything") None =
    Raise (BackendError (lit "embedding backend unreachable")).
Proof. split; reflexivity. Qed.

(** On an empty index the stand-in answers with no entry and [search]
    returns the empty list. *)
Example search_empty_index :
  @search sample_services sample_config
    {| db := empty_database; collection := [] |} (lit "anything") None
  = Ok [].
Proof. reflexivity. Qed.

(** ** History window *)

(** [l[-k:]] for a positive [k] is the last [k] items. *)
Lemma py_slice_last {A} (l : list A) (k : Z) :
  0 < k -> py_slice l (Some (- k)) None = last_items (Z.to_nat k) l.
Proof.
  intros Hk; unfold py_slice, clamp_index, last_items, len.
  destruct (- k <? 0) eqn:Hneg; [|apply Z.ltb_ge in Hneg; lia].
  replace (Z.to_nat (Z.max (- k + Z.of_nat (length l)) 0))
    with (length l - Z.to_nat k)%nat by lia.
  apply firstn_all2; rewrite length_skipn; lia.
Qed.

(** [l[-0:]] is the whole list. *)
Lemma py_slice_minus_zero {A} (l : list A) :
  py_slice l (Some (- 0)) None = l.
Proof.
  unfold py_slice, clamp_index, len; cbn [Z.opp Z.ltb Z.compare skipn].
  rewrite Z.min_l by lia; cbn [Z.to_nat skipn].
  apply firstn_all2; lia.
Qed.

Lemma length_last_items {A} (n : nat) (l : list A) :
  length (last_items n l) = Nat.min n (length l).
Proof.
  unfold last_items; rewrite length_skipn; lia.
Qed.

Lemma last_items_app {A} (n : nat) (old recent : list A) :
  length recent = n -> last_items n (old ++ recent) = recent.
Proof.
  intros H; unfold last_items; rewrite length_app.
  replace (length old + length recent - n)%nat with (length old + 0)%nat
    by lia.
  now rewrite skipn_app, Nat.add_0_r, skipn_all, Nat.sub_diag.
Qed.

Section PromptFacts.
Context {services : Services}.
Variable config : Config.

Lemma history_window_last (history : list json) :
  history_window history = last_items 5 history.
Proof. exact (py_slice_last history 5 eq_refl). Qed.

Lemma turn_messages_render (turns : list json) :
  forall past, turn_messages turns = Ok past ->
    past = flat_map render_turn turns /\
    length past = (2 * length turns)%nat /\
    alternating (map fst past) = true /\
    forallb complete_turn turns = true.
Proof.
  induction turns as [|turn rest IH]; cbn [turn_messages]; intros past.
  - intros [= <-]; auto.
  - unfold complete_turn, render_turn, field.
    destruct (subscript turn (lit "query")) as [q|] eqn:Hq; [|discriminate].
    destruct (subscript turn (lit "response")) as [r|] eqn:Hr;
      [|discriminate].
    cbn [bind].
    destruct (turn_messages rest) as [ms|] eqn:Hrest; [|discriminate].
    cbn [bind]; intros [= <-].
    destruct (IH ms eq_refl) as (Hms & Hlen & Halt & Hall).
    cbn [flat_map app length map fst forallb andb].
    repeat split.
    + rewrite Hq, Hr, Hms; reflexivity.
    + rewrite Hlen; lia.
    + cbn [alternating]; now rewrite Halt.
    + rewrite Hq, Hr; exact Hall.
Qed.

Lemma turn_messages_complete (turns : list json) :
  forallb complete_turn turns = true ->
  turn_messages turns = Ok (flat_map render_turn turns).
Proof.
  induction turns as [|turn rest IH]; cbn [forallb turn_messages];
    [reflexivity|].
  intros H; apply andb_true_iff in H as [Ht Hrest].
  rewrite (IH Hrest); cbn [flat_map].
  unfold complete_turn in Ht.
  destruct (subscript turn (lit "query")) eqn:Hq; [|discriminate].
  destruct (subscript turn (lit "response")) eqn:Hr; [|discriminate].
  unfold render_turn, field; rewrite Hq, Hr; reflexivity.
Qed.

(** C7: on both generation paths the history part of the prompt is built
    from [conversation_history[-5:]], the last five turns at most however
    long the history is: whenever a prompt is assembled its history part
    renders exactly those turns, in order, as a user message then an
    assistant message per turn (at most ten messages), before the current
    query and, for OpenAI, after the system message; older turns change
    nothing; and a prompt is assembled whenever those turns each hold a
    query and a response. *)
Theorem history_window_at_most_five (query context : pystr)
    (history : list json) :
  let window := history_window history in
  let current := (lit "user", JStr (current_message config query context)) in
  window = last_items 5 history /\
  length window = Nat.min 5 (length history) /\
  (forall old recent, history = old ++ recent -> length recent = 5%nat ->
     anthropic_messages config query context history =
       anthropic_messages config query context recent /\
     openai_messages config query context history =
       openai_messages config query context recent) /\
  (forall messages,
     anthropic_messages config query context history = Ok messages ->
     exists past,
       messages = past ++ [current] /\
       past = flat_map render_turn window /\
       (length past <= 10)%nat /\
       alternating (map fst past) = true) /\
  (forall messages,
     openai_messages config query context history = Ok messages ->
     exists past,
       messages =
         (lit "system", JStr (_build_system_prompt config)) ::
         past ++ [current] /\
       past = flat_map render_turn window /\
       (length past <= 10)%nat /\
       alternating (map fst past) = true) /\
  (forallb complete_turn window = true ->
   anthropic_messages config query context history =
     Ok (flat_map render_turn window ++ [current]) /\
   openai_messages config query context history =
     Ok ((lit "system", JStr (_build_system_prompt config)) ::
         flat_map render_turn window ++ [current])).
Proof.
  intros window current; subst window current.
  pose proof (history_window_last history) as Hw.
  assert (Hlen : length (history_window history) = Nat.min 5 (length history))
    by (rewrite Hw; apply length_last_items).
  split; [exact Hw|split; [exact Hlen|split; [|split; [|split]]]].
  - intros old recent -> Hrecent.
    unfold anthropic_messages, openai_messages.
    rewrite !history_window_last, (last_items_app 5 old recent Hrecent).
    replace (last_items 5 recent) with recent; [auto|].
    unfold last_items; now rewrite Hrecent.
  - intros messages; unfold anthropic_messages.
    destruct (turn_messages (history_window history)) as [past|] eqn:Hp;
      [|discriminate].
    cbn [bind]; intros [= <-].
    destruct (turn_messages_render _ past Hp) as (Hr & Hl & Ha & _).
    exists past; repeat split; auto.
    unfold message in *; rewrite Hl, Hlen; lia.
  - intros messages; unfold openai_messages.
    destruct (turn_messages (history_window history)) as [past|] eqn:Hp;
      [|discriminate].
    cbn [bind]; intros [= <-].
    destruct (turn_messages_render _ past Hp) as (Hr & Hl & Ha & _).
    exists past; repeat split; auto.
    unfold message in *; rewrite Hl, Hlen; lia.
  - intros Hall; unfold anthropic_messages, openai_messages.
    rewrite (turn_messages_complete _ Hall); auto.
Qed.

End PromptFacts.

Lemma history_window_at_most_five_witness :
  let turn := JDict [(lit "query", JStr (lit "q"));
                     (lit "response", JStr (lit "r"))] in
  let history := [turn; turn; turn; turn; turn; turn; turn] in
  exists past,
    anthropic_messages sample_config (lit "now?") no_memories history =
      Ok (past ++ [(lit "user",
                    JStr (current_message sample_config (lit "now?")
                            no_memories))]) /\
    length past = 10%nat.
Proof.
  intros turn history.
  exists (flat_map render_turn (history_window history)); split.
  - exact (proj1 (proj2 (proj2 (proj2 (proj2 (proj2
             (history_window_at_most_five sample_config (lit "now?")
                no_memories history))))) eq_refl)).
  - reflexivity.
Defined.

(** ** Query *)

Section QueryFacts.
Context {services : Services}.
Variable config : Config.

(** [query] step by step. *)
Lemma query_steps (now user_query : pystr) (top_k : option Z) (st : State) :
  query config now user_query top_k st =
  match search config (memory st) user_query top_k with
  | Raise e => (Raise e, st)
  | Ok facts =>
      match generate_response config user_query (_build_context facts)
              (conversation_history st) with
      | Raise e => (Raise e, st)
      | Ok text =>
          let turn :=
            JDict [(lit "timestamp", JStr now);
                   (lit "query", JStr user_query);
                   (lit "response", JStr text);
                   (lit "retrieved_facts_count", JInt (len facts));
                   (lit "context_preview",
                    JStr (py_slice (_build_context facts) None (Some 500)))]
          in
          (Ok {| response := text;
                 retrieved_facts := facts;
                 context := _build_context facts;
                 facts_retrieved := len facts;
                 model := LLM_PROVIDER config ++ lit "/" ++ LLM_MODEL config;
                 answer_timestamp := now |},
           {| memory := memory st;
              conversation_history := conversation_history st ++ [turn];
              log_file :=
                Some (match log_file st with
                      | Some text => text
                      | None => []
                      end ++ json_dumps turn ++ [10%N]) |})
      end
  end.
Proof.
  unfold query, mbind, lift, ret, _save_conversation_turn.
  destruct (search config (memory st) user_query top_k) as [facts|e];
    [|reflexivity].
  destruct (generate_response config user_query (_build_context facts)
              (conversation_history st)); reflexivity.
Qed.

(** C3 (as amended): when retrieval returns no fact, the context is the
    placeholder "No relevant memories found.", generation is called with
    it, and once the backend answers [query] returns that answer with
    [facts_retrieved = 0], the turn being appended to the history and to
    the log; an error of the generation backend is passed on. An error of
    retrieval itself is not turned into an empty context: [query] raises
    it and leaves history and log as they were. *)
Theorem query_without_facts (now user_query : pystr) (top_k : option Z)
    (st : State) :
  (search config (memory st) user_query top_k = Ok [] ->
   _build_context [] = no_memories /\
   match generate_response config user_query no_memories
           (conversation_history st) with
   | Ok text =>
       exists st',
         query config now user_query top_k st =
           (Ok {| response := text;
                  retrieved_facts := [];
                  context := no_memories;
                  facts_retrieved := 0;
                  model := LLM_PROVIDER config ++ lit "/" ++ LLM_MODEL config;
                  answer_timestamp := now |}, st') /\
         memory st' = memory st /\
         length (conversation_history st') =
           S (length (conversation_history st)) /\
         exists line, log_file st' =
           Some (match log_file st with Some text => text | None => [] end
                 ++ line ++ [10%N])
   | Raise e => query config now user_query top_k st = (Raise e, st)
   end) /\
  (forall e,
     search config (memory st) user_query top_k = Raise e ->
     query config now user_query top_k st = (Raise e, st)).
Proof.
  split.
  - intros Hsearch; split; [reflexivity|].
    rewrite query_steps, Hsearch; cbn [_build_context].
    destruct (generate_response config user_query no_memories
                (conversation_history st)) as [text|e]; [|reflexivity].
    eexists; split; [reflexivity|].
    cbn [memory conversation_history log_file]; split; [reflexivity|split].
    + rewrite length_app; cbn; lia.
    + eexists; reflexivity.
  - intros e Hsearch; now rewrite query_steps, Hsearch.
Qed.

End QueryFacts.

Lemma query_without_facts_witness :
  exists st',
    @query sample_services sample_config (lit "2024-01-01T00:00:00")
      (lit "what do I like?") None (sample_state None) =
    (Ok {| response := lit "ok";
           retrieved_facts := [];
           context := no_memories;
           facts_retrieved := 0;
           model := lit "anthropic/claude-3-5-sonnet-20241022";
           answer_timestamp := lit "2024-01-01T00:00:00" |}, st') /\
    memory st' = memory (sample_state None) /\
    length (conversation_history st') = 1%nat /\
    exists line, log_file st' = Some ([] ++ line ++ [10%N]).
Proof.
  exact (proj2 (proj1 (@query_without_facts sample_services sample_config
                         (lit "2024-01-01T00:00:00")
                         (lit "what do I like?") None (sample_state None))
                  eq_refl)).
Defined.

(** C3 as first stated fails: with an index that cannot be reached the
    error of the look-up leaves [search] and [query] as it is; no
    generation takes place and no answer is returned. *)
Lemma query_unreachable_index_raises :
  @search unreachable_services sample_config
    (memory (sample_state None)) (lit "what do I like?") None =
    Raise (BackendError (lit "index unreachable")) /\
  @query unreachable_services sample_config (lit "2024-01-01T00:00:00")
    (lit "what do I like?") None (sample_state None) =
    (Raise (BackendError (lit "index unreachable")), sample_state None).
Proof. split; reflexivity. Qed.

(** ** Conversation history *)

Section HistoryFacts.
Context {services : Services}.

Lemma load_lines_parsed (lines : list pystr) :
  loadable lines = true ->
  forall history,
    load_lines lines history = (Ok tt, history ++ parsed_turns lines).
Proof.
  induction lines as [|line rest IH]; intros Hok history;
    cbn [load_lines].
  - cbn; now rewrite app_nil_r.
  - unfold loadable in Hok; cbn [forallb] in Hok.
    apply andb_true_iff in Hok as [Hline Hrest].
    unfold parsed_turns; cbn [flat_map].
    destruct (json_loads line) as [turn|e].
    + rewrite (IH Hrest); unfold parsed_turns.
      now rewrite <- app_assoc.
    + destruct e; try discriminate.
      now rewrite (IH Hrest).
Qed.

(** Whatever its outcome, the loop keeps the history it is given and
    appends at most one turn per line. *)
Lemma load_lines_appends (lines : list pystr) :
  forall history,
    exists new,
      snd (load_lines lines history) = history ++ new /\
      (length new <= length lines)%nat.
Proof.
  induction lines as [|line rest IH]; intros history; cbn [load_lines].
  - exists []; cbn; now rewrite app_nil_r.
  - assert (Hstop : exists new,
              history = history ++ new /\
              (length new <= length (line :: rest))%nat)
      by (exists []; cbn; rewrite app_nil_r; split; [reflexivity|lia]).
    destruct (json_loads line) as [turn|e].
    + destruct (IH (history ++ [turn])) as (new & -> & Hlen).
      exists (turn :: new); rewrite <- app_assoc; cbn; split;
        [reflexivity|lia].
    + destruct e; try exact Hstop.
      destruct (IH history) as (new & -> & Hlen).
      exists new; cbn; split; [reflexivity|lia].
Qed.

Lemma load_conversation_history_frame (limit : Z) (st : State) :
  memory (snd (load_conversation_history limit st)) = memory st /\
  log_file (snd (load_conversation_history limit st)) = log_file st.
Proof.
  unfold load_conversation_history.
  destruct (log_file st) as [text|] eqn:Hlog; [|now split].
  destruct (decodable text); now split.
Qed.

(** Without a log [load_conversation_history] changes nothing. *)
Lemma load_conversation_history_missing (limit : Z) (st : State) :
  log_file st = None ->
  load_conversation_history limit st = (Ok tt, st).
Proof. intros Hlog; unfold load_conversation_history; now rewrite Hlog. Qed.

(** A log that decodes and whose selected lines parse or fail with
    [JSONDecodeError] is loaded without error: the turns of the selected
    lines that parse are appended, in file order, the others skipped. *)
Lemma load_conversation_history_result (limit : Z) (st : State)
    (text : pystr) :
  log_file st = Some text -> decodable text = true ->
  loadable (py_slice (readlines text) (Some (- limit)) None) = true ->
  load_conversation_history limit st =
  (Ok tt,
   {| memory := memory st;
      conversation_history :=
        conversation_history st ++
        parsed_turns (py_slice (readlines text) (Some (- limit)) None);
      log_file := Some text |}).
Proof.
  intros Hlog Hdec Hok; unfold load_conversation_history.
  rewrite Hlog, Hdec; cbv zeta.
  now rewrite (load_lines_parsed _ Hok).
Qed.

(** With a positive limit the selected lines are the last [limit] ones. *)
Lemma load_conversation_history_positive (limit : Z) (st : State)
    (text : pystr) :
  0 < limit -> log_file st = Some text -> decodable text = true ->
  loadable (last_items (Z.to_nat limit) (readlines text)) = true ->
  load_conversation_history limit st =
  (Ok tt,
   {| memory := memory st;
      conversation_history :=
        conversation_history st ++
        parsed_turns (last_items (Z.to_nat limit) (readlines text));
      log_file := Some text |}).
Proof.
  intros Hpos Hlog Hdec Hok.
  rewrite (load_conversation_history_result limit st text Hlog Hdec);
    rewrite py_slice_last by assumption; [reflexivity|assumption].
Qed.

(** With limit 0 the slice [lines[-0:]] is the whole file. *)
Lemma load_conversation_history_zero (st : State) (text : pystr) :
  log_file st = Some text -> decodable text = true ->
  loadable (readlines text) = true ->
  load_conversation_history 0 st =
  (Ok tt,
   {| memory := memory st;
      conversation_history :=
        conversation_history st ++ parsed_turns (readlines text);
      log_file := Some text |}).
Proof.
  intros Hlog Hdec Hok.
  rewrite (load_conversation_history_result 0 st text Hlog Hdec);
    rewrite py_slice_minus_zero; [reflexivity|assumption].
Qed.

(** C8: [clear_conversation_history] returns without error, empties the
    in-memory history and leaves the log file and the memory store as
    they were; a process started afterwards gets from
    [load_conversation_history] exactly the outcome it would have got
    without the clear. Without a log that is no change; on a log that
    decodes and whose selected lines parse or fail with
    [JSONDecodeError], it is the history made of the turns of those
    lines. *)
Theorem clear_history_keeps_log (limit : Z) (st : State) :
  let cleared := snd (clear_conversation_history st) in
  fst (clear_conversation_history st) = Ok tt /\
  conversation_history cleared = [] /\
  log_file cleared = log_file st /\
  memory cleared = memory st /\
  load_conversation_history limit (restart cleared) =
    load_conversation_history limit (restart st) /\
  (log_file st = None ->
   load_conversation_history limit (restart cleared) =
     (Ok tt, restart st)) /\
  (forall text,
     log_file st = Some text -> decodable text = true ->
     loadable (py_slice (readlines text) (Some (- limit)) None) = true ->
     load_conversation_history limit (restart cleared) =
     (Ok tt,
      {| memory := memory st;
         conversation_history :=
           parsed_turns (py_slice (readlines text) (Some (- limit)) None);
         log_file := Some text |})).
Proof.
  cbn zeta; repeat split.
  - intros Hlog; now apply load_conversation_history_missing.
  - intros text Hlog Hdec Hok.
    now rewrite (load_conversation_history_result limit _ text).
Qed.

End HistoryFacts.

(** End-to-end scenario 4: a log of three turns, a history cleared, and a
    new process that loads the three turns again. *)
Example clear_then_restart :
  let st := {| memory := {| db := empty_database; collection := [] |};
               conversation_history := [JDict []; JDict []; JDict []];
               log_file := Some sample_log |} in
  let cleared := snd (clear_conversation_history st) in
  conversation_history cleared = [] /\
  log_file cleared = Some sample_log /\
  conversation_history
    (snd (@load_conversation_history sample_services 20 (restart cleared)))
  = [JDict []; JDict []; JDict []].
Proof. repeat split. Qed.

Lemma clear_history_keeps_log_witness :
  let st := {| memory := {| db := empty_database; collection := [] |};
               conversation_history := [JDict []; JDict []; JDict []];
               log_file := Some sample_log |} in
  @load_conversation_history sample_services 20
    (restart (snd (clear_conversation_history st))) =
  (Ok tt,
   {| memory := memory st;
      conversation_history := [JDict []; JDict []; JDict []];
      log_file := Some sample_log |}).
Proof.
  intros st.
  exact (proj2 (proj2 (proj2 (proj2 (proj2 (proj2
           (@clear_history_keeps_log sample_services 20 st))))))
           sample_log eq_refl eq_refl eq_refl).
Defined.

(** C10 at limit 0: the log holds three lines, its last 0 lines hold no
    turn, and [load_conversation_history(limit=0)] appends all three. *)
Lemma load_history_limit_zero_reads_all :
  @parsed_turns sample_services (last_items 0 (readlines sample_log)) = [] /\
  conversation_history
    (snd (@load_conversation_history sample_services 0
            (sample_state (Some sample_log))))
  = [JDict []; JDict []; JDict []].
Proof. split; reflexivity. Qed.

(** A corrupt line is skipped and a missing log changes nothing. *)
Example load_history_skips_corrupt_lines :
  conversation_history
    (snd (@load_conversation_history sample_services 20
            (sample_state
               (Some (lit "{}" ++ [10%N] ++ lit "not json" ++ [10%N] ++
                      lit "{}")))))
  = [JDict []; JDict []] /\
  @load_conversation_history sample_services 20 (sample_state None)
  = (Ok tt, sample_state None).
Proof. split; reflexivity. Qed.

(** A line on which [json.loads] raises another error ends the load with
    that error, the turns of the lines before it being in the history
    already; a log that is not UTF-8 is not read at all. *)
Example load_history_stops_on_other_errors :
  @load_conversation_history sample_services 20
    (sample_state
       (Some (lit "{}" ++ [10%N] ++ lit "99" ++ [10%N] ++ lit "{}"))) =
  (Raise (ValueError (lit "Exceeds the limit for integer string conversion")),
   {| memory := memory (sample_state None);
      conversation_history := [JDict []];
      log_file :=
        Some (lit "{}" ++ [10%N] ++ lit "99" ++ [10%N] ++ lit "{}") |}) /\
  @load_conversation_history sample_services 20
    (sample_state (Some (lit "{}" ++ [56448%N; 10%N]))) =
  (Raise UnicodeDecodeError,
   sample_state (Some (lit "{}" ++ [56448%N; 10%N]))).
Proof. split; reflexivity. Qed.

(* ================================================================== *)
(** * Further properties of the pipeline *)

(** ** Strings *)

Lemma pystr_eqb_eq (a b : pystr) : pystr_eqb a b = true <-> a = b.
Proof.
  revert b; induction a as [|x a IH]; intros [|y b]; cbn;
    try (split; congruence).
  rewrite andb_true_iff, N.eqb_eq, IH; split.
  - now intros [-> ->].
  - now intros [= -> ->].
Qed.

Lemma pystr_eqb_refl (a : pystr) : pystr_eqb a a = true.
Proof. now apply pystr_eqb_eq. Qed.

Lemma pystr_eqb_neq (a b : pystr) : pystr_eqb a b = false <-> a <> b.
Proof.
  split.
  - intros H E; apply pystr_eqb_eq in E; congruence.
  - intros H; destruct (pystr_eqb a b) eqn:E; [|reflexivity].
    apply pystr_eqb_eq in E; contradiction.
Qed.

Lemma lit_inj (a b : string) : lit a = lit b -> a = b.
Proof.
  revert b; induction a as [|c a IH]; intros [|d b]; cbn;
    try congruence.
  intros [= Hc Hab]; f_equal; [|now apply IH].
  rewrite <- (ascii_N_embedding c), <- (ascii_N_embedding d); congruence.
Qed.

Lemma to_int_proper (z : Z) :
  Z.to_int z <> Decimal.Pos Decimal.Nil /\
  Z.to_int z <> Decimal.Neg Decimal.Nil.
Proof.
  destruct z; cbn; split; try discriminate; intros [= H];
    now apply DecimalPos.Unsigned.to_uint_nonnil in H.
Qed.

(** Two integers with the same decimal rendering are equal. *)
Lemma str_of_int_inj (a b : Z) : str_of_int a = str_of_int b -> a = b.
Proof.
  unfold str_of_int; intros H; apply lit_inj in H.
  apply (f_equal NilZero.int_of_string) in H.
  destruct (to_int_proper a), (to_int_proper b).
  rewrite !NilZero.isi in H by assumption.
  injection H as H; apply (f_equal Z.of_int) in H.
  now rewrite !DecimalZ.of_to in H.
Qed.

Lemma lstrip_split (s : pystr) :
  exists spaces, s = spaces ++ lstrip s /\ forallb isspace spaces = true.
Proof.
  induction s as [|c s (spaces & Hs & Hall)]; cbn [lstrip].
  - exists []; auto.
  - destruct (isspace c) eqn:Hc.
    + exists (c :: spaces); split.
      * cbn [app]; f_equal; exact Hs.
      * cbn [forallb]; now rewrite Hc, Hall.
    + exists []; auto.
Qed.

Lemma lstrip_head (s : pystr) :
  match lstrip s with
  | [] => True
  | c :: _ => isspace c = false
  end.
Proof.
  induction s as [|c s IH]; cbn [lstrip]; [exact I|].
  destruct (isspace c) eqn:Hc; [exact IH|exact Hc].
Qed.

Lemma forallb_rev {A} (f : A -> bool) (l : list A) :
  forallb f (rev l) = forallb f l.
Proof.
  induction l as [|x l IH]; cbn; [reflexivity|].
  rewrite forallb_app, IH; cbn; rewrite andb_true_r; apply andb_comm.
Qed.

(** [strip] takes white space off the two ends and nothing else. *)
Lemma strip_split (s : pystr) :
  exists before after,
    s = before ++ strip s ++ after /\
    forallb isspace before = true /\ forallb isspace after = true.
Proof.
  destruct (lstrip_split s) as (before & Hs & Hb).
  destruct (lstrip_split (rev (lstrip s))) as (after & Hr & Ha).
  exists before, (rev after); repeat split; auto.
  - unfold strip, rstrip.
    apply (f_equal (@rev N)) in Hr.
    rewrite rev_involutive, rev_app_distr in Hr.
    now rewrite <- Hr.
  - now rewrite forallb_rev.
Qed.

Lemma strip_ends (s : pystr) :
  match strip s with
  | [] => True
  | c :: _ => isspace c = false /\ isspace (last (strip s) c) = false
  end.
Proof.
  unfold strip, rstrip.
  pose proof (lstrip_head (rev (lstrip s))) as Hlast.
  pose proof (lstrip_head s) as Hfirst.
  destruct (lstrip_split (rev (lstrip s))) as (spaces & Hr & _).
  apply (f_equal (@rev N)) in Hr.
  rewrite rev_involutive, rev_app_distr in Hr.
  destruct (rev (lstrip (rev (lstrip s)))) as [|c t] eqn:Hst; [exact I|].
  split.
  - rewrite Hr in Hfirst; exact Hfirst.
  - destruct (lstrip (rev (lstrip s))) as [|x u] eqn:Hu;
      [discriminate|].
    cbn [rev] in Hst. rewrite <- Hst, last_last. exact Hlast.
Qed.

(** ** Filtering and extraction *)

Lemma result_value (r : result json) :
  (exists v, r = Ok v) ->
  r = Ok (match r with Ok v => v | Raise _ => JNull end).
Proof. intros [v ->]; reflexivity. Qed.

Lemma message_sender_dict (d : list (pystr * json)) :
  get_or (JDict d) (lit "from")
    (get_or (JDict d) (lit "sender")
       (get_or (JDict d) (lit "author") (Ok (JStr [])))) =
  Ok (message_sender (JDict d)).
Proof.
  unfold message_sender; apply result_value.
  do 3 apply get_or_dict_ok; eauto.
Qed.

Lemma message_timestamp_dict (d : list (pystr * json)) :
  get_or (JDict d) (lit "timestamp")
    (get_or (JDict d) (lit "datetime")
       (get_or (JDict d) (lit "date")
          (get_or (JDict d) (lit "time") (Ok (JStr []))))) =
  Ok (message_timestamp (JDict d)).
Proof.
  unfold message_timestamp; apply result_value.
  do 4 apply get_or_dict_ok; eauto.
Qed.

Lemma message_id_dict (i : Z) (d : list (pystr * json)) :
  get_or (JDict d) (lit "id") (Ok (JInt i)) = Ok (message_id i (JDict d)).
Proof.
  unfold message_id; apply result_value, get_or_dict_ok; eauto.
Qed.

Lemma get_or_truthy (d : list (pystr * json)) (key : pystr)
    (rest : result json) (v : json) :
  get_or (JDict d) key rest = Ok v -> truthy v = true \/ rest = Ok v.
Proof.
  rewrite get_or_dict; cbv zeta.
  destruct (truthy _) eqn:Ht; [|now right].
  intros [= <-]; now left.
Qed.

(** The timestamp read off a message is the empty string or a truthy
    value, never [None]. *)
Lemma message_timestamp_value (d : list (pystr * json)) :
  message_timestamp (JDict d) = JStr [] \/
  truthy (message_timestamp (JDict d)) = true.
Proof.
  pose proof (message_timestamp_dict d) as H.
  repeat (apply get_or_truthy in H as [H|H]; [now right|]).
  injection H as <-; now left.
Qed.

Lemma message_sender_value (d : list (pystr * json)) :
  message_sender (JDict d) = JStr [] \/
  truthy (message_sender (JDict d)) = true.
Proof.
  pose proof (message_sender_dict d) as H.
  repeat (apply get_or_truthy in H as [H|H]; [now right|]).
  injection H as <-; now left.
Qed.

Section ExtractionDetails.
Context {builtins : Builtins}.

(** The loop body on a message object, every field resolved. *)
Lemma extract_one_fields (i : Z) (d : list (pystr * json)) :
  extract_one i (JDict d) =
  if negb (truthy (message_text (JDict d))) then Ok None
  else
    match message_text (JDict d) with
    | JStr s =>
        if len (strip s) <? 5 then Ok None
        else Ok (Some {| fact_type := category_name (_classify_message s);
                         content := strip s;
                         source_reference :=
                           lit "msg_" ++
                           format_value (message_id i (JDict d));
                         timestamp := message_timestamp (JDict d);
                         raw_text := s |})
    | _ => Raise AttributeError
    end.
Proof.
  unfold extract_one.
  now rewrite message_text_dict, message_timestamp_dict, message_id_dict.
Qed.

Lemma extract_one_some (i : Z) (msg : json) (f : Fact) :
  extract_one i msg = Ok (Some f) ->
  exists d,
    msg = JDict d /\
    message_text msg = JStr (raw_text f) /\
    fact_type f = category_name (_classify_message (raw_text f)) /\
    content f = strip (raw_text f) /\
    source_reference f = lit "msg_" ++ format_value (message_id i msg) /\
    timestamp f = message_timestamp msg.
Proof.
  destruct msg; try discriminate.
  rewrite extract_one_fields; intros H; exists fields.
  destruct (negb (truthy (message_text (JDict fields)))); [discriminate|].
  destruct (message_text (JDict fields)); try discriminate.
  destruct (len (strip s) <? 5); [discriminate|].
  injection H as <-; cbn; auto 10.
Qed.

(** Every fact of a run comes from the loop body on one message, at the
    position of that message. *)
Lemma extract_from_sources (messages : list json) :
  forall (i : Z) (facts : list Fact),
    extract_from i messages = Ok facts ->
    Forall (fun f =>
              exists j msg,
                nth_error messages j = Some msg /\
                extract_one (i + Z.of_nat j) msg = Ok (Some f)) facts.
Proof.
  induction messages as [|msg rest IH]; cbn [extract_from]; intros i facts.
  - intros [= <-]; constructor.
  - destruct (extract_one i msg) as [o|e] eqn:Hone; [|discriminate].
    cbn [bind].
    destruct (extract_from (i + 1) rest) as [fs|e] eqn:Hrest;
      [|discriminate].
    cbn [bind]; intros [= <-].
    assert (Hfs : Forall (fun f =>
                     exists j m, nth_error (msg :: rest) j = Some m /\
                       extract_one (i + Z.of_nat j) m = Ok (Some f)) fs).
    { eapply Forall_impl; [|exact (IH _ _ Hrest)].
      intros f (j & m & Hj & Hm); exists (S j), m; split; [exact Hj|].
      now replace (i + Z.of_nat (S j)) with (i + 1 + Z.of_nat j) by lia. }
    destruct o as [f|]; [|exact Hfs].
    constructor; [|exact Hfs].
    exists 0%nat, msg; split; [reflexivity|].
    now rewrite Z.add_0_r.
Qed.

Lemma filter_loop_result (user_name : pystr) (messages : list json) :
  forall kept,
    filter_user_messages_loop user_name messages = Ok kept <->
    forallb sender_object messages = true /\
    kept = filter (from_user user_name) messages.
Proof.
  induction messages as [|msg rest IH];
    cbn [filter_user_messages_loop forallb filter]; intros kept.
  - split; [intros [= <-]; auto|intros [_ ->]; reflexivity].
  - destruct msg;
      try (split; [discriminate|intros [H _]; discriminate]).
    rewrite message_sender_dict; cbn [bind].
    change (sender_object (JDict fields))
      with (match message_sender (JDict fields) with
            | JStr _ => true
            | v => negb (truthy v)
            end).
    change (from_user user_name (JDict fields))
      with (match message_sender (JDict fields) with
            | JStr sender => contains (lower user_name) (lower sender)
            | _ => false
            end).
    pose proof (message_sender_value fields) as Hv.
    destruct (message_sender (JDict fields)) as [| | | |sender| |] eqn:Hs;
      cbn [lower_of bind].
    1-4,6-7:
      (destruct Hv as [Hv|Hv]; [discriminate|];
       cbn [truthy] in Hv |- *;
       first [discriminate
             |rewrite Hv; split; [discriminate|intros [H _]; discriminate]]).
    destruct (filter_user_messages_loop user_name rest) as [ks|e] eqn:Hrest;
      cbn [bind].
    + destruct (IH ks) as [Hk _]; destruct (Hk eq_refl) as [Hall ->].
      rewrite Hall; split; [intros [= <-]; auto|intros [_ ->]; reflexivity].
    + split; [discriminate|].
      intros [Hall _].
      destruct (IH (filter (from_user user_name) rest)) as [_ Hk].
      cbn [andb] in Hall; specialize (Hk (conj Hall eq_refl)).
      congruence.
Qed.

End ExtractionDetails.

Lemma message_id_without (i : Z) (msg : json) :
  without_id msg = true -> message_id i msg = JInt i.
Proof.
  destruct msg; try discriminate.
  unfold without_id, message_id; rewrite get_or_dict; cbv zeta.
  intros H; apply negb_true_iff in H; now rewrite H.
Qed.

Lemma positional_references_nodup (js : list Z) :
  StronglySorted Z.lt js ->
  NoDup (map (fun j => lit "msg_" ++ str_of_int j) js).
Proof.
  induction 1 as [|j js Hsorted IH Hall]; cbn [map]; constructor; auto.
  intros Hin; apply in_map_iff in Hin as (k & Hk & Hin).
  apply app_inv_head, str_of_int_inj in Hk; subst k.
  rewrite Forall_forall in Hall; specialize (Hall j Hin); lia.
Qed.

Section ExtractionExtras.
Context {builtins : Builtins}.

Lemma extract_from_positional (messages : list json) :
  forallb without_id messages = true ->
  forall (i : Z) (facts : list Fact),
    extract_from i messages = Ok facts ->
    exists js,
      StronglySorted Z.lt js /\ Forall (fun j => i <= j) js /\
      map source_reference facts =
        map (fun j => lit "msg_" ++ str_of_int j) js.
Proof.
  induction messages as [|msg rest IH]; cbn [forallb extract_from];
    intros Hall i facts.
  - intros [= <-]; exists []; repeat split; constructor.
  - apply andb_true_iff in Hall as [Hmsg Hrest].
    destruct (extract_one i msg) as [o|e] eqn:Hone; [|discriminate].
    cbn [bind].
    destruct (extract_from (i + 1) rest) as [fs|e] eqn:Hfs; [|discriminate].
    cbn [bind]; intros [= <-].
    destruct (IH Hrest _ _ Hfs) as (js & Hsorted & Hlow & Hrefs).
    assert (Hlow' : Forall (fun j => i <= j) js)
      by (eapply Forall_impl; [|exact Hlow]; cbn; intros; lia).
    destruct o as [f|]; [|exists js; auto].
    exists (i :: js); repeat split.
    + constructor; [exact Hsorted|].
      eapply Forall_impl; [|exact Hlow]; cbn; intros; lia.
    + constructor; [lia|exact Hlow'].
    + destruct (extract_one_some i msg f Hone) as (d & _ & _ & _ & _ & Hr & _).
      cbn [map]; rewrite Hr, Hrefs, (message_id_without i msg Hmsg).
      reflexivity.
Qed.

(** X1: [filter_user_messages] returns exactly when every message is an
    object whose sender (from, sender or author) is absent or a string,
    and it then returns, in their order, the messages whose lower-cased
    sender contains the lower-cased user name. *)
Theorem filter_user_messages_in_order (user_name : pystr)
    (messages kept : list json) :
  filter_user_messages user_name (JList messages) = Ok kept <->
  forallb sender_object messages = true /\
  kept = filter (from_user user_name) messages.
Proof.
  unfold filter_user_messages; cbn [py_iter bind].
  apply filter_loop_result.
Qed.

(** X2: when no message carries an id, the fact of the message at
    position [j] (counted over all the messages handed in, dropped ones
    included) has the source reference "msg_j", and the source references
    of the facts of one run are pairwise distinct. *)
Theorem positional_source_references (messages : list json)
    (facts : list Fact) :
  forallb without_id messages = true ->
  extract_facts messages = Ok facts ->
  NoDup (map source_reference facts) /\
  Forall (fun f =>
            exists j msg,
              nth_error messages j = Some msg /\
              message_text msg = JStr (raw_text f) /\
              source_reference f = lit "msg_" ++ str_of_int (Z.of_nat j))
    facts.
Proof.
  intros Hall Hfacts; split.
  - destruct (extract_from_positional messages Hall 0 facts Hfacts)
      as (js & Hsorted & _ & ->).
    now apply positional_references_nodup.
  - eapply Forall_impl; [|exact (extract_from_sources messages 0 facts Hfacts)].
    intros f (j & msg & Hj & Hone); exists j, msg.
    destruct (extract_one_some _ msg f Hone) as (d & _ & Ht & _ & _ & Hr & _).
    repeat split; auto.
    rewrite Hr, message_id_without; [reflexivity|].
    rewrite forallb_forall in Hall; apply Hall.
    eapply nth_error_In; exact Hj.
Qed.

(** X3: the content of every extracted fact is its raw text without the
    white space at its two ends: the raw text is white space, then the
    content, then white space, and the content neither starts nor ends
    with a white-space character. *)
Theorem extracted_content_is_trimmed (messages : list json)
    (facts : list Fact) :
  extract_facts messages = Ok facts ->
  Forall (fun f =>
            (exists before after,
               raw_text f = before ++ content f ++ after /\
               forallb isspace before = true /\
               forallb isspace after = true) /\
            match content f with
            | [] => False
            | c :: _ =>
                isspace c = false /\ isspace (last (content f) c) = false
            end) facts.
Proof.
  intros Hfacts.
  destruct (extract_from_result messages 0 facts Hfacts) as (Hall & _ & _).
  eapply Forall_impl; [|exact Hall].
  intros f [Hc Hlen]; rewrite Hc in *; split.
  - apply strip_split.
  - pose proof (strip_ends (raw_text f)) as He.
    destruct (strip (raw_text f)); [cbn in Hlen; lia|exact He].
Qed.

(** X4: the type of every extracted fact is the name of the category of
    its raw text, one of the nine names, and its timestamp is the empty
    string or a truthy value of the message, never [None]: stored, it is
    NULL in one case only, that of a float that is not a number. *)
Theorem extracted_type_and_timestamp (messages : list json)
    (facts : list Fact) :
  extract_facts messages = Ok facts ->
  Forall (fun f =>
            fact_type f = category_name (_classify_message (raw_text f)) /\
            In (fact_type f) (map category_name categories) /\
            (timestamp f = JStr [] \/ truthy (timestamp f) = true) /\
            (bind_parameter (timestamp f) = Ok SqlNull <->
             exists x, timestamp f = JFloat x /\ PrimFloat.eqb x x = false))
    facts.
Proof.
  intros Hfacts.
  eapply Forall_impl; [|exact (extract_from_sources messages 0 facts Hfacts)].
  intros f (j & msg & _ & Hone).
  destruct (extract_one_some _ msg f Hone) as (d & -> & _ & Ht & _ & _ & Hts).
  assert (Hv : timestamp f = JStr [] \/ truthy (timestamp f) = true)
    by (rewrite Hts; apply message_timestamp_value).
  repeat split; auto.
  - rewrite Ht; apply in_map.
    destruct (_classify_message (raw_text f)); cbn; tauto.
  - destruct Hv as [Hv|Hv]; [rewrite Hv; discriminate|].
    destruct (timestamp f) as [| | |x| | |]; cbn [truthy] in Hv;
      unfold bind_parameter; try discriminate.
    + destruct (_ && _); discriminate.
    + destruct (PrimFloat.eqb x x) eqn:Hx; [discriminate|].
      intros _; exists x; auto.
    + destruct (existsb surrogate s); discriminate.
  - intros (x & -> & Hx); unfold bind_parameter; now rewrite Hx.
Qed.

End ExtractionExtras.

Lemma positional_source_references_witness :
  NoDup (map source_reference scenario_facts).
Proof.
  exact (proj1 (@positional_source_references ascii_builtins
                  scenario_messages scenario_facts eq_refl eq_refl)).
Defined.

Lemma extracted_content_is_trimmed_witness :
  let messages := [JDict [(lit "text", JStr (lit "  hello world "))]] in
  let facts := [{| fact_type := lit "general";
                   content := lit "hello world";
                   source_reference := lit "msg_0";
                   timestamp := JStr [];
                   raw_text := lit "  hello world " |}] in
  Forall (fun f =>
            (exists before after,
               raw_text f = before ++ content f ++ after /\
               forallb isspace before = true /\
               forallb isspace after = true) /\
            match content f with
            | [] => False
            | c :: _ =>
                isspace c = false /\ isspace (last (content f) c) = false
            end) facts.
Proof.
  intros messages facts.
  exact (@extracted_content_is_trimmed ascii_builtins messages facts eq_refl).
Defined.

Lemma extracted_type_and_timestamp_witness :
  Forall (fun f =>
            fact_type f =
              category_name (@_classify_message ascii_builtins (raw_text f)) /\
            In (fact_type f) (map category_name categories) /\
            (timestamp f = JStr [] \/ truthy (timestamp f) = true) /\
            (bind_parameter (timestamp f) = Ok SqlNull <->
             exists x, timestamp f = JFloat x /\ PrimFloat.eqb x x = false))
    scenario_facts.
Proof.
  exact (@extracted_type_and_timestamp ascii_builtins scenario_messages
           scenario_facts eq_refl).
Defined.

(** A message whose timestamp is the float NaN, which [json.load] accepts,
    gives a fact whose row holds NULL as its timestamp. *)
Example nan_timestamp_is_stored_as_null :
  let fact := {| fact_type := lit "general"; content := lit "hello world";
                 source_reference := lit "msg_0";
                 timestamp := JFloat PrimFloat.nan;
                 raw_text := lit "hello world" |} in
  @extract_facts ascii_builtins
    [JDict [(lit "text", JStr (lit "hello world"));
            (lit "timestamp", JFloat PrimFloat.nan)]] = Ok [fact] /\
  map row_timestamp
    (rows (snd (@save_to_db ascii_builtins (fun _ => []) empty_database
                  [fact]))) = [None].
Proof. vm_compute; split; reflexivity. Qed.

(** ** The fact store, continued *)

Lemma max_id_bound (l : list Row) (r : Row) :
  In r l -> row_id r <= fold_right Z.max 0 (map row_id l).
Proof.
  induction l as [|x l IH]; cbn; [tauto|].
  intros [->|Hin]; [lia|]. specialize (IH Hin); lia.
Qed.

Lemma next_row_id_fresh (d : Database) :
  sequence d < next_row_id d /\
  Forall (fun r => row_id r < next_row_id d) (rows d).
Proof.
  unfold next_row_id; split; [lia|].
  apply Forall_forall; intros r Hin.
  pose proof (max_id_bound (rows d) r Hin); lia.
Qed.

Section FactStoreExtras.
Context {builtins : Builtins}.
Variable clock : Z -> pystr.

Lemma insert_fact_ok (d d1 : Database) (fact : Fact) :
  insert_fact clock d fact = Ok d1 ->
  exists row,
    d1 = {| table_exists := true;
            rows := rows d ++ [row];
            sequence := next_row_id d |} /\
    row_id row = next_row_id d /\
    row_type row = fact_type fact /\
    row_content row = content fact /\
    row_source_reference row = source_reference fact /\
    row_data row = fact_data fact /\
    storable fact = true /\
    next_row_id d <= max_row_id.
Proof.
  unfold insert_fact, storable, fact_data, bind_text.
  destruct (bind_parameter (JStr (fact_type fact))) as [t|] eqn:Ht;
    [|discriminate].
  destruct (bind_parameter (JStr (content fact))) as [c|] eqn:Hc;
    [|apply bind_str_ok in Ht; subst; discriminate].
  destruct (bind_parameter (JStr (source_reference fact))) as [r|] eqn:Hr;
    [|apply bind_str_ok in Ht, Hc; subst; discriminate].
  destruct (bind_parameter (timestamp fact)) as [ts|] eqn:Hts;
    [|apply bind_str_ok in Ht, Hc, Hr; subst; discriminate].
  destruct (bind_parameter (JStr (raw_text fact))) as [raw|] eqn:Hraw;
    [|apply bind_str_ok in Ht, Hc, Hr; subst; discriminate].
  apply bind_str_ok in Ht, Hc, Hr, Hraw; subst; cbn [bind].
  destruct (next_row_id d <=? max_row_id) eqn:Hroom; [|discriminate].
  apply Z.leb_le in Hroom.
  intros [= <-]; eexists; repeat split; exact Hroom.
Qed.

Lemma insert_facts_ok (facts : list Fact) :
  forall d d1,
    insert_facts clock d facts = Ok d1 ->
    exists new,
      rows d1 = rows d ++ new /\
      (table_exists d = true -> table_exists d1 = true) /\
      map row_data new = map fact_data facts /\
      Forall2 (fun r f => row_type r = fact_type f /\
                          row_content r = content f /\
                          row_source_reference r = source_reference f)
        new facts /\
      StronglySorted Z.lt (map row_id new) /\
      Forall (fun r => next_row_id d <= row_id r) new /\
      forallb storable facts = true /\
      has_room d (len facts) = true.
Proof.
  unfold len; induction facts as [|fact rest IH]; cbn [insert_facts];
    intros d d1.
  - intros [= <-]; exists []; rewrite app_nil_r.
    repeat split; auto; constructor.
  - destruct (insert_fact clock d fact) as [d'|e] eqn:Hi; [|discriminate].
    cbn [bind]; intros Hrest.
    destruct (insert_fact_ok d d' fact Hi)
      as (row & -> & Hid & Ht & Hc & Hr & Hdata & Hs & Hmax).
    destruct (IH _ _ Hrest)
      as (new & Hrows & Hex & Hd & Hf2 & Hsorted & Hlow & Hall & Hroom).
    cbn [rows] in Hrows.
    pose proof (next_row_id_after d row true Hid) as Hnext.
    rewrite Hnext in Hlow.
    apply has_room_iff in Hroom; rewrite Hnext in Hroom.
    exists (row :: new); repeat split.
    + now rewrite Hrows, <- app_assoc.
    + intros _; now apply Hex.
    + cbn [map]; now rewrite Hdata, Hd.
    + constructor; auto.
    + cbn [map]; constructor; [exact Hsorted|].
      apply Forall_map; eapply Forall_impl; [|exact Hlow].
      cbn; intros; lia.
    + constructor; [lia|].
      eapply Forall_impl; [|exact Hlow]; cbn; intros; lia.
    + cbn [forallb]; now rewrite Hs, Hall.
    + apply has_room_iff; cbn [length]; lia.
Qed.

(** What [save_to_db] leaves, whatever the facts. *)
Lemma save_to_db_outcome (d : Database) (facts : list Fact) :
  table_exists (snd (save_to_db clock d facts)) = true /\
  ((forallb storable facts = true /\
    has_room d (len facts) = true /\
    fst (save_to_db clock d facts) = Ok tt /\
    exists new,
      rows (snd (save_to_db clock d facts)) = rows d ++ new /\
      map row_data new = map fact_data facts /\
      Forall2 (fun r f => row_type r = fact_type f /\
                          row_content r = content f /\
                          row_source_reference r = source_reference f)
        new facts /\
      StronglySorted Z.lt (map row_id new) /\
      Forall (fun r => next_row_id d <= row_id r) new) \/
   ((forallb storable facts = false \/ has_room d (len facts) = false) /\
    (exists e, fst (save_to_db clock d facts) = Raise e) /\
    rows (snd (save_to_db clock d facts)) = rows d /\
    sequence (snd (save_to_db clock d facts)) = sequence d)).
Proof.
  unfold save_to_db.
  destruct (insert_facts clock _ facts) as [d1|e] eqn:Hi; cbn [fst snd].
  - destruct (insert_facts_ok facts _ d1 Hi)
      as (new & Hrows & Hex & Hd & Hf2 & Hsorted & Hlow & Hall & Hroom).
    cbn [rows table_exists] in Hrows, Hex.
    split; [now apply Hex|left].
    repeat split; auto. exists new; repeat split; auto.
  - split; [reflexivity|right].
    destruct (forallb storable facts) eqn:Hall; [|repeat split; eauto].
    destruct (has_room d (len facts)) eqn:Hroom; [|repeat split; eauto].
    destruct (insert_facts_storable clock facts Hall
                {| table_exists := true; rows := rows d;
                   sequence := sequence d |} Hroom) as (new & d' & Hok & _).
    congruence.
Qed.

End FactStoreExtras.

Lemma sorted_nodup (l : list Z) : StronglySorted Z.lt l -> NoDup l.
Proof.
  induction 1 as [|x l Hs IH Hall]; constructor; auto.
  intros Hin; rewrite Forall_forall in Hall; specialize (Hall x Hin); lia.
Qed.

Lemma nodup_append {A} (a b : list A) :
  NoDup a -> NoDup b -> (forall x, In x a -> In x b -> False) ->
  NoDup (a ++ b).
Proof.
  induction 1 as [|x a Hx Ha IH]; cbn [app]; intros Hb Hd; [exact Hb|].
  constructor.
  - intros Hin; apply in_app_or in Hin as [Hin|Hin]; [auto|].
    apply (Hd x); [now left|exact Hin].
  - apply IH; [exact Hb|]. intros y Hy; apply Hd; now right.
Qed.

Lemma counts_get_set (k k' : pystr) (v default : Z) (d : list (pystr * Z)) :
  counts_get k' default (counts_set k v d) =
  if pystr_eqb k' k then v else counts_get k' default d.
Proof.
  induction d as [|[k0 v0] d IH]; cbn [counts_set counts_get].
  - reflexivity.
  - destruct (pystr_eqb k k0) eqn:E; cbn [counts_get].
    + apply pystr_eqb_eq in E; subst k0.
      destruct (pystr_eqb k' k); reflexivity.
    + destruct (pystr_eqb k' k0) eqn:E'; [|exact IH].
      apply pystr_eqb_eq in E'; subst k0.
      destruct (pystr_eqb k' k) eqn:E''; [|reflexivity].
      apply pystr_eqb_eq in E''; subst k'.
      rewrite pystr_eqb_refl in E; discriminate.
Qed.

Lemma counts_sum_incr (k : pystr) (d : list (pystr * Z)) :
  fold_right Z.add 0 (map snd (counts_set k (counts_get k 0 d + 1) d)) =
  fold_right Z.add 0 (map snd d) + 1.
Proof.
  induction d as [|[k0 v0] d IH]; cbn [counts_set counts_get];
    [reflexivity|].
  destruct (pystr_eqb k k0); cbn [map snd fold_right]; [lia|].
  rewrite IH; lia.
Qed.

Lemma count_types_get (facts : list Fact) :
  forall (d : list (pystr * Z)) (type : pystr),
    counts_get type 0 (count_types facts d) =
    counts_get type 0 d +
    len (filter (fun f => pystr_eqb (fact_type f) type) facts).
Proof.
  unfold len; induction facts as [|fact rest IH]; intros d type;
    cbn [count_types filter]; [cbn; lia|].
  rewrite IH, counts_get_set.
  destruct (pystr_eqb type (fact_type fact)) eqn:E.
  - apply pystr_eqb_eq in E; subst type.
    rewrite pystr_eqb_refl; cbn [length]; lia.
  - replace (pystr_eqb (fact_type fact) type) with false; [lia|].
    symmetry; apply pystr_eqb_neq; intros Heq.
    rewrite Heq, pystr_eqb_refl in E; discriminate.
Qed.

Lemma count_types_sum (facts : list Fact) :
  forall d : list (pystr * Z),
    fold_right Z.add 0 (map snd (count_types facts d)) =
    fold_right Z.add 0 (map snd d) + len facts.
Proof.
  unfold len; induction facts as [|fact rest IH]; intros d;
    cbn [count_types]; [cbn; lia|].
  rewrite IH, counts_sum_incr; cbn [length]; lia.
Qed.

Section StoreTheorems.
Context {builtins : Builtins}.

(** X5: [save_to_db] is all or nothing. When every fact can be bound
    and the id counter of the table has room for them, it returns and
    the table holds its former rows followed by one row per fact, in
    order; when some fact cannot be bound or the ids run out, it raises,
    and the table holds its former rows only, with its counter
    unchanged. In both cases the table exists afterwards. *)
Theorem save_to_db_all_or_nothing (clock : Z -> pystr) (d : Database)
    (facts : list Fact) :
  let outcome := save_to_db clock d facts in
  table_exists (snd outcome) = true /\
  ((forallb storable facts = true /\ has_room d (len facts) = true /\
    fst outcome = Ok tt /\
    exists new, rows (snd outcome) = rows d ++ new /\
                map row_data new = map fact_data facts) \/
   ((forallb storable facts = false \/ has_room d (len facts) = false) /\
    (exists e, fst outcome = Raise e) /\
    rows (snd outcome) = rows d /\ sequence (snd outcome) = sequence d)).
Proof.
  cbv zeta.
  destruct (save_to_db_outcome clock d facts) as [Hex [Hok|Hfail]].
  - split; [exact Hex|left].
    destruct Hok as (Hall & Hroom & Hfst & new & Hrows & Hdata & _).
    repeat split; auto. exists new; auto.
  - split; [exact Hex|right; exact Hfail].
Qed.

(** X6: the ids that [save_to_db] assigns increase from row to row and
    exceed the counter of the table and every id already in it: no id is
    used twice, and ids that were distinct stay distinct. *)
Theorem save_to_db_fresh_ids (clock : Z -> pystr) (d : Database)
    (facts : list Fact) :
  exists new,
    rows (snd (save_to_db clock d facts)) = rows d ++ new /\
    StronglySorted Z.lt (map row_id new) /\
    Forall (fun r => sequence d < row_id r /\
                     Forall (fun old => row_id old < row_id r) (rows d))
      new /\
    (NoDup (map row_id (rows d)) ->
     NoDup (map row_id (rows (snd (save_to_db clock d facts))))).
Proof.
  destruct (save_to_db_outcome clock d facts) as [_ [Hok|Hfail]].
  - destruct Hok as (_ & _ & _ & new & Hrows & _ & _ & Hsorted & Hlow).
    destruct (next_row_id_fresh d) as [Hseq Hold].
    assert (Hnew : Forall (fun r => sequence d < row_id r /\
                     Forall (fun old => row_id old < row_id r) (rows d)) new).
    { eapply Forall_impl; [|exact Hlow]; cbn; intros r Hr; split; [lia|].
      eapply Forall_impl; [|exact Hold]; cbn; intros; lia. }
    exists new; repeat split; auto.
    intros Hnodup; rewrite Hrows, map_app.
    apply nodup_append; [exact Hnodup|now apply sorted_nodup|].
    intros x Hx Hy.
    apply in_map_iff in Hx as (old & <- & Hold').
    apply in_map_iff in Hy as (r & Heq & Hr).
    rewrite Forall_forall in Hnew; destruct (Hnew r Hr) as [_ Hall].
    rewrite Forall_forall in Hall; specialize (Hall old Hold'); lia.
  - destruct Hfail as (_ & _ & Hrows & _).
    exists []; rewrite app_nil_r; repeat split; auto; try constructor.
    now rewrite Hrows.
Qed.

(** X7: after [save_to_db] of facts that can be bound, on a table whose
    id counter has room for them, [load_facts_from_db] returns what the
    table held before followed by the saved facts, in order, each with
    the type, content and source reference it was saved with; this holds
    on a database whose table did not exist, where loading raised before
    the save. *)
Theorem save_then_load (clock : Z -> pystr) (d : Database)
    (facts : list Fact) :
  forallb storable facts = true ->
  has_room d (len facts) = true ->
  (table_exists d = false -> load_facts_from_db d = Raise OperationalError) /\
  exists old new,
    load_facts_from_db (snd (save_to_db clock d facts)) = Ok (old ++ new) /\
    (table_exists d = true -> load_facts_from_db d = Ok old) /\
    Forall2 (fun l f => loaded_type l = fact_type f /\
                        loaded_content l = content f /\
                        loaded_source_reference l = source_reference f)
      new facts.
Proof.
  intros Hall Hroom; split.
  - intros Hno; unfold load_facts_from_db; now rewrite Hno.
  - destruct (save_to_db_outcome clock d facts) as [Hex [Hok|Hfail]];
      [|destruct Hfail as [[H|H] _]; congruence].
    destruct Hok as (_ & _ & _ & new & Hrows & _ & Hf2 & _).
    unfold load_facts_from_db; rewrite Hex, Hrows, map_app.
    match goal with
    | |- context [Ok (map ?f (rows d) ++ map ?f new)] =>
        exists (map f (rows d)), (map f new)
    end.
    split; [reflexivity|split].
    + intros Hyes; now rewrite Hyes.
    + clear Hrows Hall Hex Hroom; induction Hf2; cbn [map]; constructor;
        auto.
Qed.

(** X8: [process] is the composition of loading, filtering, extraction
    and saving. When it returns, the table holds its former rows followed
    by one row per extracted fact, the facts are as many as the messages
    of the user with a trimmed text of five characters or more, and the
    type counts give for each type the number of facts of that type, their
    sum being the number of facts. When it raises, at any step, the table
    holds its former rows only. *)
Theorem process_outcome (clock : Z -> pystr) (user_name : pystr)
    (data : json) (d : Database) :
  match process clock user_name data d with
  | (Ok p, d') =>
      load_json data = Ok (processed_messages p) /\
      filter_user_messages user_name (processed_messages p) =
        Ok (user_messages p) /\
      extract_facts (user_messages p) = Ok (processed_facts p) /\
      (exists new, rows d' = rows d ++ new /\
                   map row_data new = map fact_data (processed_facts p)) /\
      length (processed_facts p) =
        length (filter kept_message (user_messages p)) /\
      fold_right Z.add 0 (map snd (type_counts p)) =
        len (processed_facts p) /\
      forall type,
        counts_get type 0 (type_counts p) =
        len (filter (fun f => pystr_eqb (fact_type f) type)
               (processed_facts p))
  | (Raise e, d') => rows d' = rows d /\ sequence d' = sequence d
  end.
Proof.
  unfold process, mbind, lift, ret.
  destruct (load_json data) as [messages|e] eqn:Hload; [|auto].
  destruct (filter_user_messages user_name messages) as [users|e] eqn:Hf;
    [|auto].
  destruct (extract_facts users) as [facts|e] eqn:He; [|auto].
  destruct (save_to_db_outcome clock d facts) as [_ [Hok|Hfail]].
  - destruct Hok as (_ & _ & Hfst & new & Hrows & Hdata & _).
    destruct (save_to_db clock d facts) as [r d'] eqn:Hsave.
    cbn [fst snd] in Hfst, Hrows; subst r.
    assert (Hlen : exists n, py_len messages = Ok n).
    { unfold load_json in Hload.
      destruct (match data with
                | JList _ => Ok data
                | JDict f => match assoc (lit "messages") f with
                             | Some v => Ok v
                             | None => Raise (ValueError unknown_structure)
                             end
                | _ => Raise (ValueError unknown_structure)
                end) as [m|]; [|discriminate].
      cbn [bind] in Hload.
      destruct (py_len m) as [n|] eqn:Hn; [|discriminate].
      injection Hload as <-; eauto. }
    destruct Hlen as [n ->].
    cbn [processed_messages user_messages processed_facts type_counts].
    repeat split; auto.
    + exists new; auto.
    + destruct (extract_from_result users 0 facts He) as (_ & Hc & _).
      exact Hc.
    + now rewrite count_types_sum.
    + intros type; now rewrite count_types_get.
  - destruct Hfail as (_ & (e & Hfst) & Hrows & Hseq).
    destruct (save_to_db clock d facts) as [r d'] eqn:Hsave.
    cbn [fst snd] in Hfst, Hrows, Hseq; subst r; auto.
Qed.

End StoreTheorems.

Lemma save_then_load_witness :
  exists old new,
    load_facts_from_db
      (snd (@save_to_db ascii_builtins (fun _ => [])
              empty_database scenario_facts)) = Ok (old ++ new) /\
    (table_exists empty_database = true ->
     load_facts_from_db empty_database = Ok old) /\
    Forall2 (fun l f => loaded_type l = fact_type f /\
                        loaded_content l = content f /\
                        loaded_source_reference l = source_reference f)
      new scenario_facts.
Proof.
  exact (proj2 (@save_then_load ascii_builtins (fun _ => [])
                  empty_database scenario_facts eq_refl eq_refl)).
Defined.

(** The pipeline on the extraction scenario with a message of someone
    else added: two rows saved. *)
Example process_scenario :
  let data := JDict [(lit "messages",
                      JList (JDict [(lit "from", JStr (lit "Someone"));
                                    (lit "text", JStr (lit "hello there"))]
                             :: scenario_messages))] in
  let outcome := @process ascii_builtins (fun _ => []) (lit "arunav")
                   data empty_database in
  match fst outcome with
  | Ok p => processed_facts p = scenario_facts /\
            type_counts p = [(lit "investment", 1); (lit "humor", 1)]
  | Raise _ => False
  end /\
  length (rows (snd outcome)) = 2%nat.
Proof. vm_compute; repeat split; reflexivity. Qed.

(** ** The vector index, continued *)

Section IndexExtras.
Context {builtins : Builtins} {services : Services}.

Lemma index_batch_db (facts : list LoadedFact) (batch_size i : Z)
    (st : Store) :
  db (snd (index_batch facts batch_size i st)) = db st.
Proof.
  unfold index_batch, mbind, lift, collection_add.
  destruct (embed_function _); [|reflexivity].
  destruct (negb _); [reflexivity|].
  destruct (_ && _); reflexivity.
Qed.

Lemma for_each_db (facts : list LoadedFact) (batch_size : Z)
    (starts : list Z) :
  forall st,
    db (snd (for_each starts (index_batch facts batch_size) st)) = db st.
Proof.
  induction starts as [|i rest IH]; intros st; cbn [for_each];
    [reflexivity|].
  unfold mbind.
  pose proof (index_batch_db facts batch_size i st) as Hb.
  destruct (index_batch facts batch_size i st) as [[[]|e] st'];
    cbn [snd] in *; [|exact Hb].
  now rewrite IH.
Qed.

Lemma index_all_db (facts : list LoadedFact) (batch_size : Z) (st : Store) :
  db (snd ((starts <~ lift (py_range 0 (len facts) batch_size) ;;
            for_each starts (index_batch facts batch_size)) st)) = db st.
Proof.
  unfold mbind, lift.
  destruct (py_range 0 (len facts) batch_size); [|reflexivity].
  apply for_each_db.
Qed.

(** The start of [build_vector_index] once the prompt has been passed or
    was not needed: the index is empty and the batches are added. *)
Lemma build_when_confirmed (input : result pystr) (batch_size : Z)
    (st : Store) (facts : list LoadedFact) :
  load_facts_from_db (db st) = Ok facts -> facts <> [] ->
  collection st = [] \/ confirmed input = true ->
  build_vector_index input batch_size st =
  (starts <~ lift (py_range 0 (len facts) batch_size) ;;
   for_each starts (index_batch facts batch_size))
    {| db := db st; collection := [] |}.
Proof.
  intros Hload Hfacts Hgo.
  destruct (collection st) as [|x c] eqn:Hc.
  - replace st with {| db := db st; collection := [] |} at 1
      by (destruct st; cbn in *; congruence).
    now apply build_on_empty_index.
  - destruct Hgo as [Hgo|Hgo]; [discriminate|].
    rewrite (build_on_indexed_store input batch_size st facts Hload Hfacts)
      by (rewrite Hc; discriminate).
    destruct input as [response|e]; [|discriminate].
    cbn [confirmed] in Hgo; now rewrite Hgo.
Qed.

(** X9: [build_vector_index] never writes to the facts table, whatever
    the input, the batch size and the collaborators do; and with no fact
    in the table it returns at once, leaving the index as it was, while
    with no table it raises the error of the look-up, leaving the index
    as it was. *)
Theorem build_leaves_facts_table (input : result pystr) (batch_size : Z)
    (st : Store) :
  db (snd (build_vector_index input batch_size st)) = db st /\
  (table_exists (db st) = true -> rows (db st) = [] ->
   build_vector_index input batch_size st = (Ok tt, st)) /\
  (table_exists (db st) = false ->
   build_vector_index input batch_size st = (Raise OperationalError, st)).
Proof.
  split; [|split].
  - unfold build_vector_index, mbind at 1, lift at 1.
    destruct (load_facts_from_db (db st)) as [facts|e]; [|reflexivity].
    destruct (len facts =? 0); [reflexivity|].
    destruct (0 <? len (collection st)); [|apply index_all_db].
    unfold mbind at 1, lift at 1.
    destruct input as [response|e]; [|reflexivity].
    destruct (negb _); [reflexivity|].
    unfold mbind at 1, recreate_collection.
    apply (index_all_db facts batch_size {| db := db st; collection := [] |}).
  - intros Hex Hrows.
    unfold build_vector_index, mbind at 1, lift at 1, load_facts_from_db.
    now rewrite Hex, Hrows.
  - intros Hno.
    unfold build_vector_index, mbind at 1, lift at 1, load_facts_from_db.
    now rewrite Hno.
Qed.

(** X10: when the index is empty, or holds entries and the prompt is
    answered with yes, a build with a positive batch size and a working
    embedding backend over a table without a NULL timestamp leaves exactly
    one entry per row of the facts table, in the order of the rows: the
    index counts as many entries as the table rows, and their ids are
    distinct when the row ids are. On an empty index the prompt is not
    consulted. *)
Theorem build_brings_index_in_step (input : result pystr) (batch_size : Z)
    (st : Store) (facts : list LoadedFact) (embed : pystr -> list float) :
  load_facts_from_db (db st) = Ok facts -> facts <> [] ->
  collection st = [] \/ confirmed input = true ->
  0 < batch_size ->
  (forall docs, embed_function docs = Ok (map embed docs)) ->
  forallb has_timestamp facts = true ->
  let built := snd (build_vector_index input batch_size st) in
  build_vector_index input batch_size st =
    (Ok tt, {| db := db st; collection := map (entry_of embed) facts |}) /\
  len (collection built) = len (rows (db st)) /\
  (NoDup (map row_id (rows (db st))) ->
   NoDup (map entry_id (collection built))).
Proof.
  intros Hload Hfacts Hgo Hb Hembed Hts built; subst built.
  rewrite (build_when_confirmed input batch_size st facts Hload Hfacts Hgo).
  rewrite (index_all_ok embed Hembed) by assumption.
  cbn [snd collection db app].
  unfold load_facts_from_db in Hload.
  destruct (table_exists (db st)); [|discriminate].
  injection Hload as <-.
  repeat split.
  - unfold len; now rewrite !length_map.
  - intros Hnodup; rewrite !map_map; cbn [entry_of entry_id loaded_id].
    clear Hfacts Hts; induction (rows (db st)) as [|r rs IH]; cbn [map];
      [constructor|].
    inversion Hnodup as [|? ? Hnotin Hrest]; subst.
    constructor; [|now apply IH].
    intros Hin; apply in_map_iff in Hin as (r' & Heq & Hr').
    apply str_of_int_inj in Heq.
    apply Hnotin; rewrite <- Heq; now apply in_map.
Qed.

(** X11: a build that gets past the prompt with a batch size that is not
    positive leaves the index empty: with batch size 0 it raises the
    [ValueError] of [range], after the old entries are gone, and with a
    negative batch size it returns without adding anything. *)
Theorem build_with_bad_batch_size (input : result pystr) (batch_size : Z)
    (st : Store) (facts : list LoadedFact) :
  load_facts_from_db (db st) = Ok facts -> facts <> [] ->
  collection st = [] \/ confirmed input = true ->
  batch_size <= 0 ->
  build_vector_index input batch_size st =
  (if batch_size =? 0
   then Raise (ValueError (lit "range() arg 3 must not be zero"))
   else Ok tt,
   {| db := db st; collection := [] |}).
Proof.
  intros Hload Hfacts Hgo Hb.
  rewrite (build_when_confirmed input batch_size st facts Hload Hfacts Hgo).
  unfold mbind, lift, py_range.
  destruct (batch_size =? 0) eqn:Hz; [reflexivity|].
  apply Z.eqb_neq in Hz.
  destruct (0 <? batch_size) eqn:Hp; [apply Z.ltb_lt in Hp; lia|].
  assert (Hq : (0 - len facts - batch_size - 1) / - batch_size < 1).
  { assert (0 < len facts)
      by (unfold len; destruct facts; [congruence|cbn; lia]).
    apply Z.div_lt_upper_bound; lia. }
  replace (Z.to_nat ((0 - len facts - batch_size - 1) / - batch_size))
    with 0%nat by lia.
  reflexivity.
Qed.

(** X12: when the embedding backend fails, a build that gets past the
    prompt with a positive batch size raises that error and leaves the
    index empty: the entries it held before the confirmation are lost. *)
Theorem build_with_failing_embedding (input : result pystr)
    (batch_size : Z) (st : Store) (facts : list LoadedFact) (e : exn) :
  load_facts_from_db (db st) = Ok facts -> facts <> [] ->
  collection st = [] \/ confirmed input = true ->
  0 < batch_size ->
  (forall docs, embed_function docs = Raise e) ->
  build_vector_index input batch_size st =
  (Raise e, {| db := db st; collection := [] |}).
Proof.
  intros Hload Hfacts Hgo Hb Hembed.
  rewrite (build_when_confirmed input batch_size st facts Hload Hfacts Hgo).
  unfold mbind at 1, lift at 1, py_range.
  destruct (batch_size =? 0) eqn:Hz; [apply Z.eqb_eq in Hz; lia|].
  destruct (0 <? batch_size) eqn:Hp; [|apply Z.ltb_ge in Hp; lia].
  assert (Hn : 0 < (len facts - 0 + batch_size - 1) / batch_size).
  { assert (0 < len facts)
      by (unfold len; destruct facts; [congruence|cbn; lia]).
    apply Z.div_str_pos; lia. }
  destruct (Z.to_nat ((len facts - 0 + batch_size - 1) / batch_size))
    as [|n] eqn:Hnat; [lia|].
  cbn [seq map for_each]; unfold mbind at 1, index_batch at 1.
  unfold mbind at 1, lift at 1; now rewrite Hembed.
Qed.

End IndexExtras.

Lemma build_brings_index_in_step_witness :
  @build_vector_index ascii_builtins sample_services (Ok (lit "yes")) 100
    sample_store =
  (Ok tt,
   {| db := db sample_store;
      collection :=
        map (entry_of (fun _ => [0.5%float]))
          [{| loaded_id := 7; loaded_type := lit "humor";
              loaded_content := lit "haha that's funny";
              loaded_source_reference := lit "msg_1";
              loaded_timestamp := Some [] |}] |}).
Proof.
  refine (proj1 (@build_brings_index_in_step ascii_builtins sample_services
                   (Ok (lit "yes")) 100 sample_store _
                   (fun _ => [0.5%float]) eq_refl _ (or_intror eq_refl)
                   eq_refl (fun docs => eq_refl) eq_refl));
    discriminate.
Defined.

Lemma build_with_bad_batch_size_witness :
  @build_vector_index ascii_builtins sample_services (Ok (lit "yes")) 0
    sample_store =
  (Raise (ValueError (lit "range() arg 3 must not be zero")),
   {| db := db sample_store; collection := [] |}).
Proof.
  refine (@build_with_bad_batch_size ascii_builtins sample_services
            (Ok (lit "yes")) 0 sample_store _ eq_refl _ (or_intror eq_refl)
            _); [discriminate|lia].
Defined.

Lemma build_with_failing_embedding_witness :
  @build_vector_index ascii_builtins failing_embedding_services
    (Ok (lit "yes")) 100 sample_store =
  (Raise (BackendError (lit "embedding backend unreachable")),
   {| db := db sample_store; collection := [] |}).
Proof.
  refine (@build_with_failing_embedding ascii_builtins
            failing_embedding_services (Ok (lit "yes")) 100 sample_store _
            _ eq_refl _ (or_intror eq_refl) eq_refl (fun docs => eq_refl));
    discriminate.
Defined.

(** ** Search, continued *)

Section SearchExtras.
Context {services : Services}.
Variable config : Config.

Lemma format_hit_content (results : QueryResult) (docs : list pystr)
    (i : nat) (hit : Hit) :
  format_hit results docs i = Ok hit ->
  nth_error docs i = Some (hit_content hit) /\
  (distances results = None -> hit_distance hit = None).
Proof.
  unfold format_hit, item.
  destruct (nth_error docs i) as [doc|]; [|discriminate]; cbn [bind].
  destruct (first_of (metadatas results)) as [metas|]; [|discriminate].
  cbn [bind].
  destruct (nth_error metas i) as [meta|]; [|discriminate]; cbn [bind].
  destruct (distances results) as [held|].
  - destruct (first_of held) as [dists|]; [|discriminate]; cbn [bind].
    destruct (nth_error dists i); [|discriminate]; cbn [bind].
    intros [= <-]; split; [reflexivity|discriminate].
  - cbn [bind]; intros [= <-]; auto.
Qed.

Lemma format_hits_contents (results : QueryResult) (docs : list pystr) :
  forall m a hits,
    (a + m = length docs)%nat ->
    format_hits results docs (seq a m) = Ok hits ->
    map hit_content hits = skipn a docs /\
    (distances results = None ->
     Forall (fun h => hit_distance h = None) hits).
Proof.
  induction m as [|m IH]; intros a hits Ha; cbn [seq format_hits].
  - intros [= <-]; rewrite skipn_all2 by lia; auto.
  - destruct (format_hit results docs a) as [hit|] eqn:Hhit; [|discriminate].
    cbn [bind].
    destruct (format_hits results docs (seq (S a) m)) as [hs|] eqn:Hhs;
      [|discriminate].
    cbn [bind]; intros [= <-].
    destruct (format_hit_content results docs a hit Hhit) as [Hdoc Hdist].
    destruct (IH (S a) hs ltac:(lia) Hhs) as [Hmap Hnone].
    split.
    + cbn [map]; now rewrite Hmap, (skipn_cons_nth docs a _ Hdoc).
    + intros Hd; constructor; auto.
Qed.

(** X13: whenever [search] returns, the embedding backend has embedded
    the query and Chroma has answered, and the hits are, in order, the
    documents of the answer (none when the answer holds no document
    list); when the answer has no distances, every hit has the distance
    [None]. *)
Theorem search_returns_documents (st : Store) (query : pystr)
    (top_k : option Z) (hits : list Hit) :
  search config st query top_k = Ok hits ->
  exists v vs results,
    embed_function [query] = Ok (v :: vs) /\
    collection_query (collection st) v
      (match top_k with None => TOP_K_RESULTS config | Some k => k end) =
      Ok results /\
    map hit_content hits =
      match documents results with
      | Some (docs :: _) => docs
      | _ => []
      end /\
    (distances results = None ->
     Forall (fun h => hit_distance h = None) hits).
Proof.
  unfold search.
  destruct (embed_function [query]) as [[|v vs]|] eqn:Hembed;
    try discriminate.
  cbn [bind item nth_error].
  destruct (collection_query (collection st) v _) as [results|] eqn:Hq;
    [|discriminate].
  cbn [bind]; intros Hhits.
  exists v, vs, results; repeat split; auto.
  - destruct (documents results) as [[|docs rest]|];
      try (injection Hhits as <-; reflexivity).
    destruct (0 <? len docs) eqn:Hlen.
    + now destruct (format_hits_contents results docs (length docs) 0 hits
                      eq_refl Hhits).
    + injection Hhits as <-.
      apply Z.ltb_ge in Hlen; unfold len in Hlen.
      destruct docs; [reflexivity|cbn in Hlen; lia].
  - intros Hd.
    destruct (documents results) as [[|docs rest]|];
      try (injection Hhits as <-; constructor).
    destruct (0 <? len docs).
    + now destruct (format_hits_contents results docs (length docs) 0 hits
                      eq_refl Hhits) as [_ H]; auto.
    + injection Hhits as <-; constructor.
Qed.

End SearchExtras.

Lemma search_returns_documents_witness :
  exists v vs results,
    @embed_function sample_services [lit "old"] = Ok (v :: vs) /\
    @collection_query sample_services (collection sample_store) v 1 =
      Ok results /\
    map hit_content
      (map hit_of [(sample_entry 1 (lit "an old entry"), 0.5%float)]) =
      match documents results with
      | Some (docs :: _) => docs
      | _ => []
      end /\
    (distances results = None ->
     Forall (fun h => hit_distance h = None)
       (map hit_of [(sample_entry 1 (lit "an old entry"), 0.5%float)])).
Proof.
  exact (@search_returns_documents sample_services sample_config
           sample_store (lit "old") (Some 1) _ eq_refl).
Defined.

(** ** Context and query, continued *)

Lemma startswith_app (w rest : pystr) : startswith w (w ++ rest) = true.
Proof.
  induction w as [|c w IH]; cbn; [reflexivity|].
  now rewrite N.eqb_refl, IH.
Qed.

Lemma startswith_split (w t : pystr) :
  startswith w t = true -> exists rest, t = w ++ rest.
Proof.
  revert t; induction w as [|c w IH]; intros t; cbn.
  - exists t; reflexivity.
  - destruct t as [|d t]; [discriminate|].
    intros H; apply andb_true_iff in H as [Hc Hw].
    apply N.eqb_eq in Hc; subst d.
    destruct (IH t Hw) as [rest ->]; exists rest; reflexivity.
Qed.

(** [w in t] holds exactly when [t] is some text, then [w], then some
    text. *)
Lemma contains_iff (w t : pystr) :
  contains w t = true <-> exists before after, t = before ++ w ++ after.
Proof.
  split.
  - induction t as [|c t IH]; cbn; intros H;
      apply orb_true_iff in H as [H|H]; try discriminate.
    + destruct (startswith_split w [] H) as [rest Hr].
      exists [], rest; exact Hr.
    + destruct (startswith_split w (c :: t) H) as [rest Hr].
      exists [], rest; exact Hr.
    + destruct (IH H) as (before & after & ->).
      exists (c :: before), after; reflexivity.
  - intros (before & after & ->).
    induction before as [|c before IH]; cbn [app].
    + destruct (w ++ after) eqn:E; cbn; rewrite <- E, startswith_app;
        reflexivity.
    + cbn; rewrite IH; apply orb_true_r.
Qed.

Lemma contains_trans (w t u : pystr) :
  contains w t = true -> contains t u = true -> contains w u = true.
Proof.
  intros Hw Ht.
  apply contains_iff in Hw as (a & b & ->).
  apply contains_iff in Ht as (a' & b' & ->).
  apply contains_iff; exists (a' ++ a), (b ++ b').
  now rewrite <- !app_assoc.
Qed.

Lemma join_holds_part (sep part : pystr) (parts : list pystr) :
  In part parts ->
  exists before after, join sep parts = before ++ part ++ after.
Proof.
  induction parts as [|p [|q rest] IH]; [intros []| |].
  - intros [->|[]]; exists [], []; cbn; now rewrite app_nil_r.
  - change (join sep (p :: q :: rest))
      with (p ++ sep ++ join sep (q :: rest)).
    intros [->|Hin].
    + exists [], (sep ++ join sep (q :: rest)); reflexivity.
    + destruct (IH Hin) as (before & after & Hj).
      exists (p ++ sep ++ before), after.
      rewrite Hj, <- !app_assoc; reflexivity.
Qed.

Lemma py_slice_prefix {A} (l : list A) (k : Z) :
  0 <= k -> py_slice l None (Some k) = firstn (Z.to_nat k) l.
Proof.
  intros Hk; unfold py_slice, clamp_index, len.
  destruct (k <? 0) eqn:E; [apply Z.ltb_lt in E; lia|].
  rewrite Z.sub_0_r; cbn [Z.to_nat skipn].
  destruct (Z_le_gt_dec k (Z.of_nat (length l))).
  - now rewrite Z.min_l by lia.
  - rewrite Z.min_r, Nat2Z.id by lia.
    rewrite !firstn_all2; [reflexivity|lia|lia].
Qed.

(** X14: the context of a non-empty list of retrieved facts starts with
    "[" and so differs from the placeholder "No relevant memories found.",
    and it holds the line "[type] content" of every retrieved fact. *)
Theorem context_of_facts (facts : list Hit) :
  facts <> [] ->
  startswith (lit "[") (_build_context facts) = true /\
  _build_context facts <> no_memories /\
  Forall (fun fact =>
            contains (lit "[" ++ hit_type fact ++ lit "] " ++ hit_content fact)
              (_build_context facts) = true) facts.
Proof.
  intros Hfacts.
  assert (Hctx : _build_context facts = join [10%N] (map context_line facts))
    by (destruct facts; [congruence|reflexivity]).
  assert (Hstart : startswith (lit "[") (_build_context facts) = true).
  { rewrite Hctx; destruct facts as [|f [|g rest]]; [congruence| |];
      reflexivity. }
  split; [exact Hstart|split].
  - intros Heq; rewrite Heq in Hstart; discriminate.
  - apply Forall_forall; intros fact Hin; rewrite Hctx.
    apply contains_iff, join_holds_part.
    now apply (in_map context_line).
Qed.

Section QueryExtras.
Context {services : Services}.
Variable config : Config.

(** X15: [query] commits one turn or nothing. When it returns, the
    memory store is as before, the history has one more turn, the log
    has one more line, the dump of that turn, and the turn records the
    query, the response, the number of retrieved facts and a preview that
    is the first 500 characters of the context at most. When it raises,
    at retrieval or at generation, history, log and store are as
    before. *)
Theorem query_commits_one_turn (now user_query : pystr) (top_k : option Z)
    (st : State) :
  match query config now user_query top_k st with
  | (Ok answer, st') =>
      search config (memory st) user_query top_k =
        Ok (retrieved_facts answer) /\
      context answer = _build_context (retrieved_facts answer) /\
      facts_retrieved answer = len (retrieved_facts answer) /\
      memory st' = memory st /\
      exists turn preview,
        conversation_history st' = conversation_history st ++ [turn] /\
        log_text st' = log_text st ++ json_dumps turn ++ [10%N] /\
        field turn (lit "query") = JStr user_query /\
        field turn (lit "response") = JStr (response answer) /\
        field turn (lit "retrieved_facts_count") =
          JInt (facts_retrieved answer) /\
        field turn (lit "context_preview") = JStr preview /\
        preview = firstn 500 (context answer) /\
        len preview <= 500
  | (Raise e, st') => st' = st
  end.
Proof.
  rewrite query_steps.
  destruct (search config (memory st) user_query top_k) as [facts|e];
    [|reflexivity].
  destruct (generate_response config user_query (_build_context facts)
              (conversation_history st)) as [text|e]; [|reflexivity].
  cbv zeta; cbn [retrieved_facts context facts_retrieved memory
                 conversation_history response].
  repeat split.
  eexists _, (firstn 500 (_build_context facts)); repeat split.
  - rewrite (py_slice_prefix (_build_context facts) 500) by lia.
    reflexivity.
  - unfold len; rewrite length_firstn; lia.
Qed.

Lemma turn_messages_incomplete (turns : list json) :
  forallb complete_turn turns = false ->
  exists e, turn_messages turns = Raise e.
Proof.
  intros H.
  destruct (turn_messages turns) as [past|e] eqn:Hp; [|eauto].
  destruct (turn_messages_render turns past Hp) as (_ & _ & _ & Hall).
  congruence.
Qed.

Lemma generate_response_incomplete (query context : pystr)
    (history : list json) :
  forallb complete_turn (history_window history) = false ->
  exists e, generate_response config query context history = Raise e.
Proof.
  intros H; destruct (turn_messages_incomplete _ H) as [e He].
  unfold generate_response, _generate_with_anthropic, anthropic_messages,
    _generate_with_openai, openai_messages.
  rewrite He; cbn [bind].
  destruct (pystr_eqb _ _); [eauto|].
  destruct (pystr_eqb _ _); eauto.
Qed.

(** X16: a history in which every turn holds a query and a response
    stays so through [query], whatever its outcome, and the prompt of the
    next query can then be assembled on both generation paths. *)
Theorem query_keeps_history_complete (now user_query : pystr)
    (top_k : option Z) (st : State) :
  forallb complete_turn (conversation_history st) = true ->
  let history' :=
    conversation_history (snd (query config now user_query top_k st)) in
  forallb complete_turn history' = true /\
  forall next context,
    (exists messages,
       anthropic_messages config next context history' = Ok messages) /\
    (exists messages,
       openai_messages config next context history' = Ok messages).
Proof.
  intros Hall; cbv zeta.
  assert (Hnew : forallb complete_turn
            (conversation_history
               (snd (query config now user_query top_k st))) = true).
  { rewrite query_steps.
    destruct (search config (memory st) user_query top_k); [|exact Hall].
    destruct (generate_response _ _ _ _); [|exact Hall].
    cbv zeta; cbn [snd conversation_history].
    rewrite forallb_app, Hall; reflexivity. }
  split; [exact Hnew|].
  intros next context.
  assert (Hw : forallb complete_turn
            (history_window
               (conversation_history
                  (snd (query config now user_query top_k st)))) = true).
  { rewrite history_window_last; unfold last_items.
    now apply forallb_skipn. }
  unfold anthropic_messages, openai_messages.
  rewrite (turn_messages_complete _ Hw); cbn [bind]; eauto.
Qed.

(** X17: while one of the last five turns of the history lacks a query
    or a response (a line of the log that parses to a number, say),
    every [query] raises, whatever the retrieval gives, and leaves
    history, log and store as they were. *)
Theorem query_blocked_by_incomplete_turn (now user_query : pystr)
    (top_k : option Z) (st : State) :
  forallb complete_turn (history_window (conversation_history st)) = false ->
  exists e, query config now user_query top_k st = (Raise e, st).
Proof.
  intros H; rewrite query_steps.
  destruct (search config (memory st) user_query top_k) as [facts|e];
    [|eauto].
  destruct (generate_response_incomplete user_query (_build_context facts)
              (conversation_history st) H) as [e ->]; eauto.
Qed.

End QueryExtras.

Lemma context_of_facts_witness :
  startswith (lit "[")
    (_build_context
       [hit_of (sample_entry 1 (lit "an old entry"), 0.5%float)]) = true.
Proof.
  refine (proj1 (context_of_facts
                   [hit_of (sample_entry 1 (lit "an old entry"), 0.5%float)]
                   _)); discriminate.
Defined.

Lemma query_keeps_history_complete_witness :
  forallb complete_turn
    (conversation_history
       (snd (@query sample_services sample_config (lit "2024-01-01T00:00:00")
               (lit "what do I like?") None (sample_state None)))) = true.
Proof.
  exact (proj1 (@query_keeps_history_complete sample_services sample_config
                  (lit "2024-01-01T00:00:00") (lit "what do I like?") None
                  (sample_state None) eq_refl)).
Defined.

Lemma query_blocked_by_incomplete_turn_witness :
  let st := {| memory := {| db := empty_database; collection := [] |};
               conversation_history := [JInt 42];
               log_file := Some (lit "42") |} in
  exists e,
    @query sample_services sample_config (lit "2024-01-01T00:00:00")
      (lit "what do I like?") None st = (Raise e, st).
Proof.
  intros st.
  exact (@query_blocked_by_incomplete_turn sample_services sample_config
           (lit "2024-01-01T00:00:00") (lit "what do I like?") None st
           eq_refl).
Defined.

(** ** The conversation log, continued *)

Lemma readlines_from_concat (text : pystr) :
  forall current, concat (readlines_from current text) = rev current ++ text.
Proof.
  induction text as [|c text IH]; intros current; cbn [readlines_from].
  - destruct current; cbn; now rewrite ?app_nil_r.
  - destruct (c =? 10)%N; cbn [concat]; rewrite IH; cbn [rev app];
      now rewrite <- app_assoc.
Qed.

Lemma removelast_snoc {A} (l : list A) (x : A) : removelast (l ++ [x]) = l.
Proof. apply removelast_last. Qed.

Lemma newline_free_rev (s : pystr) :
  newline_free (rev s) = newline_free s.
Proof. apply forallb_rev. Qed.

Lemma readlines_from_lines (text : pystr) :
  forall current,
    newline_free current = true ->
    Forall (fun line => line <> [] /\ newline_free (removelast line) = true)
      (readlines_from current text).
Proof.
  induction text as [|c text IH]; intros current Hcur; cbn [readlines_from].
  - destruct current as [|d current]; constructor; [|constructor].
    split.
    + intros H; apply (f_equal (@length N)) in H.
      rewrite length_rev in H; discriminate.
    + unfold newline_free in *.
      rewrite <- (rev_involutive (removelast (rev (d :: current)))).
      rewrite forallb_rev.
      cbn [rev]; rewrite removelast_snoc, forallb_rev.
      cbn [forallb] in Hcur; apply andb_true_iff in Hcur as [_ Hcur].
      rewrite <- forallb_rev in Hcur.
      rewrite forallb_rev; rewrite forallb_rev in Hcur; exact Hcur.
  - destruct (c =? 10)%N eqn:Hc.
    + constructor; [|now apply IH].
      cbn [rev]; rewrite removelast_snoc; split.
      * intros H; apply (f_equal (@length N)) in H.
        rewrite length_app in H; cbn in H; lia.
      * now rewrite newline_free_rev.
    + apply IH; cbn [newline_free forallb]; fold (newline_free current).
      now rewrite Hc, Hcur.
Qed.

(** X18: [readlines] loses nothing: the lines put end to end are the
    text, no line is empty, and a line holds no line end before its last
    character. *)
Theorem readlines_is_lossless (text : pystr) :
  concat (readlines text) = text /\
  Forall (fun line => line <> [] /\ newline_free (removelast line) = true)
    (readlines text).
Proof.
  split.
  - exact (readlines_from_concat text []).
  - now apply readlines_from_lines.
Qed.

Lemma last_tail {A} (x y : A) (l : list A) (d : A) :
  last (x :: y :: l) d = last (y :: l) d.
Proof. reflexivity. Qed.

Lemma readlines_from_app (text more : pystr) :
  forall current,
    match text with
    | [] => current = []
    | _ => last text 0%N = 10%N
    end ->
    readlines_from current (text ++ more) =
    readlines_from current text ++ readlines_from [] more.
Proof.
  induction text as [|c text IH]; intros current Hend.
  - subst current; reflexivity.
  - cbn [app readlines_from].
    destruct (c =? 10)%N eqn:Hc.
    + cbn [app]; f_equal; apply IH.
      destruct text; [reflexivity|exact Hend].
    + apply IH.
      destruct text; [|exact Hend].
      cbn in Hend; subst c; discriminate.
Qed.

Lemma readlines_from_line (line : pystr) :
  newline_free line = true ->
  forall current,
    readlines_from current (line ++ [10%N]) = [rev current ++ line ++ [10%N]].
Proof.
  induction line as [|c line IH]; cbn [newline_free forallb];
    intros Hfree current.
  - reflexivity.
  - apply andb_true_iff in Hfree as [Hc Hfree].
    apply negb_true_iff in Hc.
    cbn [app readlines_from]; rewrite Hc, (IH Hfree).
    cbn [rev]; now rewrite <- app_assoc.
Qed.

(** A line appended to a text that is empty or ends with a line end is
    read back as one more line. *)
Lemma readlines_append (text line : pystr) :
  line_ended text = true -> newline_free line = true ->
  readlines (text ++ line ++ [10%N]) = readlines text ++ [line ++ [10%N]].
Proof.
  intros Hend Hfree; unfold readlines.
  rewrite readlines_from_app, (readlines_from_line line Hfree); [reflexivity|].
  unfold line_ended in Hend; destruct text; [reflexivity|].
  now apply N.eqb_eq.
Qed.

Lemma last_items_snoc {A} (n : nat) (l : list A) (x : A) :
  (0 < n)%nat -> last_items n (l ++ [x]) = last_items (n - 1) l ++ [x].
Proof.
  intros Hn; unfold last_items.
  rewrite length_app, skipn_app; cbn [length].
  replace (length l + 1 - n)%nat with (length l - (n - 1))%nat by lia.
  replace (length l - (n - 1) - length l)%nat with 0%nat by lia.
  reflexivity.
Qed.

Section LogExtras.
Context {services : Services}.

Lemma parsed_turns_app (a b : list pystr) :
  parsed_turns (a ++ b) = parsed_turns a ++ parsed_turns b.
Proof. unfold parsed_turns; apply flat_map_app. Qed.

Lemma parsed_turns_length (lines : list pystr) :
  (length (parsed_turns lines) <= length lines)%nat.
Proof.
  unfold parsed_turns.
  induction lines as [|line rest IH]; cbn [flat_map length]; [lia|].
  rewrite length_app; destruct (json_loads line); cbn [length]; lia.
Qed.

Lemma decodable_app (a b : pystr) :
  decodable (a ++ b) = decodable a && decodable b.
Proof. apply forallb_app. Qed.

(** X19: a turn saved to a log that is empty, missing or ends with a line
    end, the dump of the turn holding no line end, is what a process
    started afterwards loads last. When the log and the dump decode as
    UTF-8, the saved line parses and the last [limit - 1] lines of the
    former log parse or fail with [JSONDecodeError], the load with a
    positive limit returns without error and the loaded history is the
    turns of those lines followed by the turn that the saved line parses
    to. *)
Theorem saved_turn_is_loaded_last (turn turn' : json) (limit : Z)
    (st : State) :
  line_ended (log_text st) = true ->
  newline_free (json_dumps turn) = true ->
  json_loads (json_dumps turn ++ [10%N]) = Ok turn' ->
  0 < limit ->
  decodable (log_text st) = true ->
  decodable (json_dumps turn) = true ->
  loadable (last_items (Z.to_nat limit - 1) (readlines (log_text st)))
    = true ->
  load_conversation_history limit
    (restart (snd (_save_conversation_turn turn st))) =
  (Ok tt,
   {| memory := memory st;
      conversation_history :=
        parsed_turns
          (last_items (Z.to_nat limit - 1) (readlines (log_text st)))
        ++ [turn'];
      log_file := Some (log_text st ++ json_dumps turn ++ [10%N]) |}).
Proof.
  intros Hend Hfree Hparse Hlimit Hdec Hdump Hok.
  assert (Hlines :
    last_items (Z.to_nat limit)
      (readlines (log_text st ++ json_dumps turn ++ [10%N])) =
    last_items (Z.to_nat limit - 1) (readlines (log_text st)) ++
    [json_dumps turn ++ [10%N]])
    by (rewrite (readlines_append _ _ Hend Hfree), last_items_snoc by lia;
        reflexivity).
  rewrite (load_conversation_history_positive limit
             (restart (snd (_save_conversation_turn turn st)))
             (log_text st ++ json_dumps turn ++ [10%N]) Hlimit eq_refl).
  - cbn [restart conversation_history memory _save_conversation_turn snd app].
    rewrite Hlines, parsed_turns_app.
    unfold parsed_turns at 2; cbn [flat_map]; now rewrite Hparse.
  - rewrite !decodable_app, Hdec, Hdump; reflexivity.
  - rewrite Hlines; unfold loadable in *.
    rewrite forallb_app, Hok; cbn [forallb]; now rewrite Hparse.
Qed.

(** X20: whatever its outcome, [load_conversation_history] with a
    positive limit keeps the history it finds and appends at most [limit]
    turns to it, leaving log and store as they were; without a log it
    returns at once. On a log that decodes and whose last [limit] lines
    parse or fail with [JSONDecodeError] it returns without error, and it
    is not idempotent: a second call appends the same turns again. *)
Theorem load_appends_at_most_limit (limit : Z) (st : State) :
  0 < limit ->
  let once := load_conversation_history limit st in
  let twice := load_conversation_history limit (snd once) in
  exists new,
    snd once = {| memory := memory st;
                  conversation_history := conversation_history st ++ new;
                  log_file := log_file st |} /\
    (length new <= Z.to_nat limit)%nat /\
    (log_file st = None -> once = (Ok tt, st)) /\
    (forall text,
       log_file st = Some text -> decodable text = true ->
       loadable (last_items (Z.to_nat limit) (readlines text)) = true ->
       fst once = Ok tt /\
       new = parsed_turns (last_items (Z.to_nat limit) (readlines text)) /\
       fst twice = Ok tt /\
       conversation_history (snd twice) =
         conversation_history st ++ new ++ new).
Proof.
  intros Hlimit; cbv zeta.
  assert (Hnone : exists new,
            st = {| memory := memory st;
                    conversation_history := conversation_history st ++ new;
                    log_file := log_file st |} /\
            (length new <= Z.to_nat limit)%nat /\ new = [])
    by (exists []; rewrite app_nil_r; destruct st; cbn; repeat split; lia).
  destruct (log_file st) as [text|] eqn:Hlog.
  - destruct (decodable text) eqn:Hdec.
    + assert (Honce :
        load_conversation_history limit st =
        (fst (load_lines (last_items (Z.to_nat limit) (readlines text))
                (conversation_history st)),
         {| memory := memory st;
            conversation_history :=
              snd (load_lines
                     (last_items (Z.to_nat limit) (readlines text))
                     (conversation_history st));
            log_file := Some text |}))
        by (unfold load_conversation_history;
            rewrite Hlog, Hdec, py_slice_last by assumption; reflexivity).
      rewrite Honce; cbn [fst snd].
      destruct (load_lines_appends
                  (last_items (Z.to_nat limit) (readlines text))
                  (conversation_history st)) as (new & Hnew & Hlen).
      exists new; rewrite Hnew.
      rewrite length_last_items in Hlen.
      split; [reflexivity|split; [lia|split; [discriminate|]]].
      intros text' [= <-] _ Hok.
      rewrite (load_lines_parsed _ Hok) in Hnew |- *; cbn [fst snd] in *.
      apply app_inv_head in Hnew; subst new.
      split; [reflexivity|split; [reflexivity|]].
      rewrite (load_conversation_history_positive limit
                 {| memory := memory st;
                    conversation_history :=
                      conversation_history st ++
                      parsed_turns
                        (last_items (Z.to_nat limit) (readlines text));
                    log_file := Some text |}
                 text Hlimit eq_refl Hdec Hok).
      cbn [fst snd conversation_history]; split; [reflexivity|].
      now rewrite <- app_assoc.
    + assert (Honce : load_conversation_history limit st =
                      (Raise UnicodeDecodeError, st))
        by (unfold load_conversation_history; now rewrite Hlog, Hdec).
      rewrite Honce; cbn [fst snd].
      destruct Hnone as (new & Hst & Hlen & ->).
      exists [].
      split; [exact Hst|split; [exact Hlen|split; [discriminate|]]].
      intros text' [= <-]; congruence.
  - rewrite (load_conversation_history_missing limit st Hlog).
    cbn [fst snd].
    destruct Hnone as (new & Hst & Hlen & ->).
    exists [].
    split; [exact Hst|split; [exact Hlen|split; [reflexivity|]]].
    intros text' [=].
Qed.

End LogExtras.

Lemma saved_turn_is_loaded_last_witness :
  @load_conversation_history sample_services 2
    (restart
       (snd (@_save_conversation_turn sample_services (JDict [])
               (sample_state (Some sample_log))))) =
  (Ok tt,
   {| memory := memory (sample_state (Some sample_log));
      conversation_history := [JDict []; JDict []];
      log_file := Some (sample_log ++ lit "{}" ++ [10%N]) |}).
Proof.
  exact (@saved_turn_is_loaded_last sample_services (JDict []) (JDict []) 2
           (sample_state (Some sample_log)) eq_refl eq_refl eq_refl eq_refl
           eq_refl eq_refl eq_refl).
Defined.

Lemma load_appends_at_most_limit_witness :
  exists new,
    snd (@load_conversation_history sample_services 2
           (sample_state (Some sample_log))) =
    {| memory := memory (sample_state (Some sample_log));
       conversation_history := [] ++ new;
       log_file := Some sample_log |} /\
    (length new <= 2)%nat /\
    fst (@load_conversation_history sample_services 2
           (sample_state (Some sample_log))) = Ok tt.
Proof.
  destruct (@load_appends_at_most_limit sample_services 2
              (sample_state (Some sample_log)) eq_refl)
    as (new & Honce & Hlen & _ & Hok).
  exists new; split; [exact Honce|split; [exact Hlen|]].
  exact (proj1 (Hok sample_log eq_refl eq_refl eq_refl)).
Defined.

(** ** The interactive session *)

Section SessionExtras.
Context {builtins : Builtins} {services : Services}.
Variable config : Config.

Lemma handle_command_frame (command : pystr) (st : State) :
  memory (snd (handle_command command st)) = memory st /\
  log_file (snd (handle_command command st)) = log_file st.
Proof.
  unfold handle_command, mbind, lift, ret, clear_conversation_history.
  repeat match goal with
         | |- context [if ?b then _ else _] => destruct b
         | |- context [match get_stats ?s with _ => _ end] =>
             destruct (get_stats s)
         | |- context [match conversation_history ?s with _ => _ end] =>
             destruct (conversation_history s)
         | |- context [match show_turns ?l with _ => _ end] =>
             destruct (show_turns l)
         end; auto.
Qed.

Lemma query_frame (now user_query : pystr) (top_k : option Z) (st : State) :
  memory (snd (query config now user_query top_k st)) = memory st /\
  exists appended,
    log_text (snd (query config now user_query top_k st)) =
    log_text st ++ appended.
Proof.
  rewrite query_steps.
  destruct (search config (memory st) user_query top_k);
    [|split; [reflexivity|exists []; now rewrite app_nil_r]].
  destruct (generate_response _ _ _ _);
    [|split; [reflexivity|exists []; now rewrite app_nil_r]].
  cbv zeta; cbn [snd memory]; split; [reflexivity|].
  eexists; unfold log_text at 1; cbn [log_file]; reflexivity.
Qed.

(** X21: whatever is typed in an interactive session, and however it
    ends, the session never changes the memory store and only ever
    appends to the conversation log: the text of the log at the start is
    the beginning of the text at the end. *)
Theorem session_appends_to_log (inputs : list (pystr * pystr)) :
  forall st,
    memory (snd (run_interactive config inputs st)) = memory st /\
    exists appended,
      log_text (snd (run_interactive config inputs st)) =
      log_text st ++ appended.
Proof.
  induction inputs as [|[line now] rest IH]; intros st;
    cbn [run_interactive].
  - split; [reflexivity|exists []; now rewrite app_nil_r].
  - destruct (strip line) as [|c user_input] eqn:Hline; [apply IH|].
    destruct (startswith (lit "/") (c :: user_input)).
    + destruct (handle_command_frame (c :: user_input) st) as [Hm Hl].
      destruct (handle_command (c :: user_input) st) as [[[|]|e] st'];
        cbn [snd] in Hm, Hl |- *.
      * destruct (IH st') as [Hm' (appended & Ha)].
        split; [congruence|].
        exists appended; rewrite Ha; unfold log_text; now rewrite Hl.
      * split; [exact Hm|].
        exists []; unfold log_text; now rewrite Hl, app_nil_r.
      * split; [exact Hm|].
        exists []; unfold log_text; now rewrite Hl, app_nil_r.
    + destruct (query_frame now (c :: user_input) None st)
        as [Hm (first & Hl)].
      destruct (query config now (c :: user_input) None st) as [[a|e] st'];
        cbn [snd] in Hm, Hl |- *;
        destruct (IH st') as [Hm' (appended & Ha)];
        (split; [congruence|]);
        exists (first ++ appended); now rewrite Ha, Hl, app_assoc.
Qed.

End SessionExtras.

(** A session: a query, /clear, a blank line, /exit, and a line that is
    never read. One line is appended to the log and the history is empty
    at the end. *)
Example session_example :
  let outcome :=
    @run_interactive ascii_builtins sample_services sample_config
      [(lit "what do I like?", lit "2024-01-01T00:00:00");
       (lit " /CLEAR ", lit "2024-01-01T00:00:01");
       (lit "   ", lit "2024-01-01T00:00:02");
       (lit "/exit", lit "2024-01-01T00:00:03");
       (lit "never read", lit "2024-01-01T00:00:04")]
      (sample_state (Some sample_log)) in
  fst outcome = Ok tt /\
  conversation_history (snd outcome) = [] /\
  log_file (snd outcome) = Some (sample_log ++ lit "{}" ++ [10%N]).
Proof. vm_compute; repeat split; reflexivity. Qed.

(** ** Classification, continued *)

Lemma any_in_larger (words : list pystr) (t u : pystr) :
  contains t u = true -> any_in words t = true -> any_in words u = true.
Proof.
  intros Htu H; apply existsb_exists in H as (w & Hin & Hw).
  apply existsb_exists; exists w; split; [exact Hin|].
  now apply (contains_trans w t u).
Qed.

Lemma level_larger (table : list (category * list pystr)) (t u : pystr) :
  contains t u = true -> (level table u <= level table t)%nat.
Proof.
  intros Htu; induction table as [|[c words] table IH]; cbn [level];
    [lia|].
  destruct (any_in words t) eqn:Ht.
  - now rewrite (any_in_larger words t u Htu Ht).
  - destruct (any_in words u); lia.
Qed.

Section ClassificationExtras.
Context {builtins : Builtins}.

Lemma rank_is_level (text : pystr) :
  rank (_classify_message text) = level priority_table (lower text).
Proof.
  unfold _classify_message, priority_table; cbn [level].
  repeat match goal with
         | |- context [if ?b then _ else _] => destruct b; try reflexivity
         end.
Qed.

(** X22: a text whose lower-cased form holds the lower-cased form of
    another text is classified at least as early in the priority order:
    adding words around a message can move its category towards
    [business], never away from it. *)
Theorem classification_is_monotone (text larger : pystr) :
  contains (lower text) (lower larger) = true ->
  (rank (_classify_message larger) <= rank (_classify_message text))%nat.
Proof.
  intros H; rewrite !rank_is_level; now apply level_larger.
Qed.

End ClassificationExtras.

Lemma classification_is_monotone_witness :
  (rank (@_classify_message ascii_builtins
           (lit "My INVESTOR will love it")) <=
   rank (@_classify_message ascii_builtins (lit "love it")))%nat.
Proof.
  exact (@classification_is_monotone ascii_builtins (lit "love it")
           (lit "My INVESTOR will love it") eq_refl).
Defined.

(** ** Prompt and extraction, continued *)

Lemma contains_head (w after : pystr) : contains w (w ++ after) = true.
Proof. apply contains_iff; exists [], after; reflexivity. Qed.

Lemma contains_skip (w before t : pystr) :
  contains w t = true -> contains w (before ++ t) = true.
Proof.
  intros H; apply contains_iff in H as (a & b & ->).
  apply contains_iff; exists (before ++ a), b; now rewrite <- app_assoc.
Qed.

Section PromptExtras.
Variable config : Config.

Lemma current_message_holds (query context : pystr) :
  contains context (current_message config query context) = true /\
  contains query (current_message config query context) = true.
Proof.
  unfold current_message; split.
  - do 3 apply contains_skip; apply contains_head.
  - do 5 apply contains_skip; apply contains_head.
Qed.

(** X23: on both generation paths the last message of an assembled
    prompt is a user message whose text holds the context block and the
    raw query; on the OpenAI path the first message is the system
    prompt, which on the Anthropic path is passed apart from the
    messages. *)
Theorem prompt_ends_with_context_and_query (query context : pystr)
    (history : list json) (messages : list message) :
  anthropic_messages config query context history = Ok messages \/
  openai_messages config query context history = Ok messages ->
  exists text,
    last messages (lit "", JNull) = (lit "user", JStr text) /\
    contains context text = true /\
    contains query text = true /\
    (openai_messages config query context history = Ok messages ->
     hd (lit "", JNull) messages =
       (lit "system", JStr (_build_system_prompt config))).
Proof.
  intros H; exists (current_message config query context).
  destruct (current_message_holds query context) as [Hc Hq].
  unfold anthropic_messages, openai_messages in *.
  destruct (turn_messages (history_window history)) as [past|e];
    cbn [bind] in *; [|destruct H; discriminate].
  repeat split; auto.
  - destruct H as [H|H]; injection H as <-.
    + apply last_last.
    + apply (last_last ((lit "system", JStr (_build_system_prompt config))
                        :: past)).
  - intros [= <-]; reflexivity.
Qed.

End PromptExtras.

Lemma prompt_ends_with_context_and_query_witness :
  exists text,
    last [(lit "user",
           JStr (current_message sample_config (lit "now?") no_memories))]
      (lit "", JNull) = (lit "user", JStr text) /\
    contains no_memories text = true /\
    contains (lit "now?") text = true.
Proof.
  destruct (prompt_ends_with_context_and_query sample_config (lit "now?")
              no_memories []
              [(lit "user",
                JStr (current_message sample_config (lit "now?")
                        no_memories))]
              (or_introl eq_refl)) as (text & Hlast & Hc & Hq & _).
  exists text; auto.
Defined.

Section ChunkedExtraction.
Context {builtins : Builtins}.

Lemma extract_from_app (first second : list json) :
  forall i,
    extract_from i (first ++ second) =
    (facts1 <- extract_from i first ;;
     facts2 <- extract_from (i + len first) second ;;
     Ok (facts1 ++ facts2)).
Proof.
  unfold len; induction first as [|msg rest IH]; intros i; cbn [app].
  - cbn [extract_from bind length]; rewrite Z.add_0_r.
    destruct (extract_from i second); reflexivity.
  - cbn [extract_from].
    destruct (extract_one i msg) as [o|e]; cbn [bind]; [|reflexivity].
    rewrite IH.
    replace (i + Z.of_nat (length (msg :: rest)))
      with (i + 1 + Z.of_nat (length rest)) by (cbn [length]; lia).
    destruct (extract_from (i + 1) rest) as [fs|e]; cbn [bind];
      [|reflexivity].
    destruct (extract_from _ second) as [gs|e]; cbn [bind]; [|reflexivity].
    destruct o; reflexivity.
Qed.

(** X24: extraction works message by message: the facts of two lists of
    messages put end to end are the facts of the first list followed by
    those of the second, the second being numbered from the length of the
    first; and the run raises exactly when one of the two parts does. *)
Theorem extract_facts_of_concatenation (first second : list json) :
  extract_facts (first ++ second) =
  (facts1 <- extract_facts first ;;
   facts2 <- extract_from (len first) second ;;
   Ok (facts1 ++ facts2)).
Proof.
  unfold extract_facts; now rewrite extract_from_app.
Qed.

End ChunkedExtraction.
